(** * Health dataset analyzer

    A shallow embedding of [src/dataset_analyzer.py] (class
    [HealthDatasetAnalyzer]) and the properties of its loader and reporters.

    Conventions of the embedding.
    - A float64 or int64 value is an exact rational, a NaN or an infinity
      ([fnum]); rounding and the sign of zero are not modelled.
    - A [DataFrame] is an ordered association list from column names to
      columns; a column is a list of cells.
    - A method of the class is a computation over the analyzer's state
      ([self.df] and the lines written to the console) that returns a value
      or raises; a raised exception keeps the state reached so far.
    - Functions of json, numpy and pandas whose result cannot be computed
      over the rationals, or that parse text, are the fields of the class
      [Library]; what is known of pandas' own behaviour is said where it is
      used.
    - Of the console only what a line reports and the values formatted into
      it are kept, not its text. Rules and most headings, which report
      nothing and cannot fail, are left out: the console is the sequence
      of the reporting lines. *)

From Stdlib Require Import ZArith QArith Qround Qabs List String Bool Lia Lqa Sorted.
Import ListNotations.

Local Open Scope Z_scope.

(* ================================================================== *)
(** * Numbers *)
(* ================================================================== *)

Module Num.

(** A float64 value: finite, or one of the three special values. *)
Inductive fnum : Type :=
| Fin (q : Q)
| PInf
| NInf
| NaN.

Definition Qlt_bool (a b : Q) : bool := negb (Qle_bool b a).

Definition of_Z (z : Z) : fnum := Fin (inject_Z z).
Definition of_nat (n : nat) : fnum := Fin (inject_Z (Z.of_nat n)).

Definition fneg (x : fnum) : fnum :=
  match x with
  | Fin q => Fin (- q)
  | PInf => NInf
  | NInf => PInf
  | NaN => NaN
  end.

Definition fadd (x y : fnum) : fnum :=
  match x, y with
  | NaN, _ | _, NaN => NaN
  | Fin a, Fin b => Fin (a + b)
  | PInf, NInf | NInf, PInf => NaN
  | PInf, _ | _, PInf => PInf
  | NInf, _ | _, NInf => NInf
  end.

Definition fsub (x y : fnum) : fnum := fadd x (fneg y).

(** Sign of a rational as a comparison with zero. *)
Definition Qsign (q : Q) : comparison := (q ?= 0)%Q.

Definition inf_of_sign (c : comparison) : fnum :=
  match c with
  | Gt => PInf
  | Lt => NInf
  | Eq => NaN
  end.

Definition fsign (x : fnum) : option comparison :=
  match x with
  | Fin q => Some (Qsign q)
  | PInf => Some Gt
  | NInf => Some Lt
  | NaN => None
  end.

Definition sign_mul (a b : comparison) : comparison :=
  match a, b with
  | Eq, _ | _, Eq => Eq
  | Gt, c | c, Gt => c
  | Lt, Lt => Gt
  end.

Definition fmul (x y : fnum) : fnum :=
  match x, y with
  | Fin a, Fin b => Fin (a * b)
  | _, _ =>
      match fsign x, fsign y with
      | Some a, Some b => inf_of_sign (sign_mul a b)
      | _, _ => NaN
      end
  end.

(** True division of numpy: a zero divisor gives an infinity or NaN, never
    an exception. *)
Definition fdiv (x y : fnum) : fnum :=
  match x, y with
  | NaN, _ | _, NaN => NaN
  | Fin a, Fin b =>
      if Qeq_bool b 0 then inf_of_sign (Qsign a) else Fin (a / b)
  | Fin _, _ => Fin 0
  | _, Fin b =>
      match fsign x with
      | Some s => if Qlt_bool b 0 then inf_of_sign (sign_mul s Lt) else inf_of_sign s
      | None => NaN
      end
  | _, _ => NaN
  end.

(** Comparisons: every comparison with NaN is false. *)
Definition flt (x y : fnum) : bool :=
  match x, y with
  | NaN, _ | _, NaN => false
  | Fin a, Fin b => Qlt_bool a b
  | NInf, NInf => false
  | NInf, _ => true
  | _, PInf => match x with PInf => false | _ => true end
  | _, _ => false
  end.

Definition fgt (x y : fnum) : bool := flt y x.

Definition fabs (x : fnum) : fnum :=
  match x with
  | Fin q => Fin (Qabs q)
  | PInf | NInf => PInf
  | NaN => NaN
  end.

Definition is_nan (x : fnum) : bool :=
  match x with NaN => true | _ => false end.

(** [int(np.sqrt(q))] for a rational [q >= 0]: the integer part of the
    square root. The correctly rounded float square root has this integer
    part as long as [q] is below 2^52. *)
Definition int_sqrt (q : Q) : Z := Z.sqrt (Qfloor q).

End Num.
Import Num.

(* ================================================================== *)
(** * Recommended range of cluster counts *)
(* ================================================================== *)

(** [generate_clustering_recommendations], lines 233-235. [n_samples] is
    [len(features_df)]. *)
Definition k_min (n_samples : nat) : Z :=
  Z.max 2 (int_sqrt (inject_Z (Z.of_nat n_samples) / 2)).

Definition k_max (n_samples : nat) : Z :=
  Z.min 10 (int_sqrt (inject_Z (Z.of_nat n_samples))).

(* ================================================================== *)
(** * Python values, exceptions and the table *)
(* ================================================================== *)

(** What [json.loads] returns. An object is the dict built from it: its
    keys are distinct. *)
#[local] Set Warnings "-register-all".
Inductive json : Type :=
| JNull
| JBool (b : bool)
| JNum (x : fnum)
| JStr (s : string)
| JArr (items : list json)
| JObj (members : list (string * json)).

Inductive exn : Type :=
| KeyError (key : string)
| TypeError
| ValueError
| AttributeError
| ZeroDivisionError
| FileNotFoundError.

Inductive result (A : Type) : Type :=
| Ok (a : A)
| Raise (e : exn).
Arguments Ok {A} a.
Arguments Raise {A} e.

Definition rbind {A B} (r : result A) (k : A -> result B) : result B :=
  match r with
  | Ok a => k a
  | Raise e => Raise e
  end.

Fixpoint rmap {A B} (f : A -> result B) (l : list A) : result (list B) :=
  match l with
  | [] => Ok []
  | x :: tl =>
      rbind (f x) (fun y => rbind (rmap f tl) (fun ys => Ok (y :: ys)))
  end.

(** A Python [str] is a sequence of code points and a string here holds
    its UTF-8 bytes: a byte [10xxxxxx] continues the code point that the
    bytes before it began. *)
Definition continuation (c : Ascii.ascii) : bool :=
  let n := Ascii.nat_of_ascii c in
  ((128 <=? n) && (n <? 192))%nat.

(** [len(s)] of a str: the number of its code points. *)
Fixpoint str_len (s : string) : nat :=
  match s with
  | EmptyString => 0%nat
  | String c tl => if continuation c then str_len tl else S (str_len tl)
  end.

(** The code points of a str, each with its bytes; first the continuation
    bytes with which the text begins, if it is not UTF-8. *)
Fixpoint code_points (s : string) : string * list string :=
  match s with
  | EmptyString => (EmptyString, [])
  | String c tl =>
      let (pending, done) := code_points tl in
      if continuation c then (String c pending, done)
      else (EmptyString, String c pending :: done)
  end.

(** Python's [len]: [TypeError] on a value without a length. *)
Definition py_len (j : json) : result nat :=
  match j with
  | JStr s => Ok (str_len s)
  | JArr items => Ok (List.length items)
  | JObj members => Ok (List.length members)
  | JNull | JBool _ | JNum _ => Raise TypeError
  end.

(** A pandas [Timestamp], as far as the script reads it. *)
Record Timestamp : Type := mkTimestamp {
  ts_year : Z;
  ts_month : Z;
  ts_day : Z;
  ts_hour : Z;
  ts_minute : Z;
  ts_second : Z
}.

(** A cell of a column: a number (NaN for a missing value), a text, a
    Python object produced by [json.loads], or a timestamp ([None] is NaT). *)
Inductive cell : Type :=
| CNum (x : fnum)
| CStr (s : string)
| CObj (j : json)
| CTime (t : option Timestamp).

Definition Series : Type := list cell.

(** Columns in their order; [df[name]] reads the first column of that name. *)
Definition DataFrame : Type := list (string * Series).

Definition columns (df : DataFrame) : list string := map fst df.

Fixpoint get_col (name : string) (df : DataFrame) : option Series :=
  match df with
  | [] => None
  | (c, s) :: tl => if String.eqb c name then Some s else get_col name tl
  end.

(** [df[name] = s]: replaces the column in place, or appends a new one. *)
Fixpoint set_col (name : string) (s : Series) (df : DataFrame) : DataFrame :=
  match df with
  | [] => [(name, s)]
  | (c, old) :: tl =>
      if String.eqb c name then (c, s) :: tl else (c, old) :: set_col name s tl
  end.

(** [len(df)]: the number of rows. *)
Definition df_len (df : DataFrame) : nat :=
  match df with
  | [] => O
  | (_, s) :: _ => List.length s
  end.

Definition getitem (name : string) (df : DataFrame) : result Series :=
  match get_col name df with
  | Some s => Ok s
  | None => Raise (KeyError name)
  end.

Definition as_num (c : cell) : result fnum :=
  match c with
  | CNum x => Ok x
  | _ => Raise TypeError
  end.

Definition numeric (s : Series) : result (list fnum) := rmap as_num s.

Definition of_nums (l : list fnum) : Series := map CNum l.

(* ================================================================== *)
(** * The analyzer's state and its computations *)
(* ================================================================== *)

(** A line written by [print]: what it reports and the values formatted
    into it. *)
Inductive line : Type :=
| Line (what : string) (values : list cell).

Record analyzer : Type := mkAnalyzer {
  self_df : DataFrame;
  console : list line
}.

Definition M (A : Type) : Type := analyzer -> analyzer * result A.

Definition ret {A} (a : A) : M A := fun st => (st, Ok a).

Definition raise {A} (e : exn) : M A := fun st => (st, Raise e).

Definition bind {A B} (m : M A) (k : A -> M B) : M B :=
  fun st =>
    match m st with
    | (st', Ok a) => k a st'
    | (st', Raise e) => (st', Raise e)
    end.

Declare Scope py_scope.
Delimit Scope py_scope with py.
Notation "x <- m ;; k" := (bind m (fun x => k))
  (at level 61, m at next level, right associativity) : py_scope.
Notation "m ;;; k" := (bind m (fun _ => k))
  (at level 61, right associativity) : py_scope.
Local Open Scope py_scope.

Definition lift {A} (r : result A) : M A := fun st => (st, r).

Definition get_df : M DataFrame := fun st => (st, Ok (self_df st)).

(** [self.df[name]] *)
Definition self_getitem (name : string) : M Series :=
  df <- get_df ;; lift (getitem name df).

(** [self.df[name] = s] *)
Definition self_setitem (name : string) (s : Series) : M unit :=
  fun st => (mkAnalyzer (set_col name s (self_df st)) (console st), Ok tt).

(** [self.df = df] *)
Definition set_df (df : DataFrame) : M unit :=
  fun st => (mkAnalyzer df (console st), Ok tt).

Definition print (what : string) (values : list cell) : M unit :=
  fun st => (mkAnalyzer (self_df st) (console st ++ [Line what values]), Ok tt).

(** A [for] loop over a list. *)
Fixpoint for_each {A} (l : list A) (body : A -> M unit) : M unit :=
  match l with
  | [] => ret tt
  | x :: tl => body x ;;; for_each tl body
  end.

(** A loop that carries a local variable. *)
Fixpoint for_fold {A S} (l : list A) (acc : S) (body : S -> A -> M S) : M S :=
  match l with
  | [] => ret acc
  | x :: tl => acc' <- body acc x ;; for_fold tl acc' body
  end.

(** [try: body except Exception as e: handler; raise] *)
Definition try_reraise {A} (body : M A) (handler : exn -> M unit) : M A :=
  fun st =>
    match body st with
    | (st', Ok a) => (st', Ok a)
    | (st', Raise e) =>
        match handler e st' with
        | (st'', Ok _) => (st'', Raise e)
        | (st'', Raise e') => (st'', Raise e')
        end
    end.

(* ================================================================== *)
(** * The libraries *)
(* ================================================================== *)

(** The functions of json, numpy and pandas that the embedding leaves
    open. *)
Class Library : Type := {
  (** [pd.read_csv(path)] *)
  read_csv : string -> result DataFrame;
  (** [json.loads(s)] on a str; [None] when it raises *)
  json_loads : string -> option json;
  (** [pd.to_datetime] on one cell of the column *)
  to_datetime : cell -> result (option Timestamp);
  (** [Series.describe()]: the entries of the summary *)
  describe : Series -> list (string * fnum);
  (** an entry of [DataFrame.corr()]: Pearson's coefficient of two columns *)
  pearson : list fnum -> list fnum -> fnum;
  (** [Series.std()] *)
  series_std : list fnum -> fnum;
  (** [float(s)] on a str, as numpy calls it to convert an object column;
      [None] when it raises [ValueError] *)
  py_float : string -> option fnum;
  (** the text of the [KeyError] of [df[keys]]: the keys asked for and
      those the table lacks *)
  not_in_index : list string -> list string -> string
}.

(* ================================================================== *)
(** * Helpers on columns *)
(* ================================================================== *)

(** A stable insertion sort; [le a b] says that [a] may stay before [b]. *)
Fixpoint insert_sorted {A} (le : A -> A -> bool) (x : A) (l : list A) : list A :=
  match l with
  | [] => [x]
  | y :: tl => if le x y then x :: l else y :: insert_sorted le x tl
  end.

Fixpoint sort_by {A} (le : A -> A -> bool) (l : list A) : list A :=
  match l with
  | [] => []
  | x :: tl => insert_sorted le x (sort_by le tl)
  end.

(** [a <= b] on values that are not NaN. *)
Definition fle (a b : fnum) : bool := negb (flt b a).

Definition feqb (a b : fnum) : bool :=
  match a, b with
  | Fin x, Fin y => Qeq_bool x y
  | PInf, PInf | NInf, NInf => true
  | _, _ => false
  end.

Definition dropna (l : list fnum) : list fnum :=
  filter (fun x => negb (is_nan x)) l.

Definition fsum (l : list fnum) : fnum := fold_left fadd l (Fin 0).

(** [Series.mean()], [min()], [max()], [var()]: missing values are skipped. *)
Definition series_mean (l : list fnum) : fnum :=
  match dropna l with
  | [] => NaN
  | vals => fdiv (fsum vals) (of_nat (List.length vals))
  end.

Definition series_min (l : list fnum) : fnum :=
  match dropna l with
  | [] => NaN
  | x :: tl => fold_left (fun m y => if flt y m then y else m) tl x
  end.

Definition series_max (l : list fnum) : fnum :=
  match dropna l with
  | [] => NaN
  | x :: tl => fold_left (fun m y => if flt m y then y else m) tl x
  end.

Definition series_var (l : list fnum) : fnum :=
  let vals := dropna l in
  match List.length vals with
  | O | S O => NaN
  | S n =>
      let m := series_mean vals in
      fdiv (fsum (map (fun x => fmul (fsub x m) (fsub x m)) vals)) (of_nat n)
  end.

(** [Series.quantile(q)] with the default linear interpolation, for
    [0 <= q <= 1]. *)
Definition quantile (l : list fnum) (q : Q) : fnum :=
  let vals := sort_by fle (dropna l) in
  match vals with
  | [] => NaN
  | _ =>
      let last := (List.length vals - 1)%nat in
      let pos := (q * inject_Z (Z.of_nat last))%Q in
      let lo := Z.to_nat (Qfloor pos) in
      let gamma := (pos - inject_Z (Qfloor pos))%Q in
      let a := nth lo vals NaN in
      let b := nth (Nat.min (lo + 1) last) vals NaN in
      fadd a (fmul (fsub b a) (Fin gamma))
  end.

Definition isna (c : cell) : bool :=
  match c with
  | CNum NaN => true
  | CTime None => true
  | _ => false
  end.

Definition cell_eqb (a b : cell) : bool :=
  match a, b with
  | CNum x, CNum y => feqb x y
  | CStr s, CStr t => String.eqb s t
  | _, _ => false
  end.

(** The counters of [value_counts]: one entry per distinct value, in the
    order of first appearance. *)
Fixpoint count_up (c : cell) (acc : list (cell * Z)) : list (cell * Z) :=
  match acc with
  | [] => [(c, 1)]
  | (k, n) :: tl => if cell_eqb k c then (k, n + 1) :: tl else (k, n) :: count_up c tl
  end.

(** [Series.value_counts()]: missing values dropped, most frequent first;
    pandas leaves the order among equal counts open, they stay in the order
    of first appearance here. *)
Definition value_counts (s : Series) : list (cell * Z) :=
  sort_by (fun a b => snd b <=? snd a)
    (fold_left (fun acc c => if isna c then acc else count_up c acc) s []).

(** [value_counts().sort_index()] on a column of numbers. *)
Definition cell_le (a b : cell) : bool :=
  match a, b with
  | CNum x, CNum y => fle x y
  | _, _ => true
  end.

Definition value_counts_sorted (s : Series) : list (cell * Z) :=
  sort_by (fun a b => cell_le (fst a) (fst b)) (value_counts s).

Definition count_eq (c : cell) (s : Series) : Z :=
  Z.of_nat (List.length (filter (cell_eqb c) s)).

(** [value_counts().sort_index()] on a categorical column: every category,
    in the order of the categories, also with a count of zero. *)
Definition category_counts (labels : list string) (s : Series) : list (string * Z) :=
  map (fun l => (l, count_eq (CStr l) s)) labels.

(** A Python [int] and a numpy integer divide differently by zero. *)
Inductive pyint : Type :=
| PyInt (n : Z)
| NpInt (n : Z).

Definition int_value (a : pyint) : Z :=
  match a with PyInt n | NpInt n => n end.

(** [a / b]: [ZeroDivisionError] between two Python ints, numpy's division
    as soon as one side is a numpy integer. *)
Definition truediv (a b : pyint) : result fnum :=
  match a, b with
  | PyInt x, PyInt y =>
      if y =? 0 then Raise ZeroDivisionError else Ok (fdiv (of_Z x) (of_Z y))
  | _, _ => Ok (fdiv (of_Z (int_value a)) (of_Z (int_value b)))
  end.

Definition int_sub (a b : pyint) : pyint :=
  match a, b with
  | PyInt x, PyInt y => PyInt (x - y)
  | _, _ => NpInt (int_value a - int_value b)
  end.

Definition int_cell (a : pyint) : cell := CNum (of_Z (int_value a)).

(** [f"{a/b*100:.1f}"] *)
Definition percent (a b : pyint) : result cell :=
  rbind (truediv a b) (fun r => Ok (CNum (fmul r (Fin 100)))).

(** [dist.get(key, default)] on the result of [value_counts]. *)
Fixpoint counts_get (dist : list (cell * Z)) (key : cell) (default : pyint) : pyint :=
  match dist with
  | [] => default
  | (k, n) :: tl => if cell_eqb k key then NpInt n else counts_get tl key default
  end.

(** [len(x)] on a cell holding a Python object. *)
Definition cell_len (c : cell) : result nat :=
  match c with
  | CObj j => py_len j
  | CStr s => Ok (str_len s)
  | CNum _ | CTime _ => Raise TypeError
  end.

(** Iterating over a Python object, as [list.extend] does; a str gives
    its characters. *)
Definition chars (s : string) : list json :=
  map JStr (snd (code_points s)).

Definition py_iter (c : cell) : result (list json) :=
  match c with
  | CObj (JArr items) => Ok items
  | CObj (JObj members) => Ok (map (fun kv => JStr (fst kv)) members)
  | CObj (JStr s) | CStr s => Ok (chars s)
  | _ => Raise TypeError
  end.

(** Hashable values and their equality as dict keys: [True == 1 == 1.0]. *)
Definition key_number (j : json) : option fnum :=
  match j with
  | JBool true => Some (Fin 1)
  | JBool false => Some (Fin 0)
  | JNum x => Some x
  | _ => None
  end.

Definition hashable (j : json) : bool :=
  match j with
  | JArr _ | JObj _ => false
  | _ => true
  end.

Definition key_eqb (a b : json) : bool :=
  match a, b with
  | JNull, JNull => true
  | JStr s, JStr t => String.eqb s t
  | _, _ =>
      match key_number a, key_number b with
      | Some x, Some y => feqb x y
      | _, _ => false
      end
  end.

Fixpoint counter_add (j : json) (acc : list (json * Z)) : list (json * Z) :=
  match acc with
  | [] => [(j, 1)]
  | (k, n) :: tl => if key_eqb k j then (k, n + 1) :: tl else (k, n) :: counter_add j tl
  end.

(** [Counter(items)]: [TypeError] on an unhashable item. *)
Definition Counter (items : list json) : result (list (json * Z)) :=
  if forallb hashable items
  then Ok (fold_left (fun acc j => counter_add j acc) items [])
  else Raise TypeError.

Definition most_common (n : nat) (c : list (json * Z)) : list (json * Z) :=
  firstn n (sort_by (fun a b => snd b <=? snd a) c).

(** The day of the week of a civil date, Monday first. *)
Definition days_from_civil (y m d : Z) : Z :=
  let y' := if m <=? 2 then y - 1 else y in
  let era := y' / 400 in
  let yoe := y' - era * 400 in
  let mp := (m + 9) mod 12 in
  let doy := (153 * mp + 2) / 5 + d - 1 in
  let doe := yoe * 365 + yoe / 4 - yoe / 100 + doy in
  era * 146097 + doe - 719468.

Definition dow_order : list string :=
  ["Monday"; "Tuesday"; "Wednesday"; "Thursday"; "Friday"; "Saturday"; "Sunday"]%string.

Definition day_name (t : Timestamp) : string :=
  nth (Z.to_nat ((days_from_civil (ts_year t) (ts_month t) (ts_day t) + 3) mod 7))
      dow_order ""%string.

(** The [.dt] accessor: only on a column of timestamps. *)
Definition dt (s : Series) : result (list (option Timestamp)) :=
  rmap (fun c => match c with CTime t => Ok t | _ => Raise AttributeError end) s.

Definition dt_field (f : Timestamp -> cell) (t : option Timestamp) : cell :=
  match t with
  | Some ts => f ts
  | None => CNum NaN
  end.

(** First position of the best value, missing values skipped. *)
Fixpoint idx_best (better : fnum -> fnum -> bool) (l : list (cell * fnum))
    (best : option (cell * fnum)) : option (cell * fnum) :=
  match l with
  | [] => best
  | (k, v) :: tl =>
      if is_nan v then idx_best better tl best
      else match best with
           | None => idx_best better tl (Some (k, v))
           | Some (_, b) =>
               if better v b then idx_best better tl (Some (k, v))
               else idx_best better tl best
           end
  end.

(** Arithmetic on columns, element by element. *)
Definition series_add_const (s : Series) (c : Q) : result (list fnum) :=
  rbind (numeric s) (fun xs => Ok (map (fun x => fadd x (Fin c)) xs)).

Definition zip_with (f : fnum -> fnum -> fnum) (a b : list fnum) : list fnum :=
  map (fun p => f (fst p) (snd p)) (combine a b).

(* ================================================================== *)
(** * class HealthDatasetAnalyzer *)
(* ================================================================== *)

Local Open Scope string_scope.
Local Open Scope list_scope.

(** [pd.cut(x, bins, labels, right=False)] on one value:
    [bins.searchsorted(x, side='right')] counts the edges [<= x]; position
    0 and position [len(bins)] are outside every bin. *)
Definition searchsorted_right (bins : list Q) (x : fnum) : nat :=
  List.length (filter (fun b => fle (Fin b) x) bins).

Definition cut_value (bins : list Q) (labels : list string) (x : fnum) : cell :=
  let ids := searchsorted_right bins x in
  if is_nan x || Nat.eqb ids (List.length bins) || Nat.eqb ids 0
  then CNum NaN
  else match nth_error labels (ids - 1) with
       | Some l => CStr l
       | None => CNum NaN
       end.

Definition pd_cut (s : Series) (bins : list Q) (labels : list string) : result Series :=
  rbind (numeric s) (fun xs => Ok (map (cut_value bins labels) xs)).

Definition age_bins : list Q := [0; 25; 35; 45; 55; 65; 100]%Q.
Definition age_labels : list string :=
  ["16-25"; "26-35"; "36-45"; "46-55"; "56-65"; "65+"].

(** [_get_time_period] *)
Definition _get_time_period (hour : Q) : string :=
  if Qle_bool 5 hour && Qlt_bool hour 8 then "early morning"
  else if Qle_bool 8 hour && Qlt_bool hour 12 then "morning"
  else if Qle_bool 12 hour && Qlt_bool hour 14 then "noon"
  else if Qle_bool 14 hour && Qlt_bool hour 17 then "afternoon"
  else if Qle_bool 17 hour && Qlt_bool hour 20 then "evening"
  else "night".

(** The table returned by [DataFrame.corr()]. *)
Record CorrMatrix : Type := mkCorr {
  corr_columns : list string;
  corr_values : list (list fnum)
}.

Definition iloc (m : CorrMatrix) (i j : nat) : fnum :=
  nth j (nth i (corr_values m) []) NaN.

(** [range(a, b)] *)
Definition range (a b : nat) : list nat := seq a (b - a).

(** Lines 259-263: the two fences of a column and the mask of its outliers. *)
Definition Q1 (col : list fnum) : fnum := quantile col (1 # 4).
Definition Q3 (col : list fnum) : fnum := quantile col (3 # 4).
Definition IQR (col : list fnum) : fnum := fsub (Q3 col) (Q1 col).

Definition lower_fence (col : list fnum) : fnum :=
  fsub (Q1 col) (fmul (Fin (3 # 2)) (IQR col)).
Definition upper_fence (col : list fnum) : fnum :=
  fadd (Q3 col) (fmul (Fin (3 # 2)) (IQR col)).

Definition outlier_mask (col : list fnum) : list bool :=
  map (fun x => flt x (lower_fence col) || fgt x (upper_fence col)) col.

(** [mask.sum()] *)
Definition count_true (mask : list bool) : Z :=
  Z.of_nat (List.length (filter (fun b => b) mask)).

Definition outliers (col : list fnum) : Z := count_true (outlier_mask col).

(** Lines 205-207 on the columns of [features_df]. *)
Definition sleep_stress_ratio (sleep stress : Series) : result (list fnum) :=
  rbind (numeric sleep) (fun sl =>
  rbind (series_add_const stress (1 # 10)) (fun den =>
  Ok (zip_with fdiv sl den))).

Definition exercise_severity_ratio (exercise severity : Series) : result (list fnum) :=
  rbind (numeric exercise) (fun ex =>
  rbind (series_add_const severity (1 # 10)) (fun den =>
  Ok (zip_with fdiv ex den))).

Definition lifestyle_score (sleep exercise stress : Series) : result (list fnum) :=
  rbind (numeric sleep) (fun sl =>
  rbind (numeric exercise) (fun ex =>
  rbind (numeric stress) (fun st =>
  Ok (map (fun x => fdiv x (Fin 3))
        (zip_with fsub (zip_with fadd sl (map (fun x => fdiv x (Fin 10)) ex)) st))))).

(** The keys of [df[keys]] that the table lacks. *)
Definition missing_keys (keys : list string) (df : DataFrame) : list string :=
  filter (fun c => match get_col c df with Some _ => false | None => true end) keys.

Section Analyzer.

Context {lib : Library}.

(** [_parse_symptoms]: [json.loads] raises [TypeError] on a value that is
    not a str and a decode error on malformed text; the bare [except]
    catches both. *)
Definition _parse_symptoms (symptoms_str : cell) : json :=
  match symptoms_str with
  | CStr s =>
      match json_loads s with
      | Some v => v
      | None => JArr []
      end
  | _ => JArr []
  end.

(** [load_dataset] *)
Definition load_dataset (dataset_path : string) : M unit :=
  try_reraise
    (df <- lift (read_csv dataset_path) ;;
     set_df df ;;;
     print "Loaded dataset" [CNum (of_nat (df_len df))] ;;;
     symptoms <- self_getitem "symptoms" ;;
     self_setitem "symptoms_parsed"
       (map (fun c => CObj (_parse_symptoms c)) symptoms) ;;;
     parsed <- self_getitem "symptoms_parsed" ;;
     counts <- lift (rmap cell_len parsed) ;;
     self_setitem "symptom_count" (map (fun n => CNum (of_nat n)) counts) ;;;
     timestamp <- self_getitem "timestamp" ;;
     stamps <- lift (rmap to_datetime timestamp) ;;
     self_setitem "timestamp_parsed" (map CTime stamps) ;;;
     df' <- get_df ;;
     print "Records" [CNum (of_nat (df_len df'))] ;;;
     users <- self_getitem "userId" ;;
     print "Unique users" [CNum (of_nat (List.length (value_counts users)))] ;;;
     _ <- self_getitem "timestamp_parsed" ;;
     print "Date range" [])
    (fun e => print "Error loading dataset" []).

(** [HealthDatasetAnalyzer(dataset_path)]: the analyzer after [__init__],
    or the exception that [load_dataset] raised. *)
Definition new_analyzer (out : list line) : analyzer := mkAnalyzer [] out.

Definition HealthDatasetAnalyzer (dataset_path : string) (out : list line)
  : analyzer * result unit :=
  load_dataset dataset_path (new_analyzer out).

Definition len_self : M pyint :=
  df <- get_df ;; ret (PyInt (Z.of_nat (df_len df))).

Definition stats_get (stats : list (string * fnum)) (key : string) : M fnum :=
  match find (fun kv => String.eqb (fst kv) key) stats with
  | Some kv => ret (snd kv)
  | None => raise (KeyError key)
  end.

(** [analyze_basic_statistics] *)
Definition analyze_basic_statistics : M unit :=
  let numeric_cols := ["severity"; "sleep"; "stress"; "exercise"; "age"] in
  for_each numeric_cols (fun col =>
    df <- get_df ;;
    if existsb (String.eqb col) (columns df) then
      s <- self_getitem col ;;
      let stats := describe s in
      print col [] ;;;
      mean <- stats_get stats "mean" ;;
      print "Mean" [CNum mean] ;;;
      std <- stats_get stats "std" ;;
      print "Std" [CNum std] ;;;
      mn <- stats_get stats "min" ;;
      print "Min" [CNum mn] ;;;
      mx <- stats_get stats "max" ;;
      print "Max" [CNum mx]
    else ret tt) ;;;
  sc <- self_getitem "symptom_count" ;;
  counts <- lift (numeric sc) ;;
  print "Average symptoms per record" [CNum (series_mean counts)] ;;;
  print "Max symptoms in single record" [CNum (series_max counts)] ;;;
  print "Records with no symptoms"
    [CNum (of_nat (List.length (filter (fun x => feqb x (Fin 0)) counts)))] ;;;
  parsed <- self_getitem "symptoms_parsed" ;;
  lists <- lift (rmap py_iter parsed) ;;
  let all_symptoms := List.concat lists in
  symptom_counts <- lift (Counter all_symptoms) ;;
  for_each (most_common 10 symptom_counts) (fun sc =>
    print "symptom" [CObj (fst sc); CNum (of_Z (snd sc))]).

(** [analyze_demographics], lines 93-100: the age distribution. Iterating
    over a Series, as [items()] does, yields Python scalars (pandas boxes
    each value with [.item()]), so [count] is a Python int here, and so is
    [len(self.df)]. *)
Definition age_distribution : M unit :=
  age <- self_getitem "age" ;;
  groups <- lift (pd_cut age age_bins age_labels) ;;
  self_setitem "age_group" groups ;;;
  age_group <- self_getitem "age_group" ;;
  let age_dist := category_counts age_labels age_group in
  for_each age_dist (fun gc =>
    n <- len_self ;;
    pct <- lift (percent (PyInt (snd gc)) n) ;;
    print "age group" [CStr (fst gc); CNum (of_Z (snd gc)); pct]).

(** Lines 102-106: the gender distribution. *)
Definition gender_distribution : M unit :=
  gender <- self_getitem "gender" ;;
  let gender_dist := value_counts gender in
  for_each gender_dist (fun gc =>
    n <- len_self ;;
    pct <- lift (percent (PyInt (snd gc)) n) ;;
    print "gender" [fst gc; CNum (of_Z (snd gc)); pct]).

(** Lines 108-119: the medical history. [get] and indexing return the
    numpy integer of the Series, or the Python int 0 given as default. *)
Definition medical_history_distribution : M unit :=
  medical_history <- self_getitem "medical_history" ;;
  let med_hist_dist := value_counts medical_history in
  let none_count := counts_get med_hist_dist (CStr "none") (PyInt 0) in
  n <- len_self ;;
  pct <- lift (percent none_count n) ;;
  print "No medical history" [int_cell none_count; pct] ;;;
  pct' <- lift (percent (int_sub n none_count) n) ;;
  print "With medical history" [int_cell (int_sub n none_count); pct'] ;;;
  let conditions :=
    firstn 10 (filter (fun hist => negb (cell_eqb hist (CStr "none")))
                 (map fst med_hist_dist)) in
  for_each conditions (fun condition =>
    let count := counts_get med_hist_dist condition (NpInt 0) in
    n <- len_self ;;
    pct <- lift (percent count n) ;;
    print "condition" [condition; int_cell count; pct]).

(** [analyze_demographics] *)
Definition analyze_demographics : M unit :=
  age_distribution ;;;
  gender_distribution ;;;
  medical_history_distribution.

(** [DataFrame.corr()], as of pandas 2: text in a column cannot be
    converted to float. *)
Definition to_float (c : cell) : result fnum :=
  match c with
  | CNum x => Ok x
  | CStr s =>
      match py_float s with
      | Some x => Ok x
      | None => Raise ValueError
      end
  | _ => Raise ValueError
  end.

(** [df[keys]] with a list of keys: the columns in the order of the keys,
    or one [KeyError] for all the keys that are missing. *)
Definition frame_getitem (keys : list string) (df : DataFrame) : result (list Series) :=
  match missing_keys keys df with
  | [] => rmap (fun c => getitem c df) keys
  | missing => Raise (KeyError (not_in_index keys missing))
  end.

Definition corr (names : list string) (cols : list (list fnum)) : CorrMatrix :=
  mkCorr names (map (fun a => map (fun b => pearson a b) cols) cols).

(** [analyze_correlations] *)
Definition analyze_correlations : M CorrMatrix :=
  let numeric_cols :=
    ["severity"; "sleep"; "stress"; "exercise"; "age"; "symptom_count"] in
  df <- get_df ;;
  selected <- lift (frame_getitem numeric_cols df) ;;
  cols <- lift (rmap (rmap to_float) selected) ;;
  let correlation_data := corr numeric_cols cols in
  let n := List.length (corr_columns correlation_data) in
  for_each (range 0 n) (fun i =>
    for_each (range (i + 1) n) (fun j =>
      let col1 := nth i (corr_columns correlation_data) "" in
      let col2 := nth j (corr_columns correlation_data) "" in
      let corr_val := iloc correlation_data i j in
      if fgt (fabs corr_val) (Fin (3 # 10))
      then print "correlation" [CStr col1; CStr col2; CNum corr_val]
      else ret tt)) ;;;
  ret correlation_data.

(** [analyze_temporal_patterns]. With a NaT in the column the hours are
    floats, and the format [{hour:2d}] raises [ValueError] on a float. *)
Definition analyze_temporal_patterns : M unit :=
  tp <- self_getitem "timestamp_parsed" ;;
  stamps <- lift (dt tp) ;;
  self_setitem "hour" (map (dt_field (fun t => CNum (of_Z (ts_hour t)))) stamps) ;;;
  tp <- self_getitem "timestamp_parsed" ;;
  stamps <- lift (dt tp) ;;
  self_setitem "day_of_week" (map (dt_field (fun t => CStr (day_name t))) stamps) ;;;
  tp <- self_getitem "timestamp_parsed" ;;
  stamps <- lift (dt tp) ;;
  self_setitem "month" (map (dt_field (fun t => CNum (of_Z (ts_month t)))) stamps) ;;;
  hour <- self_getitem "hour" ;;
  let hour_dist := value_counts_sorted hour in
  for_each hour_dist (fun hc =>
    match fst hc with
    | CNum (Fin h) =>
        let time_period := _get_time_period h in
        if existsb isna hour then raise ValueError
        else print "hour" [CNum (Fin h); CStr time_period; CNum (of_Z (snd hc))]
    | _ => raise TypeError
    end) ;;;
  for_each dow_order (fun day =>
    dow <- self_getitem "day_of_week" ;;
    let count := count_eq (CStr day) dow in
    if (0 <? count)%Z then print day [CNum (of_Z count)] else ret tt) ;;;
  hour <- self_getitem "hour" ;;
  severity <- self_getitem "severity" ;;
  sev <- lift (numeric severity) ;;
  let severity_by_hour :=
    map (fun hc =>
           (fst hc,
            series_mean
              (map snd (filter (fun r => cell_eqb (fst hc) (fst r)) (combine hour sev)))))
        (value_counts_sorted hour) in
  match idx_best fgt severity_by_hour None, idx_best flt severity_by_hour None with
  | Some (peak_hour, peak), Some (low_hour, low) =>
      print "Peak severity hour" [peak_hour; CNum peak] ;;;
      print "Lowest severity hour" [low_hour; CNum low]
  | _, _ => raise ValueError
  end.

(** [analyze_clustering_features]: [features_df] is a table of its own. *)
Definition analyze_clustering_features : M DataFrame :=
  severity <- self_getitem "severity" ;;
  sleep <- self_getitem "sleep" ;;
  stress <- self_getitem "stress" ;;
  exercise <- self_getitem "exercise" ;;
  symptom_count <- self_getitem "symptom_count" ;;
  age <- self_getitem "age" ;;
  let features_df : DataFrame :=
    [("severity", severity); ("sleep", sleep); ("stress", stress);
     ("exercise", exercise); ("symptom_count", symptom_count); ("age", age)] in
  sl <- lift (getitem "sleep" features_df) ;;
  st <- lift (getitem "stress" features_df) ;;
  ratio <- lift (sleep_stress_ratio sl st) ;;
  let features_df := set_col "sleep_stress_ratio" (of_nums ratio) features_df in
  ex <- lift (getitem "exercise" features_df) ;;
  sv <- lift (getitem "severity" features_df) ;;
  ratio' <- lift (exercise_severity_ratio ex sv) ;;
  let features_df := set_col "exercise_severity_ratio" (of_nums ratio') features_df in
  sl <- lift (getitem "sleep" features_df) ;;
  ex <- lift (getitem "exercise" features_df) ;;
  st <- lift (getitem "stress" features_df) ;;
  score <- lift (lifestyle_score sl ex st) ;;
  let features_df := set_col "lifestyle_score" (of_nums score) features_df in
  for_each (columns features_df) (fun col =>
    s <- lift (getitem col features_df) ;;
    xs <- lift (numeric s) ;;
    print col [CNum (series_min xs); CNum (series_max xs);
               CNum (series_mean xs); CNum (series_std xs)]) ;;;
  for_each (columns features_df) (fun col =>
    s <- lift (getitem col features_df) ;;
    xs <- lift (numeric s) ;;
    print col [CNum (series_var xs)]) ;;;
  ret features_df.

(** [generate_clustering_recommendations] *)
Definition generate_clustering_recommendations (features_df : DataFrame) : M unit :=
  let n_samples := df_len features_df in
  print "Recommended K range" [CNum (of_Z (k_min n_samples)); CNum (of_Z (k_max n_samples))] ;;;
  print "Based on sample size" [CNum (of_nat n_samples)] ;;;
  scale_needed <-
    for_fold (columns features_df) [] (fun scale_needed col =>
      s <- lift (getitem col features_df) ;;
      xs <- lift (numeric s) ;;
      let col_range := fsub (series_max xs) (series_min xs) in
      if fgt col_range (Fin 10) then ret (scale_needed ++ [col]) else ret scale_needed) ;;
  match scale_needed with
  | _ :: _ => print "Features needing normalization" (map CStr scale_needed)
  | [] => print "All features in reasonable ranges" []
  end ;;;
  outlier_counts <-
    for_fold (columns features_df) [] (fun outlier_counts col =>
      s <- lift (getitem col features_df) ;;
      xs <- lift (numeric s) ;;
      let n := outliers xs in
      (if (0 <? n)%Z then
         pct <- lift (percent (NpInt n) (PyInt (Z.of_nat (df_len features_df)))) ;;
         print "outliers" [CStr col; CNum (of_Z n); pct]
       else ret tt) ;;;
      ret (outlier_counts ++ [(col, n)])) ;;
  (if (fold_left Z.add (map snd outlier_counts) 0 =? 0)%Z
   then print "No significant outliers detected" []
   else ret tt) ;;;
  importance_scores <-
    for_fold (columns features_df) [] (fun importance_scores col =>
      s <- lift (getitem col features_df) ;;
      xs <- lift (numeric s) ;;
      let cv := fdiv (series_std xs) (fadd (series_mean xs) (Fin (1 # 1000))) in
      ret (importance_scores ++ [(col, cv)])) ;;
  let sorted_features := sort_by (fun a b => fle (snd b) (snd a)) importance_scores in
  for_each sorted_features (fun fi => print "importance" [CStr (fst fi); CNum (snd fi)]).

(** [generate_report]; of the returned dict, the correlation matrix and the
    feature table. *)
Definition generate_report : M (CorrMatrix * DataFrame) :=
  print "HEALTH AI DATASET ANALYSIS REPORT" [] ;;;
  analyze_basic_statistics ;;;
  analyze_demographics ;;;
  correlation_data <- analyze_correlations ;;
  analyze_temporal_patterns ;;;
  features_df <- analyze_clustering_features ;;
  generate_clustering_recommendations features_df ;;;
  print "FINAL RECOMMENDATIONS" [] ;;;
  print "Next Steps" [] ;;;
  ret (correlation_data, features_df).

(** One turn of the loop of [main]: every exception is caught and the next
    file is analysed. *)
Definition analyze_file (out : list line) (dataset : string) : list line :=
  let out := out ++ [Line "ANALYZING" [CStr dataset]] in
  match HealthDatasetAnalyzer dataset out with
  | (analyzer, Ok _) =>
      match generate_report analyzer with
      | (st, Ok _) => console st ++ [Line "Analysis complete" [CStr dataset]]
      | (st, Raise FileNotFoundError) =>
          console st ++ [Line "Dataset file not found" [CStr dataset]]
      | (st, Raise _) => console st ++ [Line "Error analyzing" [CStr dataset]]
      end
  | (st, Raise FileNotFoundError) =>
      console st ++ [Line "Dataset file not found" [CStr dataset]]
  | (st, Raise _) => console st ++ [Line "Error analyzing" [CStr dataset]]
  end.

Definition main : list line :=
  fold_left analyze_file ["training_dataset.csv"; "enhanced_training_dataset.csv"]
    [Line "Health AI Dataset Analyzer" []]
  ++ [Line "Dataset analysis complete!" []].

End Analyzer.

(* ================================================================== *)
(** * A small dataset and an instance of the libraries *)
(* ================================================================== *)

Module Sample.

Definition quote (s : string) : string :=
  let dq := String (Ascii.ascii_of_nat 34) EmptyString in
  (dq ++ s ++ dq)%string.

Definition fever_cough : string := ("[" ++ quote "fever" ++ ", " ++ quote "cough" ++ "]")%string.

Definition num (z : Z) : cell := CNum (of_Z z).

(** Three records; the symptoms of the second are not JSON. *)
Definition csv : DataFrame :=
  [("userId", [CStr "u1"; CStr "u2"; CStr "u3"]);
   ("timestamp", [CStr "2024-01-01 08:30:00"; CStr "2024-01-02 14:00:00";
                  CStr "2024-01-03 21:15:00"]);
   ("symptoms", [CStr fever_cough; CStr "fever, cough"; CStr "[]"]);
   ("severity", [num 7; num 3; num 5]);
   ("sleep", [num 6; num 8; num 7]);
   ("stress", [num 8; num 4; num 5]);
   ("exercise", [num 10; num 30; num 20]);
   ("age", [num 24; num 25; num 99]);
   ("gender", [CStr "female"; CStr "male"; CStr "female"]);
   ("medical_history", [CStr "none"; CStr "diabetes"; CStr "none"])].

(** A file with the header line only. *)
Definition empty_csv : DataFrame := map (fun c => (fst c, [])) csv.

Definition lookup {A} (table : list (string * A)) (key : string) : option A :=
  option_map snd (find (fun kv => String.eqb (fst kv) key) table).

Definition finite (l : list fnum) : list Q :=
  flat_map (fun x => match x with Fin q => [q] | _ => [] end) l.

Definition Qsum (l : list Q) : Q := fold_left Qplus l 0%Q.

(** A square root to nine decimal places. *)
Definition sqrt9 (q : Q) : Q :=
  Qmake (Z.sqrt (Qfloor (q * inject_Z (10 ^ 18)))) (10 ^ 9).

Definition sample_pearson (a b : list fnum) : fnum :=
  let rows := combine (finite a) (finite b) in
  let n := inject_Z (Z.of_nat (List.length rows)) in
  let mx := (Qsum (map fst rows) / n)%Q in
  let my := (Qsum (map snd rows) / n)%Q in
  let sxx := Qsum (map (fun r => (fst r - mx) * (fst r - mx))%Q rows) in
  let syy := Qsum (map (fun r => (snd r - my) * (snd r - my))%Q rows) in
  let sxy := Qsum (map (fun r => (fst r - mx) * (snd r - my))%Q rows) in
  if Qeq_bool (sxx * syy) 0 then NaN else Fin (Qred (sxy / sqrt9 (sxx * syy))).

Definition sample_std (l : list fnum) : fnum :=
  match series_var l with
  | Fin v => Fin (sqrt9 v)
  | other => other
  end.

Definition sample_describe (s : Series) : list (string * fnum) :=
  match numeric s with
  | Ok (x :: tl) =>
      let xs := x :: tl in
      [("count", of_nat (List.length (dropna xs))); ("mean", series_mean xs);
       ("std", sample_std xs); ("min", series_min xs); ("max", series_max xs)]
  | _ => [("count", of_nat (List.length s)); ("unique", NaN); ("top", NaN); ("freq", NaN)]
  end.

#[export] Instance lib : Library := {
  read_csv path :=
    match lookup [("training_dataset.csv", csv); ("empty.csv", empty_csv)] path with
    | Some df => Ok df
    | None => Raise FileNotFoundError
    end;
  json_loads s :=
    lookup [(fever_cough, JArr [JStr "fever"; JStr "cough"]); ("[]", JArr [])] s;
  to_datetime c :=
    match c with
    | CStr s =>
        match lookup [("2024-01-01 08:30:00", mkTimestamp 2024 1 1 8 30 0);
                      ("2024-01-02 14:00:00", mkTimestamp 2024 1 2 14 0 0);
                      ("2024-01-03 21:15:00", mkTimestamp 2024 1 3 21 15 0)] s with
        | Some t => Ok (Some t)
        | None => Raise ValueError
        end
    | CNum NaN => Ok None
    | _ => Raise ValueError
    end;
  describe := sample_describe;
  pearson := sample_pearson;
  series_std := sample_std;
  py_float s := lookup [("1_000", Fin 1000); ("2_000", Fin 2000); ("4_000", Fin 4000)] s;
  not_in_index keys missing := (String.concat ", " missing ++ " not in index")%string
}.

(** The analyzer after loading the three records. *)
Definition loaded : analyzer := fst (HealthDatasetAnalyzer "training_dataset.csv" []).

Definition loaded_empty : analyzer := fst (HealthDatasetAnalyzer "empty.csv" []).

(** The table of features of the three records. *)
Definition features : DataFrame :=
  Eval vm_compute in
    match snd (analyze_clustering_features loaded) with
    | Ok features_df => features_df
    | Raise _ => []
    end.

End Sample.

(* ================================================================== *)
(** * Further files for the sample libraries *)
(* ================================================================== *)

Module Cases.

Definition without (name : string) (df : DataFrame) : DataFrame :=
  filter (fun c => negb (String.eqb (fst c) name)) df.

(** The three records with a symptoms cell that is the JSON number 5. *)
Definition number_csv : DataFrame :=
  set_col "symptoms" [CStr "[]"; CStr "5"; CStr "[]"] Sample.csv.

(** The three records, the second without a timestamp. *)
Definition nat_csv : DataFrame :=
  set_col "timestamp"
    [CStr "2024-01-01 08:30:00"; CNum NaN; CStr "2024-01-03 21:15:00"] Sample.csv.

(** The three records, the second without a value for sleep. *)
Definition missing_csv : DataFrame :=
  set_col "sleep" [Sample.num 6; CNum NaN; Sample.num 7] Sample.csv.

(** The three records with a stress that is written with an underscore,
    which [pd.read_csv] leaves as text and [float] accepts. *)
Definition underscore_csv : DataFrame :=
  set_col "stress" [CStr "1_000"; CStr "2_000"; CStr "4_000"] Sample.csv.

(** One record with text in the stress column. *)
Definition text_csv : DataFrame :=
  [("userId", [CStr "u1"]); ("timestamp", [CStr "2024-01-01 08:30:00"]);
   ("symptoms", [CStr "[]"]); ("severity", [Sample.num 7]); ("sleep", [Sample.num 6]);
   ("stress", [CStr "high"]); ("exercise", [Sample.num 10]); ("age", [Sample.num 24]);
   ("gender", [CStr "female"]); ("medical_history", [CStr "none"])].

#[export] Instance lib : Library := {
  read_csv path :=
    match Sample.lookup
            [("training_dataset.csv", Sample.csv);
             ("no_symptoms.csv", without "symptoms" Sample.csv);
             ("no_timestamp.csv", without "timestamp" Sample.csv);
             ("no_stress.csv", without "stress" Sample.csv);
             ("number.csv", number_csv);
             ("nat.csv", nat_csv);
             ("missing.csv", missing_csv);
             ("underscore.csv", underscore_csv);
             ("text.csv", text_csv);
             ("empty.csv", Sample.empty_csv)] path with
    | Some df => Ok df
    | None => Raise FileNotFoundError
    end;
  json_loads s :=
    Sample.lookup [(Sample.fever_cough, JArr [JStr "fever"; JStr "cough"]);
                   ("[]", JArr []); ("5", JNum (Fin 5))] s;
  to_datetime := to_datetime (Library := Sample.lib);
  describe := Sample.sample_describe;
  pearson := Sample.sample_pearson;
  series_std := Sample.sample_std;
  py_float := py_float (Library := Sample.lib);
  not_in_index := not_in_index (Library := Sample.lib)
}.

Definition loaded (path : string) : analyzer := fst (HealthDatasetAnalyzer path []).

End Cases.

(* ================================================================== *)
(** * The vocabulary of the properties *)
(* ================================================================== *)

Local Open Scope Z_scope.


Definition range_ordered (n : nat) : bool := k_min n <=? k_max n.

(** [json.loads] on the cell of a record: [None] when the call raises, on
    text that is not JSON as on a value that is not text. *)
Definition json_decode {lib : Library} (c : cell) : option json :=
  match c with
  | CStr s => json_loads s
  | _ => None
  end.



Definition age_group_of (age : Q) : cell := cut_value age_bins age_labels (Fin age).

Definition numeric_cols : list string :=
  ["severity"; "sleep"; "stress"; "exercise"; "age"; "symptom_count"].

(** The entry of the matrix for two features, by their names. *)
Definition index_of (name : string) : nat :=
  match find (fun p => String.eqb (snd p) name)
             (combine (seq 0 6) numeric_cols) with
  | Some p => fst p
  | None => 6
  end.

Definition corr_of (m : CorrMatrix) (a b : string) : fnum :=
  iloc m (index_of a) (index_of b).

(** A column of the table as [corr()] reads it. *)
Definition float_column {lib : Library} (df : DataFrame) (name : string) (xs : list fnum)
  : Prop :=
  exists s, get_col name df = Some s /\ rmap to_float s = Ok xs.

(** [|x| > 0.3]; false on NaN. *)
Definition exceeds_threshold (x : fnum) : Prop :=
  match x with
  | Fin q => (3 # 10 < Qabs q)%Q
  | PInf | NInf => True
  | NaN => False
  end.

(** Between [st] and [st'] a line for the ordered pair [(a, b)] was
    printed. *)
Definition reported (st st' : analyzer) (a b : string) : Prop :=
  exists v more,
    console st' = console st ++ more /\
    In (Line "correlation" [CStr a; CStr b; CNum v]) more.

(** The lines of the correlation report of a matrix. *)
Definition correlation_lines (m : CorrMatrix) : list line :=
  let n := List.length (corr_columns m) in
  flat_map (fun i =>
    flat_map (fun j =>
      if fgt (fabs (iloc m i j)) (Fin (3 # 10))
      then [Line "correlation"
              [CStr (nth i (corr_columns m) ""); CStr (nth j (corr_columns m) "");
               CNum (iloc m i j)]]
      else [])
      (range (i + 1) n))
    (range 0 n).

(** Line 262 on one value of the column. *)
Definition is_outlier (col : list fnum) (x : fnum) : bool :=
  flt x (fsub (quantile col (1 # 4))
              (fmul (Fin (3 # 2)) (fsub (quantile col (3 # 4)) (quantile col (1 # 4)))))
  || fgt x (fadd (quantile col (3 # 4))
                 (fmul (Fin (3 # 2)) (fsub (quantile col (3 # 4)) (quantile col (1 # 4))))).

Definition example_column : list fnum :=
  map of_Z [1; 2; 2; 3; 3; 3; 4; 4; 100].

(** What the table of features holds, record by record, for the table
    [df] it was built from. *)
Definition features_of (df features_df : DataFrame) : Prop :=
  exists severity sleep stress exercise ratio ratio' score,
    get_col "severity" df = Some severity /\
    get_col "sleep" df = Some sleep /\
    get_col "stress" df = Some stress /\
    get_col "exercise" df = Some exercise /\
    get_col "sleep_stress_ratio" features_df = Some (of_nums ratio) /\
    get_col "exercise_severity_ratio" features_df = Some (of_nums ratio') /\
    get_col "lifestyle_score" features_df = Some (of_nums score) /\
    (forall (i : nat) (sv sl st ex : fnum),
       nth_error severity i = Some (CNum sv) ->
       nth_error sleep i = Some (CNum sl) ->
       nth_error stress i = Some (CNum st) ->
       nth_error exercise i = Some (CNum ex) ->
       nth_error ratio i = Some (fdiv sl (fadd st (Fin (1 # 10)))) /\
       nth_error ratio' i = Some (fdiv ex (fadd sv (Fin (1 # 10)))) /\
       nth_error score i = Some (fdiv (fsub (fadd sl (fdiv ex (Fin 10))) st) (Fin 3))) /\
    (forall (i : nat) (sv sl st ex : Q),
       nth_error severity i = Some (CNum (Fin sv)) ->
       nth_error sleep i = Some (CNum (Fin sl)) ->
       nth_error stress i = Some (CNum (Fin st)) ->
       nth_error exercise i = Some (CNum (Fin ex)) ->
       (~ st + (1 # 10) == 0 -> nth_error ratio i = Some (Fin (sl / (st + (1 # 10)))))%Q /\
       (~ sv + (1 # 10) == 0 -> nth_error ratio' i = Some (Fin (ex / (sv + (1 # 10)))))%Q /\
       nth_error score i = Some (Fin ((sl + ex / 10 - st) / 3))).

(** C9 as it is stated: the age and the gender distribution are printed,
    and the medical history fails with the division by zero. *)
Definition fails_at_medical_history (st : analyzer) : Prop :=
  exists st1 st2 st3,
    age_distribution st = (st1, Ok tt) /\
    gender_distribution st1 = (st2, Ok tt) /\
    medical_history_distribution st2 = (st3, Raise ZeroDivisionError).

Definition input_columns : list string :=
  ["userId"; "timestamp"; "symptoms"; "severity"; "sleep"; "stress";
   "exercise"; "age"; "gender"; "medical_history"].

Definition reporter_columns : list string :=
  ["age_group"; "hour"; "day_of_week"; "month"].

(** [m] takes every state to a state related to it by [R], whether it
    returns or raises. *)
Definition preserves (R : analyzer -> analyzer -> Prop) {A} (m : M A) : Prop :=
  forall st, R st (fst (m st)).

(** The table is left as it is. *)
Definition same_df (st st' : analyzer) : Prop := self_df st' = self_df st.

(** The console only grows. *)
Definition console_grows (st st' : analyzer) : Prop :=
  exists more, console st' = console st ++ more.

(** Columns outside [names] keep their contents, and every new column has
    a name in [names]. *)
Definition only_sets (names : list string) (st st' : analyzer) : Prop :=
  (forall c, ~ In c names -> get_col c (self_df st') = get_col c (self_df st)) /\
  (forall c, In c (columns (self_df st')) -> In c (columns (self_df st)) \/ In c names).

(** ** The vocabulary of the further properties *)

(** A cell that [corr()] can read as a float: a number, or text that
    [float] accepts. *)
Definition convertible {lib : Library} (c : cell) : Prop :=
  match c with
  | CNum _ => True
  | CStr s => py_float s <> None
  | _ => False
  end.

(** A cell as [pd.read_csv] gives it: a number, NaN for an empty field,
    or text. *)
Definition csv_cell (c : cell) : Prop :=
  match c with
  | CNum _ | CStr _ => True
  | _ => False
  end.

(** Lines 195-202: the columns of [self.df] that become features. *)
Definition feature_inputs : list string :=
  ["severity"; "sleep"; "stress"; "exercise"; "symptom_count"; "age"].

(** The columns of the table of features, in their order. *)
Definition feature_columns : list string :=
  feature_inputs ++ ["sleep_stress_ratio"; "exercise_severity_ratio"; "lifestyle_score"].

(** The numbers of a column of the table of features. *)
Definition col_nums (features_df : DataFrame) (col : string) : list fnum :=
  match get_col col features_df with
  | Some s => match numeric s with Ok xs => xs | Raise _ => [] end
  | None => []
  end.

(** Every column of the table holds numbers only. *)
Definition numeric_table (features_df : DataFrame) : Prop :=
  forall c s, In (c, s) features_df -> exists xs, s = of_nums xs.

(** Lines 258-266: the line of a column with outliers. *)
Definition outlier_lines (features_df : DataFrame) : list line :=
  flat_map (fun col =>
    let n := outliers (col_nums features_df col) in
    if 0 <? n
    then [Line "outliers"
            [CStr col; CNum (of_Z n);
             CNum (fmul (fdiv (of_Z n) (of_Z (Z.of_nat (df_len features_df)))) (Fin 100))]]
    else [])
    (columns features_df).

(** Lines 268-269: the line printed when no column has outliers. *)
Definition clean_bill (features_df : DataFrame) : list line :=
  if forallb (fun col => outliers (col_nums features_df col) =? 0) (columns features_df)
  then [Line "No significant outliers detected" []]
  else [].

(** [m] returns [a] after printing [lines], whatever the state, and
    leaves the table alone. *)
Definition emits {A} (m : M A) (lines : list line) (a : A) : Prop :=
  forall st, m st = (mkAnalyzer (self_df st) (console st ++ lines), Ok a).

(** Lines 250-253: the message on the features to normalise. *)
Definition scale_message (scale_needed : list string) : line :=
  match scale_needed with
  | _ :: _ => Line "Features needing normalization" (map CStr scale_needed)
  | [] => Line "All features in reasonable ranges" []
  end.

(** Lines 339-344: the last line that [main] prints for a file. *)
Definition verdicts : list string :=
  ["Analysis complete"; "Dataset file not found"; "Error analyzing"].

Definition is_verdict (l : line) : Prop :=
  match l with Line what _ => In what verdicts end.

(** The console only grows, and by no line that is a verdict. *)
Definition no_verdict (st st' : analyzer) : Prop :=
  exists more,
    console st' = console st ++ more /\ Forall (fun l => ~ is_verdict l) more.

(** The sum of the counts of a counter. *)
Definition total (c : list (json * Z)) : Z := fold_right Z.add 0 (map snd c).

(** The counts of a list of items in the words of the property: the first
    item with one plus the number of later items equal to it, then, in the
    same way, the later items that differ from it. So every distinct item
    has one entry, the entries are in the order in which the items are
    first seen, and an entry counts the occurrences of its item. [fuel]
    bounds the number of entries. *)
Fixpoint first_seen_counts_of (fuel : nat) (items : list json) : list (json * Z) :=
  match fuel, items with
  | S fuel', x :: tl =>
      (x, 1 + Z.of_nat (List.length (filter (key_eqb x) tl)))
        :: first_seen_counts_of fuel' (filter (fun y => negb (key_eqb x y)) tl)
  | _, _ => []
  end.

Definition first_seen_counts (items : list json) : list (json * Z) :=
  first_seen_counts_of (List.length items) items.

(** No two entries are for the same key. *)
Definition distinct_keys (c : list (json * Z)) : Prop :=
  StronglySorted (fun a b => key_eqb (fst a) (fst b) = false) c.

(** Line 86: the line of a symptom and its count. *)
Definition symptom_line (sc : json * Z) : line :=
  Line "symptom" [CObj (fst sc); CNum (of_Z (snd sc))].

(** [a] may stand before [b] in the order of [most_common]. *)
Definition more_common (a b : json * Z) : Prop := snd b <= snd a.

(** The entries with count [k], in their order. *)
Definition with_count (k : Z) (c : list (json * Z)) : list (json * Z) :=
  filter (fun kv => snd kv =? k) c.

(** The order of [most_common] as the sort of [sort_by] takes it. *)
Definition by_count (a b : json * Z) : bool := snd b <=? snd a.

(* ================================================================== *)
(** * Properties *)
(* ================================================================== *)

Local Open Scope Z_scope.

(** ** Numbers *)

Lemma Qlt_bool_iff (a b : Q) : Qlt_bool a b = true <-> (a < b)%Q.
Proof.
  unfold Qlt_bool. rewrite negb_true_iff. split; intro H.
  - apply Qnot_le_lt. intro Hle. apply Qle_bool_iff in Hle. congruence.
  - destruct (Qle_bool b a) eqn:E; trivial.
    apply Qle_bool_iff in E. exfalso. exact (Qlt_not_le _ _ H E).
Qed.

Lemma Qlt_bool_false_iff (a b : Q) : Qlt_bool a b = false <-> (b <= a)%Q.
Proof.
  unfold Qlt_bool. rewrite negb_false_iff. apply Qle_bool_iff.
Qed.

Lemma fle_Fin (a b : Q) : fle (Fin a) (Fin b) = true <-> (a <= b)%Q.
Proof.
  unfold fle, flt. rewrite negb_true_iff. apply Qlt_bool_false_iff.
Qed.

Lemma fle_Fin_false (a b : Q) : fle (Fin a) (Fin b) = false <-> (b < a)%Q.
Proof.
  unfold fle, flt. rewrite negb_false_iff. apply Qlt_bool_iff.
Qed.



Lemma Qfloor_half (z : Z) : Qfloor (inject_Z z / 2) = z / 2.
Proof.
  unfold Qfloor, Qdiv, Qmult, Qinv, inject_Z. simpl.
  rewrite Z.mul_1_r. reflexivity.
Qed.

Lemma Qfloor_inject (z : Z) : Qfloor (inject_Z z) = z.
Proof. apply Qfloor_Z. Qed.

Lemma k_min_eq (n : nat) : k_min n = Z.max 2 (Z.sqrt (Z.of_nat n / 2)).
Proof. unfold k_min, int_sqrt. rewrite Qfloor_half. reflexivity. Qed.

Lemma k_max_eq (n : nat) : k_max n = Z.min 10 (Z.sqrt (Z.of_nat n)).
Proof. unfold k_max, int_sqrt. rewrite Qfloor_inject. reflexivity. Qed.

(** ** Rules for computations *)

Lemma bind_Ok {A B} (m : M A) (k : A -> M B) st st' a :
  m st = (st', Ok a) -> bind m k st = k a st'.
Proof. unfold bind. intros ->. reflexivity. Qed.

Lemma bind_Raise {A B} (m : M A) (k : A -> M B) st st' e :
  m st = (st', Raise e) -> bind m k st = (st', Raise e).
Proof. unfold bind. intros ->. reflexivity. Qed.

Lemma bind_Ok_inv {A B} (m : M A) (k : A -> M B) st st' b :
  bind m k st = (st', Ok b) ->
  exists st1 a, m st = (st1, Ok a) /\ k a st1 = (st', Ok b).
Proof.
  unfold bind. destruct (m st) as [st1 [a | e]]; intro H.
  - exists st1, a. auto.
  - discriminate.
Qed.

Lemma lift_Ok_inv {A} (r : result A) st st' a :
  lift r st = (st', Ok a) -> st' = st /\ r = Ok a.
Proof. unfold lift. intro H. inversion H. auto. Qed.

Lemma rmap_nth_error {A B} (f : A -> result B) (l : list A) (l' : list B) i x :
  rmap f l = Ok l' -> nth_error l i = Some x ->
  exists y, f x = Ok y /\ nth_error l' i = Some y.
Proof.
  revert l' i. induction l as [|a tl IH]; simpl; intros l' i H Hi.
  - destruct i; discriminate.
  - destruct (f a) as [y|] eqn:Ea; simpl in H; [|discriminate].
    destruct (rmap f tl) as [ys|] eqn:Et; simpl in H; [|discriminate].
    inversion H; subst l'. destruct i as [|i]; simpl in *.
    + inversion Hi; subst. eauto.
    + eapply IH; eauto.
Qed.

Lemma numeric_of_nums (l : list fnum) : numeric (of_nums l) = Ok l.
Proof.
  unfold numeric, of_nums. induction l as [|x tl IH]; simpl; [reflexivity|].
  rewrite IH. reflexivity.
Qed.

(** ** Relations that every step of a computation keeps *)

Section Preservation.

Context (R : analyzer -> analyzer -> Prop) {R_pre : RelationClasses.PreOrder R}.

Lemma preserves_ret {A} (a : A) : preserves R (ret a).
Proof. intro st. simpl. reflexivity. Qed.

Lemma preserves_raise {A} (e : exn) : preserves R (@raise A e).
Proof. intro st. simpl. reflexivity. Qed.

Lemma preserves_lift {A} (r : result A) : preserves R (lift r).
Proof. intro st. simpl. reflexivity. Qed.

Lemma preserves_get_df : preserves R get_df.
Proof. intro st. simpl. reflexivity. Qed.

Lemma preserves_bind {A B} (m : M A) (k : A -> M B) :
  preserves R m -> (forall a, preserves R (k a)) -> preserves R (bind m k).
Proof.
  intros Hm Hk st. unfold bind. specialize (Hm st).
  destruct (m st) as [st1 [a | e]]; simpl in *.
  - etransitivity; [exact Hm | apply Hk].
  - exact Hm.
Qed.

Lemma preserves_for_each {A} (l : list A) (body : A -> M unit) :
  (forall x, preserves R (body x)) -> preserves R (for_each l body).
Proof.
  intro Hb. induction l as [|x tl IH]; simpl.
  - apply preserves_ret.
  - apply preserves_bind; [apply Hb | intros _; exact IH].
Qed.

Lemma preserves_for_fold {A S} (l : list A) (body : S -> A -> M S) (acc : S) :
  (forall s x, preserves R (body s x)) -> preserves R (for_fold l acc body).
Proof.
  intro Hb. revert acc. induction l as [|x tl IH]; simpl; intro acc.
  - apply preserves_ret.
  - apply preserves_bind; [apply Hb | intro acc'; apply IH].
Qed.

Lemma preserves_try_reraise {A} (body : M A) (handler : exn -> M unit) :
  preserves R body -> (forall e, preserves R (handler e)) ->
  preserves R (try_reraise body handler).
Proof.
  intros Hb Hh st. unfold try_reraise. specialize (Hb st).
  destruct (body st) as [st1 [a | e]]; simpl in *; [exact Hb|].
  specialize (Hh e st1). destruct (handler e st1) as [st2 [u | e']]; simpl in *;
    etransitivity; eassumption.
Qed.

Lemma preserves_self_getitem (name : string) : preserves R (self_getitem name).
Proof.
  unfold self_getitem. apply preserves_bind; [apply preserves_get_df|].
  intro df. apply preserves_lift.
Qed.

Lemma preserves_len_self : preserves R len_self.
Proof.
  unfold len_self. apply preserves_bind; [apply preserves_get_df|].
  intro df. apply preserves_ret.
Qed.

Lemma preserves_stats_get stats key : preserves R (stats_get stats key).
Proof.
  unfold stats_get. destruct (find _ stats); [apply preserves_ret | apply preserves_raise].
Qed.

End Preservation.

(** One step of a proof that a computation keeps a relation: the rules
    above, then a case analysis on what the code branches on. *)
Ltac preserve_step :=
  match goal with
  | |- RelationClasses.PreOrder _ => exact _
  | |- forall _, _ => intro
  | |- preserves _ (ret _) => apply preserves_ret
  | |- preserves _ (raise _) => apply preserves_raise
  | |- preserves _ (lift _) => apply preserves_lift
  | |- preserves _ get_df => apply preserves_get_df
  | |- preserves _ (self_getitem _) => apply preserves_self_getitem
  | |- preserves _ len_self => apply preserves_len_self
  | |- preserves _ (stats_get _ _) => apply preserves_stats_get
  | |- preserves _ (bind _ _) => apply preserves_bind
  | |- preserves _ (for_each _ _) => apply preserves_for_each
  | |- preserves _ (for_fold _ _ _) => apply preserves_for_fold
  | |- preserves _ (if ?b then _ else _) => destruct b
  | |- preserves _ (match ?x with _ => _ end) => destruct x
  | |- preserves _ (let _ := _ in _) => cbv zeta
  end.

#[local] Instance same_df_pre : RelationClasses.PreOrder same_df.
Proof.
  split.
  - intro st. reflexivity.
  - intros a b c H1 H2. unfold same_df in *. congruence.
Qed.

#[local] Instance console_grows_pre : RelationClasses.PreOrder console_grows.
Proof.
  split.
  - intro st. exists []. rewrite app_nil_r. reflexivity.
  - intros a b c [m1 H1] [m2 H2]. exists (m1 ++ m2).
    rewrite H2, H1, app_assoc. reflexivity.
Qed.

#[local] Instance only_sets_pre names : RelationClasses.PreOrder (only_sets names).
Proof.
  split.
  - intro st. split; auto.
  - intros a b c [H1 H1'] [H2 H2']. split.
    + intros x Hx. rewrite H2, H1; auto.
    + intros x Hx. destruct (H2' x Hx) as [H | H]; auto.
Qed.

Lemma same_df_only_sets names st st' : same_df st st' -> only_sets names st st'.
Proof.
  unfold same_df. intro H. split; intros c Hc; rewrite H in *; auto.
Qed.

Lemma preserves_weaken (R R' : analyzer -> analyzer -> Prop) {A} (m : M A) :
  (forall st st', R st st' -> R' st st') -> preserves R m -> preserves R' m.
Proof. intros H Hm st. apply H, Hm. Qed.

(** ** Reading and writing columns *)

Lemma get_col_set_col_same name s df : get_col name (set_col name s df) = Some s.
Proof.
  induction df as [|[c old] tl IH]; simpl.
  - rewrite String.eqb_refl. reflexivity.
  - destruct (String.eqb c name) eqn:E; simpl; rewrite E; auto.
Qed.

Lemma get_col_set_col_other name c s df :
  c <> name -> get_col c (set_col name s df) = get_col c df.
Proof.
  intro Hne. induction df as [|[c' old] tl IH]; simpl.
  - destruct (String.eqb name c) eqn:E; [|reflexivity].
    apply String.eqb_eq in E. congruence.
  - destruct (String.eqb c' name) eqn:E; simpl.
    + apply String.eqb_eq in E. subst c'.
      destruct (String.eqb name c) eqn:E'; [|reflexivity].
      apply String.eqb_eq in E'. congruence.
    + rewrite IH. reflexivity.
Qed.

Lemma columns_set_col name s df c :
  In c (columns (set_col name s df)) -> In c (columns df) \/ c = name.
Proof.
  unfold columns. induction df as [|[c' old] tl IH]; simpl.
  - intros [H | []]. auto.
  - destruct (String.eqb c' name) eqn:E; simpl.
    + tauto.
    + intros [H | H]; auto. destruct (IH H); auto.
Qed.

Lemma print_same_df what values : preserves same_df (print what values).
Proof. intro st. reflexivity. Qed.

Lemma print_console_grows what values : preserves console_grows (print what values).
Proof. intro st. simpl. eexists. reflexivity. Qed.

Lemma print_only_sets names what values : preserves (only_sets names) (print what values).
Proof. intro st. simpl. split; auto. Qed.

Lemma setitem_console_grows name s : preserves console_grows (self_setitem name s).
Proof. intro st. simpl. exists []. rewrite app_nil_r. reflexivity. Qed.

Lemma setitem_only_sets names name s :
  In name names -> preserves (only_sets names) (self_setitem name s).
Proof.
  intros Hin st. simpl. split.
  - intros c Hc. apply get_col_set_col_other. congruence.
  - intros c Hc. apply columns_set_col in Hc. destruct Hc; subst; auto.
Qed.

Ltac preserve leaf := repeat first [preserve_step | leaf].

Ltac same_df_leaf := apply print_same_df.
Ltac console_leaf := first [apply print_console_grows | apply setitem_console_grows].
Ltac only_sets_leaf :=
  first [ apply print_only_sets
        | apply setitem_only_sets; simpl; tauto ].

(** ** What each reporter does to the table *)

Section Frames.

Context {lib : Library}.

Lemma basic_statistics_same_df : preserves same_df analyze_basic_statistics.
Proof. unfold analyze_basic_statistics. preserve same_df_leaf. Qed.

Lemma correlations_same_df : preserves same_df analyze_correlations.
Proof. unfold analyze_correlations. preserve same_df_leaf. Qed.

Lemma clustering_features_same_df : preserves same_df analyze_clustering_features.
Proof. unfold analyze_clustering_features. preserve same_df_leaf. Qed.

Lemma recommendations_same_df features_df :
  preserves same_df (generate_clustering_recommendations features_df).
Proof. unfold generate_clustering_recommendations. preserve same_df_leaf. Qed.

Lemma gender_distribution_same_df : preserves same_df gender_distribution.
Proof. unfold gender_distribution. preserve same_df_leaf. Qed.

Lemma medical_history_same_df : preserves same_df medical_history_distribution.
Proof. unfold medical_history_distribution. preserve same_df_leaf. Qed.

Lemma demographics_only_sets :
  preserves (only_sets ["age_group"]) analyze_demographics.
Proof.
  unfold analyze_demographics, age_distribution, gender_distribution,
    medical_history_distribution.
  preserve only_sets_leaf.
Qed.

Lemma temporal_only_sets :
  preserves (only_sets ["hour"; "day_of_week"; "month"]) analyze_temporal_patterns.
Proof. unfold analyze_temporal_patterns. preserve only_sets_leaf. Qed.

End Frames.

(** ** The range of cluster counts *)




Lemma range_ordered_small :
  forallb (fun n => Bool.eqb (range_ordered n) ((4 <=? n)%nat && (n <=? 241)%nat))
          (seq 0 242) = true.
Proof. vm_compute. reflexivity. Qed.

(** C6. The recommended range is well ordered, [k_min <= k_max], exactly
    for the sample counts [4 <= n <= 241]; for [n <= 3] and for [n >= 242]
    the computed [k_min] is strictly above [k_max]. *)
Theorem k_range_ordered_iff (n : nat) :
  (k_min n <= k_max n <-> (4 <= n <= 241)%nat) /\
  ((n <= 3 \/ 242 <= n)%nat -> k_max n < k_min n).
Proof.
  assert (Hiff : k_min n <= k_max n <-> (4 <= n <= 241)%nat).
  { destruct (Nat.le_gt_cases 242 n) as [Hbig | Hsmall].
    - rewrite k_min_eq, k_max_eq.
      assert (H11 : 11 <= Z.sqrt (Z.of_nat n / 2)).
      { change 11 with (Z.sqrt 121). apply Z.sqrt_le_mono.
        apply Z.div_le_lower_bound; lia. }
      split; intro H; lia.
    - pose proof range_ordered_small as Hall.
      rewrite forallb_forall in Hall.
      specialize (Hall n). rewrite in_seq in Hall.
      assert (Hn : Bool.eqb (range_ordered n) ((4 <=? n)%nat && (n <=? 241)%nat) = true)
        by (apply Hall; lia).
      apply Bool.eqb_prop in Hn. unfold range_ordered in Hn.
      rewrite <- Z.leb_le, Hn, andb_true_iff, !Nat.leb_le. tauto. }
  split; [exact Hiff|].
  intro H. apply Z.lt_nge. rewrite Hiff. lia.
Qed.

Lemma k_range_ordered_iff_witness :
  (242 <= 3 \/ 242 <= 242)%nat /\ k_max 242 < k_min 242.
Proof.
  split; [right; apply Nat.le_refl|].
  apply (proj2 (k_range_ordered_iff 242)). right. apply Nat.le_refl.
Defined.

(** ** The input columns across a report *)

Lemma only_sets_mono names names' st st' :
  incl names names' -> only_sets names st st' -> only_sets names' st st'.
Proof.
  intros Hincl [H1 H2]. split.
  - intros c Hc. apply H1. intro Hin. apply Hc, Hincl, Hin.
  - intros c Hc. destruct (H2 c Hc) as [H | H]; auto.
Qed.

Section Report.

Context {lib : Library}.

Lemma demographics_reporter_columns :
  preserves (only_sets reporter_columns) analyze_demographics.
Proof.
  apply (preserves_weaken (only_sets ["age_group"])); [|apply demographics_only_sets].
  intros a b. apply only_sets_mono. intros x Hx. simpl in *. tauto.
Qed.

Lemma temporal_reporter_columns :
  preserves (only_sets reporter_columns) analyze_temporal_patterns.
Proof.
  apply (preserves_weaken (only_sets ["hour"; "day_of_week"; "month"]));
    [|apply temporal_only_sets].
  intros a b. apply only_sets_mono. intros x Hx. simpl in *. tauto.
Qed.

Lemma same_df_reporter_columns {A} (m : M A) :
  preserves same_df m -> preserves (only_sets reporter_columns) m.
Proof. apply preserves_weaken. apply same_df_only_sets. Qed.

Lemma report_only_sets : preserves (only_sets reporter_columns) generate_report.
Proof.
  unfold generate_report.
  apply preserves_bind; [exact _ | apply print_only_sets | intros _].
  apply preserves_bind;
    [exact _ | apply same_df_reporter_columns, basic_statistics_same_df | intros _].
  apply preserves_bind; [exact _ | apply demographics_reporter_columns | intros _].
  apply preserves_bind;
    [exact _ | apply same_df_reporter_columns, correlations_same_df | intro correlation_data].
  apply preserves_bind; [exact _ | apply temporal_reporter_columns | intros _].
  apply preserves_bind;
    [exact _ | apply same_df_reporter_columns, clustering_features_same_df | intro features_df].
  apply preserves_bind;
    [exact _ | apply same_df_reporter_columns, recommendations_same_df | intros _].
  apply preserves_bind; [exact _ | apply print_only_sets | intros _].
  apply preserves_bind; [exact _ | apply print_only_sets | intros _].
  apply preserves_ret. exact _.
Qed.

(** C10. Every reporter, and the whole report, writes no column other than
    [age_group], [hour], [day_of_week] and [month] (the derived columns it
    adds to those of the loader): whether it returns or raises, every
    other column of the table, in particular each of the ten input columns,
    holds afterwards what it held before, and no other column appears. *)
Theorem report_keeps_input_columns :
  preserves (only_sets reporter_columns) analyze_basic_statistics /\
  preserves (only_sets reporter_columns) analyze_demographics /\
  preserves (only_sets reporter_columns) analyze_correlations /\
  preserves (only_sets reporter_columns) analyze_temporal_patterns /\
  preserves (only_sets reporter_columns) analyze_clustering_features /\
  (forall features_df,
     preserves (only_sets reporter_columns)
       (generate_clustering_recommendations features_df)) /\
  preserves (only_sets reporter_columns) generate_report /\
  (forall st c,
     In c input_columns ->
     get_col c (self_df (fst (generate_report st))) = get_col c (self_df st)).
Proof.
  refine (conj _ (conj _ (conj _ (conj _ (conj _ (conj _ (conj _ _))))))).
  - apply same_df_reporter_columns, basic_statistics_same_df.
  - apply demographics_reporter_columns.
  - apply same_df_reporter_columns, correlations_same_df.
  - apply temporal_reporter_columns.
  - apply same_df_reporter_columns, clustering_features_same_df.
  - intro f. apply same_df_reporter_columns, recommendations_same_df.
  - exact report_only_sets.
  - intros st c Hc. apply (report_only_sets st).
    unfold input_columns, reporter_columns in *. simpl in *.
    intro Hd.
    repeat match goal with
           | H : _ \/ _ |- _ => destruct H
           | H : False |- _ => destruct H
           end; subst; discriminate.
Qed.

End Report.

Lemma report_keeps_input_columns_witness :
  In "age" input_columns /\
  get_col "age" (self_df (fst (generate_report (lib := Sample.lib) Sample.loaded))) =
    get_col "age" (self_df Sample.loaded).
Proof.
  split; [simpl; tauto|].
  apply (proj2 (proj2 (proj2 (proj2 (proj2 (proj2 (proj2
           (report_keeps_input_columns (lib := Sample.lib)))))))) Sample.loaded "age").
  simpl. tauto.
Defined.

(** ** The demographics of an empty table *)

Lemma df_len_set_col_empty name df :
  df_len df = 0%nat -> df_len (set_col name [] df) = 0%nat.
Proof.
  destruct df as [|[c old] tl]; simpl; [reflexivity|].
  destruct (String.eqb c name); simpl; auto.
Qed.

Section ZeroRecords.

Context {lib : Library}.

Lemma self_getitem_Ok name st s :
  get_col name (self_df st) = Some s -> self_getitem name st = (st, Ok s).
Proof.
  intro H. unfold self_getitem, bind, get_df, lift, getitem. rewrite H. reflexivity.
Qed.

Lemma len_self_eq st : len_self st = (st, Ok (PyInt (Z.of_nat (df_len (self_df st))))).
Proof. reflexivity. Qed.

(** On a table without records the first share of the age distribution is
    [0 / 0] between two Python ints. *)
Lemma age_distribution_empty (st : analyzer) :
  df_len (self_df st) = 0%nat ->
  get_col "age" (self_df st) = Some [] ->
  age_distribution st =
    (mkAnalyzer (set_col "age_group" [] (self_df st)) (console st),
     Raise ZeroDivisionError).
Proof.
  intros Hlen Hage.
  pose proof (df_len_set_col_empty "age_group" _ Hlen) as Hlen'.
  unfold age_distribution.
  erewrite bind_Ok by (apply self_getitem_Ok; exact Hage).
  erewrite bind_Ok by reflexivity.
  erewrite bind_Ok by reflexivity.
  erewrite bind_Ok by (apply self_getitem_Ok; apply get_col_set_col_same).
  cbv zeta. cbn [map].
  change (category_counts age_labels []) with
    [("16-25", 0); ("26-35", 0); ("36-45", 0); ("46-55", 0); ("56-65", 0); ("65+", 0)].
  cbn [for_each].
  erewrite bind_Raise; [reflexivity|].
  erewrite bind_Ok by apply len_self_eq.
  cbn [self_df]. rewrite Hlen'. reflexivity.
Qed.

Lemma medical_history_empty (st : analyzer) :
  df_len (self_df st) = 0%nat ->
  get_col "medical_history" (self_df st) = Some [] ->
  medical_history_distribution st = (st, Raise ZeroDivisionError).
Proof.
  intros Hlen Hmed. unfold medical_history_distribution.
  erewrite bind_Ok by (apply self_getitem_Ok; exact Hmed).
  cbv zeta.
  erewrite bind_Ok by apply len_self_eq.
  rewrite Hlen. reflexivity.
Qed.

(** On the table loaded from a file with the header line only, the
    division by zero is raised in the age distribution, before anything is
    printed; the medical history is not reached. *)
Lemma medical_history_not_reached_counterexample :
  age_distribution Sample.loaded_empty =
    (mkAnalyzer (set_col "age_group" [] (self_df Sample.loaded_empty))
       (console Sample.loaded_empty),
     Raise ZeroDivisionError) /\
  ~ fails_at_medical_history Sample.loaded_empty.
Proof.
  assert (H : age_distribution Sample.loaded_empty =
              (mkAnalyzer (set_col "age_group" [] (self_df Sample.loaded_empty))
                 (console Sample.loaded_empty),
               Raise ZeroDivisionError))
    by (apply age_distribution_empty; reflexivity).
  split; [exact H|].
  intros (st1 & st2 & st3 & Hage & _). rewrite H in Hage. discriminate Hage.
Qed.

(** C9, amended. On a loaded table without records the demographics
    reporter raises [ZeroDivisionError] at the first share of the age
    distribution, the count of the first age group divided by
    [len(self.df)], both Python ints equal to 0; nothing of the
    demographics is printed, the gender distribution and the medical
    history are not reached, and the report of that dataset does not
    return. The share of records without medical history, run on such a
    table, raises the same error. *)
Theorem demographics_zero_records (st : analyzer) :
  df_len (self_df st) = 0%nat ->
  get_col "age" (self_df st) = Some [] ->
  (exists st',
     age_distribution st = (st', Raise ZeroDivisionError) /\
     analyze_demographics st = (st', Raise ZeroDivisionError) /\
     console st' = console st) /\
  (exists st'' e, generate_report st = (st'', Raise e)) /\
  (get_col "medical_history" (self_df st) = Some [] ->
   medical_history_distribution st = (st, Raise ZeroDivisionError)).
Proof.
  intros Hlen Hage.
  pose proof (age_distribution_empty st Hlen Hage) as Hfail.
  split; [|split].
  - eexists. split; [exact Hfail|]. split; [|reflexivity].
    unfold analyze_demographics. erewrite bind_Raise by exact Hfail. reflexivity.
  - unfold generate_report.
    set (st0 := fst (print "HEALTH AI DATASET ANALYSIS REPORT" [] st)).
    rewrite (bind_Ok _ _ st st0 tt) by reflexivity.
    pose proof (basic_statistics_same_df st0) as Hsame. unfold same_df in Hsame.
    destruct (analyze_basic_statistics st0) as [st1 [[] | e]] eqn:Ebasic.
    + rewrite (bind_Ok _ _ st0 st1 tt) by exact Ebasic.
      simpl in Hsame.
      assert (Hdf : self_df st1 = self_df st) by (rewrite Hsame; reflexivity).
      erewrite bind_Raise.
      * do 2 eexists. reflexivity.
      * unfold analyze_demographics. erewrite bind_Raise; [reflexivity|].
        apply age_distribution_empty; rewrite Hdf; assumption.
    + erewrite bind_Raise by exact Ebasic. do 2 eexists. reflexivity.
  - intro Hmed. apply medical_history_empty; assumption.
Qed.

End ZeroRecords.

Lemma demographics_zero_records_witness :
  df_len (self_df Sample.loaded_empty) = 0%nat /\
  get_col "age" (self_df Sample.loaded_empty) = Some [] /\
  (exists st',
     age_distribution Sample.loaded_empty = (st', Raise ZeroDivisionError) /\
     analyze_demographics Sample.loaded_empty = (st', Raise ZeroDivisionError) /\
     console st' = console Sample.loaded_empty) /\
  (exists st'' e,
     generate_report (lib := Sample.lib) Sample.loaded_empty = (st'', Raise e)) /\
  (get_col "medical_history" (self_df Sample.loaded_empty) = Some [] ->
   medical_history_distribution Sample.loaded_empty =
     (Sample.loaded_empty, Raise ZeroDivisionError)).
Proof.
  split; [reflexivity|]. split; [reflexivity|].
  apply (demographics_zero_records (lib := Sample.lib) Sample.loaded_empty); reflexivity.
Defined.

(** ** Age groups *)

Ltac decide_edges x :=
  repeat match goal with
         | |- context [fle (Fin ?b) (Fin x)] =>
             first [ rewrite (proj2 (fle_Fin b x)) by lra
                   | rewrite (proj2 (fle_Fin_false b x)) by lra ]
         end.

Ltac cut_in_bin x :=
  unfold cut_value, searchsorted_right, age_bins; simpl filter;
  decide_edges x; reflexivity.

Lemma age_group_cases (age : Q) :
  ((age < 0)%Q /\ age_group_of age = CNum NaN) \/
  ((0 <= age < 25)%Q /\ age_group_of age = CStr "16-25") \/
  ((25 <= age < 35)%Q /\ age_group_of age = CStr "26-35") \/
  ((35 <= age < 45)%Q /\ age_group_of age = CStr "36-45") \/
  ((45 <= age < 55)%Q /\ age_group_of age = CStr "46-55") \/
  ((55 <= age < 65)%Q /\ age_group_of age = CStr "56-65") \/
  ((65 <= age < 100)%Q /\ age_group_of age = CStr "65+") \/
  ((100 <= age)%Q /\ age_group_of age = CNum NaN).
Proof.
  unfold age_group_of.
  destruct (Qlt_le_dec age 0); [left; split; [assumption | cut_in_bin age]|right].
  destruct (Qlt_le_dec age 25); [left; split; [lra | cut_in_bin age]|right].
  destruct (Qlt_le_dec age 35); [left; split; [lra | cut_in_bin age]|right].
  destruct (Qlt_le_dec age 45); [left; split; [lra | cut_in_bin age]|right].
  destruct (Qlt_le_dec age 55); [left; split; [lra | cut_in_bin age]|right].
  destruct (Qlt_le_dec age 65); [left; split; [lra | cut_in_bin age]|right].
  destruct (Qlt_le_dec age 100); [left; split; [lra | cut_in_bin age]|right].
  split; [assumption | cut_in_bin age].
Qed.

Ltac by_age_cases age :=
  let H := fresh "H" in
  split; intro H;
  [ destruct (age_group_cases age) as
      [[? E]|[[? E]|[[? E]|[[? E]|[[? E]|[[? E]|[[? E]|[? E]]]]]]]];
    rewrite E in H; first [discriminate H | lra | tauto]
  | destruct (age_group_cases age) as
      [[? E]|[[? E]|[[? E]|[[? E]|[[? E]|[[? E]|[[? E]|[? E]]]]]]]];
    first [exact E | exfalso; lra | exfalso; destruct H; lra] ].

Lemma demographics_sets_age_group (st : analyzer) (ages : list fnum) :
  get_col "age" (self_df st) = Some (of_nums ages) ->
  get_col "age_group" (self_df (fst (analyze_demographics st))) =
    Some (map (cut_value age_bins age_labels) ages).
Proof.
  intro Hage.
  assert (Hrest : preserves same_df
                    (gender_distribution ;;; medical_history_distribution)).
  { apply preserves_bind;
      [exact _ | apply gender_distribution_same_df
      | intros _; apply medical_history_same_df]. }
  assert (Hdf : self_df (fst (age_distribution st)) =
                set_col "age_group" (map (cut_value age_bins age_labels) ages) (self_df st)).
  { unfold age_distribution.
    erewrite bind_Ok by (apply self_getitem_Ok; exact Hage).
    erewrite bind_Ok.
    2:{ unfold lift, pd_cut. rewrite numeric_of_nums. reflexivity. }
    erewrite bind_Ok by reflexivity.
    match goal with
    | |- context [fst (?m ?s)] =>
        assert (Hsame : preserves same_df m) by (preserve same_df_leaf);
        rewrite (Hsame s)
    end.
    reflexivity. }
  unfold analyze_demographics, bind.
  destruct (age_distribution st) as [st1 [[] | e]] eqn:E; simpl in Hdf.
  - specialize (Hrest st1). unfold same_df, bind in Hrest.
    destruct (gender_distribution st1) as [st2 [[] | e]]; simpl in *;
      rewrite Hrest, Hdf; apply get_col_set_col_same.
  - simpl. rewrite Hdf. apply get_col_set_col_same.
Qed.

(** C2. The age groups are the six right-open bins [0,25), [25,35),
    [35,45), [45,55), [55,65) and [65,100) with the labels "16-25" to
    "65+", and an age below 0 or from 100 on is in no bin: age 24 is in
    "16-25", age 25 in "26-35", age 99 in "65+" and age 100 in none. The
    demographics reporter stores these groups in the column [age_group]. *)
Theorem age_bucketing :
  (forall age : Q,
     (age_group_of age = CStr "16-25" <-> (0 <= age < 25)%Q) /\
     (age_group_of age = CStr "26-35" <-> (25 <= age < 35)%Q) /\
     (age_group_of age = CStr "36-45" <-> (35 <= age < 45)%Q) /\
     (age_group_of age = CStr "46-55" <-> (45 <= age < 55)%Q) /\
     (age_group_of age = CStr "56-65" <-> (55 <= age < 65)%Q) /\
     (age_group_of age = CStr "65+" <-> (65 <= age < 100)%Q) /\
     (age_group_of age = CNum NaN <-> (age < 0 \/ 100 <= age)%Q)) /\
  (age_group_of 24 = CStr "16-25" /\ age_group_of 25 = CStr "26-35" /\
   age_group_of 99 = CStr "65+" /\ age_group_of 100 = CNum NaN) /\
  (forall (st : analyzer) (ages : list Q),
     get_col "age" (self_df st) = Some (map (fun a => CNum (Fin a)) ages) ->
     get_col "age_group" (self_df (fst (analyze_demographics st))) =
       Some (map age_group_of ages)).
Proof.
  split; [|split].
  - intro age. repeat split; try (intros; by_age_cases age).
    all: try solve [destruct (age_group_cases age) as
      [[? E]|[[? E]|[[? E]|[[? E]|[[? E]|[[? E]|[[? E]|[? E]]]]]]]];
      first [ rewrite E in *; discriminate | lra | exact E | tauto ]].
  - repeat split; reflexivity.
  - intros st ages Hage.
    rewrite (demographics_sets_age_group st (map Fin ages)).
    + rewrite map_map. reflexivity.
    + rewrite Hage. unfold of_nums. rewrite map_map. reflexivity.
Qed.

Lemma age_bucketing_witness :
  get_col "age" (self_df Sample.loaded) =
    Some (map (fun a => CNum (Fin a)) [24; 25; 99]%Q) /\
  get_col "age_group" (self_df (fst (analyze_demographics Sample.loaded))) =
    Some (map age_group_of [24; 25; 99]%Q).
Proof.
  split; [reflexivity|].
  apply (proj2 (proj2 age_bucketing) Sample.loaded [24; 25; 99]%Q). reflexivity.
Defined.

(** ** Outliers *)




(** ** Derived features *)

Lemma nth_error_zip_with f (a b : list fnum) i x y :
  nth_error a i = Some x -> nth_error b i = Some y ->
  nth_error (zip_with f a b) i = Some (f x y).
Proof.
  unfold zip_with. revert b i. induction a as [|a0 a IH]; intros b i Ha Hb.
  - destruct i; discriminate.
  - destruct b as [|b0 b]; [destruct i; discriminate|].
    destruct i as [|i]; simpl in *.
    + inversion Ha; inversion Hb; subst. reflexivity.
    + apply IH; assumption.
Qed.

Lemma numeric_nth_error (s : Series) (l : list fnum) i x :
  numeric s = Ok l -> nth_error s i = Some (CNum x) -> nth_error l i = Some x.
Proof.
  intros H Hi. destruct (rmap_nth_error _ _ _ _ _ H Hi) as (y & Hy & Hn).
  simpl in Hy. inversion Hy; subst. exact Hn.
Qed.

Lemma series_add_const_nth_error (s : Series) (c : Q) (l : list fnum) i x :
  series_add_const s c = Ok l -> nth_error s i = Some (CNum x) ->
  nth_error l i = Some (fadd x (Fin c)).
Proof.
  unfold series_add_const. destruct (numeric s) as [xs|] eqn:E; simpl; [|discriminate].
  intros H Hi. inversion H; subst.
  rewrite nth_error_map, (numeric_nth_error _ _ _ _ E Hi). reflexivity.
Qed.

Lemma sleep_stress_ratio_row sleep stress r i a b :
  sleep_stress_ratio sleep stress = Ok r ->
  nth_error sleep i = Some (CNum a) -> nth_error stress i = Some (CNum b) ->
  nth_error r i = Some (fdiv a (fadd b (Fin (1 # 10)))).
Proof.
  unfold sleep_stress_ratio.
  destruct (numeric sleep) as [sl|] eqn:E1; simpl; [|discriminate].
  destruct (series_add_const stress (1 # 10)) as [den|] eqn:E2; simpl; [|discriminate].
  intros H Ha Hb. inversion H; subst.
  apply nth_error_zip_with.
  - eapply numeric_nth_error; eassumption.
  - eapply series_add_const_nth_error; eassumption.
Qed.

Lemma exercise_severity_ratio_row exercise severity r i a b :
  exercise_severity_ratio exercise severity = Ok r ->
  nth_error exercise i = Some (CNum a) -> nth_error severity i = Some (CNum b) ->
  nth_error r i = Some (fdiv a (fadd b (Fin (1 # 10)))).
Proof.
  unfold exercise_severity_ratio.
  destruct (numeric exercise) as [ex|] eqn:E1; simpl; [|discriminate].
  destruct (series_add_const severity (1 # 10)) as [den|] eqn:E2; simpl; [|discriminate].
  intros H Ha Hb. inversion H; subst.
  apply nth_error_zip_with.
  - eapply numeric_nth_error; eassumption.
  - eapply series_add_const_nth_error; eassumption.
Qed.

Lemma lifestyle_score_row sleep exercise stress r i a b c :
  lifestyle_score sleep exercise stress = Ok r ->
  nth_error sleep i = Some (CNum a) -> nth_error exercise i = Some (CNum b) ->
  nth_error stress i = Some (CNum c) ->
  nth_error r i = Some (fdiv (fsub (fadd a (fdiv b (Fin 10))) c) (Fin 3)).
Proof.
  unfold lifestyle_score.
  destruct (numeric sleep) as [sl|] eqn:E1; simpl; [|discriminate].
  destruct (numeric exercise) as [ex|] eqn:E2; simpl; [|discriminate].
  destruct (numeric stress) as [st|] eqn:E3; simpl; [|discriminate].
  intros H Ha Hb Hc. inversion H; subst.
  rewrite nth_error_map.
  erewrite nth_error_zip_with; [reflexivity | | eapply numeric_nth_error; eassumption].
  apply nth_error_zip_with; [eapply numeric_nth_error; eassumption|].
  rewrite nth_error_map. erewrite numeric_nth_error by eassumption. reflexivity.
Qed.

Lemma self_getitem_Ok_inv name st st' s :
  self_getitem name st = (st', Ok s) ->
  st' = st /\ get_col name (self_df st) = Some s.
Proof.
  unfold self_getitem, bind, get_df, lift, getitem.
  destruct (get_col name (self_df st)); intro H; inversion H; auto.
Qed.

(** Inversion of a computation that returned: one step at a time. *)
Ltac invert_step H :=
  let st1 := fresh "st" in
  let a := fresh "a" in
  let H1 := fresh "Hstep" in
  apply bind_Ok_inv in H; destruct H as (st1 & a & H1 & H);
  first
    [ apply self_getitem_Ok_inv in H1; destruct H1 as [-> H1]
    | apply lift_Ok_inv in H1; destruct H1 as [-> H1] ].

Section Features.

Context {lib : Library}.

Lemma clustering_features_inv st st' features_df :
  analyze_clustering_features st = (st', Ok features_df) ->
  exists severity sleep stress exercise symptom_count age r1 r2 r3,
    get_col "severity" (self_df st) = Some severity /\
    get_col "sleep" (self_df st) = Some sleep /\
    get_col "stress" (self_df st) = Some stress /\
    get_col "exercise" (self_df st) = Some exercise /\
    sleep_stress_ratio sleep stress = Ok r1 /\
    exercise_severity_ratio exercise severity = Ok r2 /\
    lifestyle_score sleep exercise stress = Ok r3 /\
    features_df =
      [("severity", severity); ("sleep", sleep); ("stress", stress);
       ("exercise", exercise); ("symptom_count", symptom_count); ("age", age);
       ("sleep_stress_ratio", of_nums r1); ("exercise_severity_ratio", of_nums r2);
       ("lifestyle_score", of_nums r3)].
Proof.
  unfold analyze_clustering_features. intro H.
  do 6 invert_step H.
  cbv zeta in H.
  repeat (invert_step H;
          try match goal with
              | Hs : getitem _ _ = Ok _ |- _ =>
                  cbn in Hs; inversion Hs; subst; clear Hs
              end).
  apply bind_Ok_inv in H. destruct H as (st1 & u1 & _ & H).
  apply bind_Ok_inv in H. destruct H as (st2 & u2 & _ & H).
  inversion H; subst.
  do 9 eexists. repeat (split; [eassumption|]). reflexivity.
Qed.

(** C7. Whenever the feature analyzer returns its table, each record
    has [sleep_stress_ratio = sleep / (stress + 0.1)],
    [exercise_severity_ratio = exercise / (severity + 0.1)] and
    [lifestyle_score = (sleep + exercise/10 - stress) / 3], computed from
    the record's own values; on finite values with a nonzero divisor these
    are the rational quotients, and sleep 8, exercise 30, stress 4 give the
    score 7/3. *)
Theorem derived_features (st st' : analyzer) (features_df : DataFrame) :
  analyze_clustering_features st = (st', Ok features_df) ->
  features_of (self_df st) features_df /\
  lifestyle_score [CNum (Fin 8)] [CNum (Fin 30)] [CNum (Fin 4)] = Ok [Fin (70 # 30)] /\
  (70 # 30 == (8 + 3 - 4) / 3)%Q.
Proof.
  intro H.
  destruct (clustering_features_inv _ _ _ H)
    as (severity & sleep & stress & exercise & sc & age & r1 & r2 & r3 &
        Hsv & Hsl & Hst & Hex & Hr1 & Hr2 & Hr3 & ->).
  split; [|split; reflexivity].
  exists severity, sleep, stress, exercise, r1, r2, r3.
  repeat (split; [first [assumption | reflexivity]|]).
  assert (Hrows : forall (i : nat) (sv sl st ex : fnum),
             nth_error severity i = Some (CNum sv) ->
             nth_error sleep i = Some (CNum sl) ->
             nth_error stress i = Some (CNum st) ->
             nth_error exercise i = Some (CNum ex) ->
             nth_error r1 i = Some (fdiv sl (fadd st (Fin (1 # 10)))) /\
             nth_error r2 i = Some (fdiv ex (fadd sv (Fin (1 # 10)))) /\
             nth_error r3 i = Some (fdiv (fsub (fadd sl (fdiv ex (Fin 10))) st) (Fin 3))).
  { intros i sv sl st0 ex Hi1 Hi2 Hi3 Hi4. split; [|split].
    - eapply sleep_stress_ratio_row; eassumption.
    - eapply exercise_severity_ratio_row; eassumption.
    - eapply lifestyle_score_row; eassumption. }
  split; [exact Hrows|].
  intros i sv sl st0 ex Hi1 Hi2 Hi3 Hi4.
  destruct (Hrows i _ _ _ _ Hi1 Hi2 Hi3 Hi4) as (H1 & H2 & H3).
  split; [|split].
  - intro Hnz. rewrite H1. simpl.
    destruct (Qeq_bool (st0 + (1 # 10)) 0) eqn:E; [|reflexivity].
    apply Qeq_bool_iff in E. contradiction.
  - intro Hnz. rewrite H2. simpl.
    destruct (Qeq_bool (sv + (1 # 10)) 0) eqn:E; [|reflexivity].
    apply Qeq_bool_iff in E. contradiction.
  - rewrite H3. reflexivity.
Qed.

End Features.

Lemma derived_features_witness :
  analyze_clustering_features (lib := Sample.lib) Sample.loaded =
    (fst (analyze_clustering_features (lib := Sample.lib) Sample.loaded),
     Ok Sample.features) /\
  features_of (self_df Sample.loaded) Sample.features /\
  lifestyle_score [CNum (Fin 8)] [CNum (Fin 30)] [CNum (Fin 4)] = Ok [Fin (70 # 30)] /\
  (70 # 30 == (8 + 3 - 4) / 3)%Q.
Proof.
  split; [vm_compute; reflexivity|].
  apply (derived_features (lib := Sample.lib) Sample.loaded
           (fst (analyze_clustering_features (lib := Sample.lib) Sample.loaded))
           Sample.features).
  vm_compute. reflexivity.
Defined.

(** ** The offset of the two ratios *)




(** ** The correlation report *)

Lemma exceeds_threshold_iff (x : fnum) :
  fgt (fabs x) (Fin (3 # 10)) = true <-> exceeds_threshold x.
Proof.
  destruct x; simpl; unfold fgt; simpl.
  - apply Qlt_bool_iff.
  - tauto.
  - tauto.
  - split; [discriminate | tauto].
Qed.

Lemma for_each_prints {A} (l : list A) (f : A -> list line) (body : A -> M unit) :
  (forall x st, body x st = (mkAnalyzer (self_df st) (console st ++ f x), Ok tt)) ->
  forall st,
    for_each l body st = (mkAnalyzer (self_df st) (console st ++ flat_map f l), Ok tt).
Proof.
  intro Hb. induction l as [|x tl IH]; intro st; simpl.
  - rewrite app_nil_r. destruct st. reflexivity.
  - erewrite bind_Ok by apply Hb. rewrite IH. simpl.
    rewrite <- app_assoc. reflexivity.
Qed.

Lemma print_if (c : bool) what values st :
  (if c then print what values else ret tt) st =
  (mkAnalyzer (self_df st) (console st ++ (if c then [Line what values] else [])), Ok tt).
Proof.
  destruct c; [reflexivity|]. rewrite app_nil_r. destruct st. reflexivity.
Qed.

Lemma in_range a b i : In i (range a b) <-> (a <= i < b)%nat.
Proof. unfold range. rewrite in_seq. lia. Qed.

Lemma in_correlation_lines (m : CorrMatrix) (a b : string) (v : fnum) :
  In (Line "correlation" [CStr a; CStr b; CNum v]) (correlation_lines m) <->
  exists i j,
    (i < j < List.length (corr_columns m))%nat /\
    exceeds_threshold (iloc m i j) /\
    a = nth i (corr_columns m) "" /\ b = nth j (corr_columns m) "" /\
    v = iloc m i j.
Proof.
  unfold correlation_lines. rewrite in_flat_map. split.
  - intros (i & Hi & Hin). rewrite in_flat_map in Hin.
    destruct Hin as (j & Hj & Hin).
    rewrite in_range in Hi, Hj.
    destruct (fgt (fabs (iloc m i j)) (Fin (3 # 10))) eqn:E; [|destruct Hin].
    destruct Hin as [Heq | []]. inversion Heq; subst.
    exists i, j. rewrite <- exceeds_threshold_iff. repeat split; auto; lia.
  - intros (i & j & Hij & Hex & -> & -> & ->).
    exists i. split; [rewrite in_range; lia|].
    rewrite in_flat_map. exists j. split; [rewrite in_range; lia|].
    apply exceeds_threshold_iff in Hex. rewrite Hex. left. reflexivity.
Qed.

Lemma numeric_cols_index (i j : nat) :
  (i < 6)%nat -> (j < 6)%nat ->
  nth i numeric_cols "" = nth j numeric_cols "" -> i = j.
Proof.
  intros Hi Hj.
  do 6 (destruct i as [|i]; [do 6 (destruct j as [|j]; [simpl; intro H;
    first [reflexivity | discriminate H]|]); lia|]).
  lia.
Qed.

Section Correlations.

Context {lib : Library}.

Lemma frame_getitem_Ok_inv (keys : list string) (df : DataFrame) (selected : list Series) :
  frame_getitem keys df = Ok selected ->
  rmap (fun c => getitem c df) keys = Ok selected.
Proof.
  unfold frame_getitem.
  destruct (missing_keys keys df); [tauto | discriminate].
Qed.

Lemma analyze_correlations_inv st st' m :
  analyze_correlations st = (st', Ok m) ->
  exists selected cols,
    rmap (fun c => getitem c (self_df st)) numeric_cols = Ok selected /\
    rmap (rmap to_float) selected = Ok cols /\
    m = corr numeric_cols cols /\
    st' = mkAnalyzer (self_df st) (console st ++ correlation_lines m).
Proof.
  unfold analyze_correlations. intro H.
  apply bind_Ok_inv in H. destruct H as (st1 & df & Hdf & H).
  inversion Hdf; subst st1 df; clear Hdf.
  invert_step H. invert_step H. cbv zeta in H.
  apply frame_getitem_Ok_inv in Hstep.
  exists a, a0. split; [exact Hstep|]. split; [exact Hstep0|].
  erewrite bind_Ok in H.
  2:{ apply (for_each_prints _
        (fun i =>
           flat_map (fun j =>
             if fgt (fabs (iloc (corr numeric_cols a0) i j)) (Fin (3 # 10))
             then [Line "correlation"
                     [CStr (nth i (corr_columns (corr numeric_cols a0)) "");
                      CStr (nth j (corr_columns (corr numeric_cols a0)) "");
                      CNum (iloc (corr numeric_cols a0) i j)]]
             else [])
             (range (i + 1) (List.length (corr_columns (corr numeric_cols a0)))))).
      intros i s. apply for_each_prints. intros j s'. apply print_if. }
  inversion H; subst. split; reflexivity.
Qed.

End Correlations.

Lemma index_of_spec (a : string) :
  In a numeric_cols ->
  (index_of a < 6)%nat /\ nth (index_of a) numeric_cols "" = a /\
  nth_error numeric_cols (index_of a) = Some a.
Proof.
  unfold numeric_cols. simpl.
  intros [<-|[<-|[<-|[<-|[<-|[<-|[]]]]]]]; vm_compute; repeat split; lia.
Qed.

Lemma index_of_inj (a b : string) :
  In a numeric_cols -> In b numeric_cols -> index_of a = index_of b -> a = b.
Proof.
  intros Ha Hb H.
  destruct (index_of_spec a Ha) as (_ & <- & _).
  destruct (index_of_spec b Hb) as (_ & <- & _).
  rewrite H. reflexivity.
Qed.

Lemma nth_numeric_cols_in (i : nat) : (i < 6)%nat -> In (nth i numeric_cols "") numeric_cols.
Proof. intro H. apply nth_In. exact H. Qed.

Lemma index_of_nth (i : nat) : (i < 6)%nat -> index_of (nth i numeric_cols "") = i.
Proof.
  intro H. apply numeric_cols_index; [|exact H|].
  - apply index_of_spec, nth_numeric_cols_in, H.
  - apply index_of_spec, nth_numeric_cols_in, H.
Qed.

Section CorrelationReport.

Context {lib : Library}.

Lemma iloc_corr names (cols : list (list fnum)) i j xa xb :
  nth_error cols i = Some xa -> nth_error cols j = Some xb ->
  iloc (corr names cols) i j = pearson xa xb.
Proof.
  intros Hi Hj. unfold iloc, corr. simpl.
  rewrite (nth_error_nth (map (fun a => map (fun b => pearson a b) cols) cols)
             i [] (x := map (fun b => pearson xa b) cols)).
  - apply nth_error_nth. rewrite nth_error_map, Hj. reflexivity.
  - rewrite nth_error_map, Hi. reflexivity.
Qed.

(** C3. When the correlation reporter returns the matrix [m], a pair of
    distinct features is reported, in the order of the columns, exactly
    when the absolute value of its entry of [m] exceeds 0.3; the entry of
    two features is Pearson's coefficient of their columns; no pair is
    reported in both orders; and as the matrix entry of a pair does not
    depend on the order, the pair [{a, b}] is reported (one way or the
    other) if and only if [|corr(a, b)| > 0.3]. *)
Theorem correlation_report (st st' : analyzer) (m : CorrMatrix) :
  analyze_correlations st = (st', Ok m) ->
  (forall a b : string,
     reported st st' a b <->
     In a numeric_cols /\ In b numeric_cols /\
     (index_of a < index_of b)%nat /\ exceeds_threshold (corr_of m a b)) /\
  (forall a b : string, ~ (reported st st' a b /\ reported st st' b a)) /\
  (forall (a b : string) (xa xb : list fnum),
     In a numeric_cols -> In b numeric_cols ->
     float_column (self_df st) a xa -> float_column (self_df st) b xb ->
     corr_of m a b = pearson xa xb) /\
  (forall a b : string,
     In a numeric_cols -> In b numeric_cols -> a <> b ->
     corr_of m a b = corr_of m b a ->
     (reported st st' a b \/ reported st st' b a <-> exceeds_threshold (corr_of m a b))).
Proof.
  intro H.
  destruct (analyze_correlations_inv _ _ _ H) as (selected & cols & Hsel & Hcols & Hm & Hst').
  assert (Hnames : corr_columns m = numeric_cols) by (rewrite Hm; reflexivity).
  assert (Hrep : forall a b : string,
             reported st st' a b <->
             In a numeric_cols /\ In b numeric_cols /\
             (index_of a < index_of b)%nat /\ exceeds_threshold (corr_of m a b)).
  { intros a b. unfold reported. rewrite Hst'. simpl. split.
    - intros (v & more & Happ & Hin).
      apply app_inv_head in Happ. subst more.
      apply in_correlation_lines in Hin.
      destruct Hin as (i & j & Hij & Hex & -> & -> & _).
      rewrite Hnames in *. change (List.length numeric_cols) with 6%nat in Hij.
      unfold corr_of. rewrite !index_of_nth by lia.
      repeat split; try apply nth_numeric_cols_in; try lia. exact Hex.
    - intros (Ha & Hb & Hlt & Hex).
      exists (corr_of m a b), (correlation_lines m). split; [reflexivity|].
      apply in_correlation_lines. exists (index_of a), (index_of b).
      rewrite Hnames. change (List.length numeric_cols) with 6%nat.
      destruct (index_of_spec a Ha) as (Ha6 & Hna & _).
      destruct (index_of_spec b Hb) as (Hb6 & Hnb & _).
      repeat split; auto; lia. }
  split; [exact Hrep|]. split; [|split].
  - intros a b [Hab Hba]. apply Hrep in Hab. apply Hrep in Hba.
    destruct Hab as (_ & _ & H1 & _). destruct Hba as (_ & _ & H2 & _). lia.
  - intros a b xa xb Ha Hb (sa & Hga & Hfa) (sb & Hgb & Hfb).
    destruct (index_of_spec a Ha) as (_ & _ & Hia).
    destruct (index_of_spec b Hb) as (_ & _ & Hib).
    destruct (rmap_nth_error _ _ _ _ _ Hsel Hia) as (sa' & Hsa' & Hna).
    destruct (rmap_nth_error _ _ _ _ _ Hsel Hib) as (sb' & Hsb' & Hnb).
    unfold getitem in Hsa', Hsb'. rewrite Hga in Hsa'. rewrite Hgb in Hsb'.
    inversion Hsa'; inversion Hsb'; subst sa' sb'.
    destruct (rmap_nth_error _ _ _ _ _ Hcols Hna) as (xa' & Hxa' & Hca).
    destruct (rmap_nth_error _ _ _ _ _ Hcols Hnb) as (xb' & Hxb' & Hcb).
    rewrite Hfa in Hxa'. rewrite Hfb in Hxb'. inversion Hxa'; inversion Hxb'; subst xa' xb'.
    unfold corr_of. rewrite Hm. apply iloc_corr; assumption.
  - intros a b Ha Hb Hne Hsym. rewrite !Hrep. rewrite <- Hsym.
    assert (Hidx : index_of a <> index_of b).
    { intro Heq. apply Hne. apply index_of_inj; assumption. }
    split.
    + intros [(_ & _ & _ & Hex) | (_ & _ & _ & Hex)]; exact Hex.
    + intro Hex. destruct (Nat.lt_total (index_of a) (index_of b)) as [Hlt | [Heq | Hgt]].
      * left. auto.
      * contradiction.
      * right. auto.
Qed.

End CorrelationReport.

Lemma correlation_report_witness :
  let run := analyze_correlations (lib := Sample.lib) Sample.loaded in
  run = (fst run, Ok (corr (lib := Sample.lib) numeric_cols
                        (map (map of_Z) [[7; 3; 5]; [6; 8; 7]; [8; 4; 5];
                                         [10; 30; 20]; [24; 25; 99]; [2; 0; 0]]))) /\
  reported Sample.loaded (fst run) "severity" "sleep" /\
  ~ reported Sample.loaded (fst run) "sleep" "severity" /\
  ~ reported Sample.loaded (fst run) "severity" "age".
Proof.
  intro run.
  assert (Hrun : run = (fst run, Ok (corr (lib := Sample.lib) numeric_cols
                        (map (map of_Z) [[7; 3; 5]; [6; 8; 7]; [8; 4; 5];
                                         [10; 30; 20]; [24; 25; 99]; [2; 0; 0]]))))
    by (vm_compute; reflexivity).
  split; [exact Hrun|].
  destruct (correlation_report (lib := Sample.lib) Sample.loaded (fst run) _ Hrun)
    as (Hrep & _).
  split; [|split].
  - apply Hrep. vm_compute. repeat split; auto 10; lia.
  - intro Hr. apply Hrep in Hr. destruct Hr as (_ & _ & Hlt & _).
    vm_compute in Hlt. lia.
  - intro Hr. apply Hrep in Hr. destruct Hr as (_ & _ & _ & Hex).
    vm_compute in Hex. discriminate Hex.
Defined.

(** ** The loader and the symptom counts *)

Lemma try_reraise_bind_Ok {A B} (m : M A) (k : A -> M B) handler st st1 a :
  m st = (st1, Ok a) ->
  try_reraise (bind m k) handler st = try_reraise (k a) handler st1.
Proof. intro H. unfold try_reraise. rewrite (bind_Ok _ _ _ _ _ H). reflexivity. Qed.

Section Loader.

Context {lib : Library}.


Lemma parse_symptoms_decoded (c : cell) (v : json) :
  json_decode c = Some v -> _parse_symptoms c = v.
Proof.
  destruct c; simpl; intro H; try discriminate. rewrite H. reflexivity.
Qed.




End Loader.


(** C1, at the input on which the code fails: a file of three records
    whose second symptoms cell is the text [5]. It is valid JSON, so the
    safe decode catches nothing and [_parse_symptoms], annotated to return
    a list, returns the number 5; [len] of it raises [TypeError] outside
    the [try] of the decode, the loader prints its error line and raises
    the error again, and [symptom_count] is written for no record, also
    not for the two whose cells are lists. *)
Theorem symptom_count_failing_input :
  let run := HealthDatasetAnalyzer (lib := Cases.lib) "number.csv" [] in
  read_csv (Library := Cases.lib) "number.csv" = Ok Cases.number_csv /\
  get_col "symptoms" Cases.number_csv = Some [CStr "[]"; CStr "5"; CStr "[]"] /\
  json_decode (lib := Cases.lib) (CStr "5") = Some (JNum (Fin 5)) /\
  _parse_symptoms (lib := Cases.lib) (CStr "5") = JNum (Fin 5) /\
  py_len (JNum (Fin 5)) = Raise TypeError /\
  snd run = Raise TypeError /\
  get_col "symptoms_parsed" (self_df (fst run)) =
    Some [CObj (JArr []); CObj (JNum (Fin 5)); CObj (JArr [])] /\
  get_col "symptom_count" (self_df (fst run)) = None /\
  console (fst run) =
    [Line "Loaded dataset" [CNum (Fin 3)]; Line "Error loading dataset" []].
Proof.
  vm_compute. repeat split.
Qed.

(* ================================================================== *)
(** * Further properties of the loader *)
(* ================================================================== *)

Lemma set_df_console_grows df : preserves console_grows (set_df df).
Proof. intro st. simpl. exists []. rewrite app_nil_r. reflexivity. Qed.

Ltac console_leaf' := first [console_leaf | apply set_df_console_grows].

Lemma rmap_raises {A B} (f : A -> result B) (l : list A) (x : A) (e : exn) :
  In x l -> f x = Raise e ->
  (forall y e', In y l -> f y = Raise e' -> e' = e) ->
  rmap f l = Raise e.
Proof.
  induction l as [|a tl IH]; simpl; intros Hin Hx Hall; [destruct Hin|].
  destruct (f a) as [b | e'] eqn:Ea; simpl.
  - destruct Hin as [-> | Hin]; [congruence|].
    rewrite (IH Hin Hx); [reflexivity|]. intros y e' Hy. apply Hall. auto.
  - f_equal. apply (Hall a); auto.
Qed.

Lemma cell_len_raises (c : cell) (e : exn) : cell_len c = Raise e -> e = TypeError.
Proof.
  destruct c as [x | s | j | t]; simpl; try congruence.
  destruct j; simpl; congruence.
Qed.

Lemma try_reraise_Raise {A} (body : M A) what st st1 e :
  body st = (st1, Raise e) ->
  try_reraise body (fun _ => print what []) st =
    (mkAnalyzer (self_df st1) (console st1 ++ [Line what []]), Raise e).
Proof. intro H. unfold try_reraise. rewrite H. reflexivity. Qed.

Section LoaderErrors.

Context {lib : Library}.

(** The loader reports and re-raises: when [pd.read_csv] raises, one
    error line is printed, [self.df] is not assigned and the same
    exception leaves [load_dataset]; and whenever [load_dataset] raises,
    the error line is the last line on the console, after what was
    printed before. *)
Theorem load_dataset_reraises (dataset_path : string) (st : analyzer) :
  (forall e, read_csv dataset_path = Raise e ->
     load_dataset dataset_path st =
       (mkAnalyzer (self_df st) (console st ++ [Line "Error loading dataset" []]),
        Raise e)) /\
  (forall st' e, load_dataset dataset_path st = (st', Raise e) ->
     exists earlier,
       console st' = console st ++ earlier ++ [Line "Error loading dataset" []]).
Proof.
  split.
  - intros e Hread. unfold load_dataset.
    erewrite try_reraise_Raise.
    2:{ erewrite bind_Raise; [reflexivity|]. unfold lift. rewrite Hread. reflexivity. }
    reflexivity.
  - intros st' e. unfold load_dataset.
    match goal with
    | |- try_reraise ?body _ _ = _ -> _ =>
        assert (Hgrow : preserves console_grows body) by (preserve console_leaf');
        destruct (body st) as [st1 [[] | e1]] eqn:Ebody
    end.
    + unfold try_reraise. rewrite Ebody. discriminate.
    + erewrite try_reraise_Raise by exact Ebody. intro H. inversion H; subst.
      specialize (Hgrow st). rewrite Ebody in Hgrow. destruct Hgrow as [earlier Hc].
      exists earlier. simpl in *. rewrite Hc, app_assoc. reflexivity.
Qed.

(** A file without the column [symptoms] is read and assigned, then the
    load fails with [KeyError 'symptoms']; no derived column is written. *)
Theorem load_dataset_missing_symptoms
    (dataset_path : string) (st : analyzer) (csv : DataFrame) :
  read_csv dataset_path = Ok csv ->
  get_col "symptoms" csv = None ->
  load_dataset dataset_path st =
    (mkAnalyzer csv
       (console st ++ [Line "Loaded dataset" [CNum (of_nat (df_len csv))]]
                   ++ [Line "Error loading dataset" []]),
     Raise (KeyError "symptoms")).
Proof.
  intros Hread Hsym. unfold load_dataset.
  erewrite try_reraise_bind_Ok by (unfold lift; rewrite Hread; reflexivity).
  erewrite try_reraise_bind_Ok by reflexivity.
  erewrite try_reraise_bind_Ok by reflexivity.
  erewrite try_reraise_Raise.
  2:{ erewrite bind_Raise; [reflexivity|].
      unfold self_getitem. erewrite bind_Ok by reflexivity.
      unfold lift, getitem. simpl. rewrite Hsym. reflexivity. }
  simpl. rewrite <- app_assoc. reflexivity.
Qed.

(** A symptoms cell that is valid JSON without a length (a number, a
    boolean or null) is not caught by the safe decode: [len] raises
    [TypeError], the load fails with it, and [symptom_count] is not
    written. *)
Theorem load_dataset_unsized_symptoms
    (dataset_path : string) (st : analyzer) (csv : DataFrame)
    (symptoms : Series) (c : cell) (v : json) :
  read_csv dataset_path = Ok csv ->
  get_col "symptoms" csv = Some symptoms ->
  In c symptoms ->
  json_decode c = Some v ->
  py_len v = Raise TypeError ->
  exists st',
    load_dataset dataset_path st = (st', Raise TypeError) /\
    self_df st' =
      set_col "symptoms_parsed" (map (fun c => CObj (_parse_symptoms c)) symptoms) csv /\
    get_col "symptom_count" (self_df st') = get_col "symptom_count" csv.
Proof.
  intros Hread Hsym Hin Hdec Hlen. unfold load_dataset.
  erewrite try_reraise_bind_Ok by (unfold lift; rewrite Hread; reflexivity).
  erewrite try_reraise_bind_Ok by reflexivity.
  erewrite try_reraise_bind_Ok by reflexivity.
  erewrite try_reraise_bind_Ok by (apply self_getitem_Ok; exact Hsym).
  erewrite try_reraise_bind_Ok by reflexivity.
  erewrite try_reraise_bind_Ok by (apply self_getitem_Ok; apply get_col_set_col_same).
  erewrite try_reraise_Raise.
  2:{ erewrite bind_Raise; [reflexivity|]. unfold lift.
      rewrite (rmap_raises cell_len _ (CObj (_parse_symptoms c)) TypeError).
      - reflexivity.
      - apply in_map_iff. exists c. auto.
      - simpl. rewrite (parse_symptoms_decoded c v Hdec). exact Hlen.
      - intros y e' _. apply cell_len_raises. }
  eexists. split; [reflexivity|]. simpl. split; [reflexivity|].
  apply get_col_set_col_other. discriminate.
Qed.

End LoaderErrors.

Lemma load_dataset_missing_symptoms_witness :
  read_csv (Library := Cases.lib) "no_symptoms.csv" =
    Ok (Cases.without "symptoms" Sample.csv) /\
  load_dataset (lib := Cases.lib) "no_symptoms.csv" (new_analyzer []) =
    (mkAnalyzer (Cases.without "symptoms" Sample.csv)
       ([] ++ [Line "Loaded dataset" [CNum (of_nat 3)]]
           ++ [Line "Error loading dataset" []]),
     Raise (KeyError "symptoms")).
Proof.
  split; [reflexivity|].
  apply (load_dataset_missing_symptoms (lib := Cases.lib) "no_symptoms.csv"
           (new_analyzer []) (Cases.without "symptoms" Sample.csv));
    reflexivity.
Defined.

Lemma load_dataset_unsized_symptoms_witness :
  json_decode (lib := Cases.lib) (CStr "5") = Some (JNum (Fin 5)) /\
  exists st',
    load_dataset (lib := Cases.lib) "number.csv" (new_analyzer []) =
      (st', Raise TypeError) /\
    self_df st' =
      set_col "symptoms_parsed"
        (map (fun c => CObj (_parse_symptoms (lib := Cases.lib) c))
             [CStr "[]"; CStr "5"; CStr "[]"]) Cases.number_csv /\
    get_col "symptom_count" (self_df st') = get_col "symptom_count" Cases.number_csv.
Proof.
  split; [reflexivity|].
  apply (load_dataset_unsized_symptoms (lib := Cases.lib) "number.csv" (new_analyzer [])
           Cases.number_csv [CStr "[]"; CStr "5"; CStr "[]"] (CStr "5") (JNum (Fin 5)));
    try reflexivity.
  simpl. tauto.
Defined.

Lemma load_dataset_reraises_witness :
  read_csv (Library := Sample.lib) "missing.csv" = Raise FileNotFoundError /\
  load_dataset (lib := Sample.lib) "missing.csv" (new_analyzer []) =
    (mkAnalyzer [] ([] ++ [Line "Error loading dataset" []]), Raise FileNotFoundError).
Proof.
  split; [reflexivity|].
  apply (proj1 (load_dataset_reraises (lib := Sample.lib) "missing.csv" (new_analyzer []))).
  reflexivity.
Defined.

Lemma try_reraise_Ok_inv {A} (body : M A) handler st st' a :
  try_reraise body handler st = (st', Ok a) -> body st = (st', Ok a).
Proof.
  unfold try_reraise. destruct (body st) as [st1 [b | e]]; [auto|].
  destruct (handler e st1) as [st2 [u | e']]; discriminate.
Qed.

Lemma rmap_Ok_length {A B} (f : A -> result B) (l : list A) (l' : list B) :
  rmap f l = Ok l' -> List.length l' = List.length l.
Proof.
  revert l'. induction l as [|x tl IH]; simpl; intros l' H.
  - inversion H. reflexivity.
  - destruct (f x) as [y|]; simpl in H; [|discriminate].
    destruct (rmap f tl) as [ys|]; simpl in H; [|discriminate].
    inversion H. simpl. f_equal. apply IH. reflexivity.
Qed.

(** Inversion of one step, also through an assignment or a [print]. *)
Ltac invert_any H :=
  let st1 := fresh "st" in
  let a := fresh "a" in
  let H1 := fresh "Hstep" in
  apply bind_Ok_inv in H; destruct H as (st1 & a & H1 & H);
  first
    [ apply self_getitem_Ok_inv in H1; destruct H1 as [-> H1]
    | apply lift_Ok_inv in H1; destruct H1 as [-> H1]
    | unfold self_setitem, set_df, print, get_df, len_self, bind, ret in H1;
      inversion H1; subst; clear H1 ].

Section LoaderColumns.

Context {lib : Library}.

(** A successful load read the file, found [symptoms], [timestamp] and
    [userId] in it, and added exactly [symptoms_parsed], [symptom_count]
    and [timestamp_parsed], each with one cell per record: a decoded
    object, a count, a timestamp or NaT. Every other column is the one of
    the file. *)
Theorem load_dataset_columns (dataset_path : string) (out : list line) (st : analyzer) :
  HealthDatasetAnalyzer dataset_path out = (st, Ok tt) ->
  exists csv symptoms timestamp users counts stamps,
    read_csv dataset_path = Ok csv /\
    get_col "symptoms" csv = Some symptoms /\
    get_col "timestamp" csv = Some timestamp /\
    get_col "userId" (self_df st) = Some users /\
    (forall c, ~ In c ["symptoms_parsed"; "symptom_count"; "timestamp_parsed"] ->
       get_col c (self_df st) = get_col c csv) /\
    get_col "symptoms_parsed" (self_df st) =
      Some (map (fun c => CObj (_parse_symptoms c)) symptoms) /\
    get_col "symptom_count" (self_df st) = Some (map (fun n => CNum (of_nat n)) counts) /\
    List.length counts = List.length symptoms /\
    get_col "timestamp_parsed" (self_df st) = Some (map CTime stamps) /\
    List.length stamps = List.length timestamp.
Proof.
  unfold HealthDatasetAnalyzer, load_dataset. intro H.
  apply try_reraise_Ok_inv in H.
  do 16 invert_any H.
  unfold print in H. inversion H; subst; clear H.
  repeat match goal with
         | Hu : Ok _ = Ok _ |- _ => inversion Hu; subst; clear Hu
         end.
  cbn [self_df console] in *.
  match goal with
  | Hr : read_csv _ = Ok ?csv, Hs : get_col "symptoms" ?csv = Some ?sym,
    Hp : get_col "symptoms_parsed" _ = Some ?parsed,
    Hc : rmap cell_len ?parsed = Ok ?counts,
    Ht : get_col "timestamp" _ = Some ?ts,
    Hd : rmap to_datetime ?ts = Ok ?stamps,
    Hu : get_col "userId" _ = Some ?users |- _ =>
      rewrite get_col_set_col_same in Hp;
      injection Hp as Hp; rewrite <- Hp in Hc;
      rewrite !get_col_set_col_other in Ht by discriminate;
      exists csv, sym, ts, users, counts, stamps;
      split; [exact Hr|]; split; [exact Hs|]; split; [exact Ht|];
      split; [exact Hu|];
      pose proof (rmap_Ok_length _ _ _ Hc) as Hlen1;
      pose proof (rmap_Ok_length _ _ _ Hd) as Hlen2
  end.
  split.
  { intros c Hc. simpl in Hc.
    rewrite !get_col_set_col_other; [reflexivity| | |]; intro; subst; tauto. }
  split.
  { rewrite !get_col_set_col_other by discriminate. apply get_col_set_col_same. }
  split.
  { rewrite get_col_set_col_other by discriminate. apply get_col_set_col_same. }
  split.
  { rewrite Hlen1, length_map. reflexivity. }
  split; [apply get_col_set_col_same|]. exact Hlen2.
Qed.

End LoaderColumns.

Lemma load_dataset_columns_witness :
  HealthDatasetAnalyzer (lib := Sample.lib) "training_dataset.csv" [] =
    (Sample.loaded, Ok tt) /\
  exists csv symptoms timestamp users counts stamps,
    read_csv (Library := Sample.lib) "training_dataset.csv" = Ok csv /\
    get_col "symptoms" csv = Some symptoms /\
    get_col "timestamp" csv = Some timestamp /\
    get_col "userId" (self_df Sample.loaded) = Some users /\
    (forall c, ~ In c ["symptoms_parsed"; "symptom_count"; "timestamp_parsed"] ->
       get_col c (self_df Sample.loaded) = get_col c csv) /\
    get_col "symptoms_parsed" (self_df Sample.loaded) =
      Some (map (fun c => CObj (_parse_symptoms (lib := Sample.lib) c)) symptoms) /\
    get_col "symptom_count" (self_df Sample.loaded) =
      Some (map (fun n => CNum (of_nat n)) counts) /\
    List.length counts = List.length symptoms /\
    get_col "timestamp_parsed" (self_df Sample.loaded) = Some (map CTime stamps) /\
    List.length stamps = List.length timestamp.
Proof.
  split; [vm_compute; reflexivity|].
  apply (load_dataset_columns (lib := Sample.lib) "training_dataset.csv" [] Sample.loaded).
  vm_compute. reflexivity.
Defined.

(* ================================================================== *)
(** * Further properties of the demographics *)
(* ================================================================== *)




Lemma numeric_Ok_of_nums (s : Series) (l : list fnum) :
  numeric s = Ok l -> s = of_nums l.
Proof.
  unfold numeric, of_nums. revert l. induction s as [|c tl IH]; simpl; intros l H.
  - inversion H. reflexivity.
  - destruct c; simpl in H; try discriminate.
    destruct (rmap as_num tl) as [ys|]; simpl in H; [|discriminate].
    inversion H. simpl. f_equal. apply IH. reflexivity.
Qed.

Lemma numeric_raises (s : Series) (e : exn) : numeric s = Raise e -> e = TypeError.
Proof.
  unfold numeric. induction s as [|c tl IH]; simpl; [discriminate|].
  destruct c; simpl; try congruence.
  destruct (rmap as_num tl); simpl; [discriminate|]. intro H. apply IH. congruence.
Qed.


(** Without the column [age] the demographics reporter raises
    [KeyError 'age'] at once, and with text in a cell of [age] [pd.cut]
    raises [TypeError]; in both cases the table and the console are as
    before. *)
Theorem analyze_demographics_bad_age (st : analyzer) :
  (get_col "age" (self_df st) = None ->
   analyze_demographics st = (st, Raise (KeyError "age"))) /\
  (forall age e,
     get_col "age" (self_df st) = Some age -> Forall csv_cell age ->
     numeric age = Raise e ->
     analyze_demographics st = (st, Raise TypeError)).
Proof.
  split.
  - intro Hage. unfold analyze_demographics, age_distribution.
    erewrite bind_Raise; [reflexivity|].
    erewrite bind_Raise; [reflexivity|].
    unfold self_getitem. erewrite bind_Ok by reflexivity.
    unfold lift, getitem. rewrite Hage. reflexivity.
  - intros age e Hage _ Hnum. rewrite (numeric_raises _ _ Hnum) in Hnum.
    unfold analyze_demographics, age_distribution.
    erewrite bind_Raise; [reflexivity|].
    erewrite bind_Ok by (apply self_getitem_Ok; exact Hage).
    erewrite bind_Raise; [reflexivity|].
    unfold lift, pd_cut. rewrite Hnum. reflexivity.
Qed.


Lemma analyze_demographics_bad_age_witness :
  let st := mkAnalyzer (Cases.without "age" Sample.csv) [] in
  let st' := mkAnalyzer [("age", [CStr "old"])] [] in
  get_col "age" (self_df st) = None /\
  analyze_demographics st = (st, Raise (KeyError "age")) /\
  numeric [CStr "old"] = Raise TypeError /\
  analyze_demographics st' = (st', Raise TypeError).
Proof.
  intros st st'.
  split; [reflexivity|]. split.
  - apply (proj1 (analyze_demographics_bad_age st)). reflexivity.
  - split; [reflexivity|].
    apply (proj2 (analyze_demographics_bad_age st') [CStr "old"] TypeError);
      first [reflexivity | apply Forall_cons; [exact I | apply Forall_nil]].
Defined.

(* ================================================================== *)
(** * Further properties of the correlation report *)
(* ================================================================== *)

Lemma rmap_getitem_Ok (names : list string) (df : DataFrame) :
  (forall k, In k names -> exists s, get_col k df = Some s) ->
  exists selected,
    rmap (fun c => getitem c df) names = Ok selected /\
    forall k s, In k names -> get_col k df = Some s -> In s selected.
Proof.
  induction names as [|n tl IH]; intro Hall; cbn [rmap].
  - exists []. split; [reflexivity|]. intros k s [].
  - destruct (Hall n) as [s Hs]; [left; reflexivity|].
    destruct IH as (sel & Hsel & Hin); [intros k Hk; apply Hall; right; exact Hk|].
    unfold getitem at 1. rewrite Hs. cbn [rbind]. rewrite Hsel. cbn [rbind].
    exists (s :: sel). split; [reflexivity|].
    intros k s' [-> | Hk] Hk'.
    + left. congruence.
    + right. eapply Hin; eauto.
Qed.

Lemma rmap_getitem_selected (names : list string) (df : DataFrame) (selected : list Series) :
  rmap (fun c => getitem c df) names = Ok selected ->
  forall s, In s selected -> exists k, In k names /\ get_col k df = Some s.
Proof.
  revert selected. induction names as [|n tl IH]; cbn [rmap]; intros selected H s Hs.
  - inversion H; subst. destruct Hs.
  - unfold getitem at 1 in H. destruct (get_col n df) as [s0|] eqn:En; cbn [rbind] in H;
      [|discriminate].
    destruct (rmap _ tl) as [sel|] eqn:Etl; cbn [rbind] in H; [|discriminate].
    inversion H; subst. destruct Hs as [<- | Hs].
    + exists n. split; [left; reflexivity | exact En].
    + destruct (IH sel eq_refl s Hs) as (k & Hk & Hg). exists k. split; [right|]; assumption.
Qed.

Lemma missing_keys_nil (names : list string) (df : DataFrame) :
  (forall k, In k names -> exists s, get_col k df = Some s) ->
  missing_keys names df = [].
Proof.
  unfold missing_keys. induction names as [|n tl IH]; simpl; intro Hall; [reflexivity|].
  destruct (Hall n) as [s Hs]; [left; reflexivity|]. rewrite Hs.
  apply IH. intros k Hk. apply Hall. right. exact Hk.
Qed.

Lemma length_flat_map_le {A B} (f : A -> list B) (bound : A -> nat) (l : list A) :
  (forall x, In x l -> (List.length (f x) <= bound x)%nat) ->
  (List.length (flat_map f l) <= list_sum (map bound l))%nat.
Proof.
  induction l as [|x tl IH]; simpl; intro H; [lia|].
  rewrite length_app. specialize (H x (or_introl eq_refl)) as Hx.
  assert (Htl : (List.length (flat_map f tl) <= list_sum (map bound tl))%nat)
    by (apply IH; intros y Hy; apply H; auto).
  lia.
Qed.

Lemma length_correlation_lines (m : CorrMatrix) :
  List.length (corr_columns m) = 6%nat ->
  (List.length (correlation_lines m) <= 15)%nat.
Proof.
  intro Hn. unfold correlation_lines. rewrite Hn.
  change 15%nat with (list_sum (map (fun i => 6 - (i + 1))%nat (range 0 6))).
  apply length_flat_map_le. intros i _.
  replace (6 - (i + 1))%nat
    with (list_sum (map (fun _ : nat => 1%nat) (range (i + 1) 6))).
  - apply length_flat_map_le. intros j _.
    destruct (fgt (fabs (iloc m i j)) (Fin (3 # 10))); simpl; lia.
  - unfold range. generalize (6 - (i + 1))%nat as k. generalize (i + 1)%nat as a.
    intros a k. revert a. induction k as [|k IH]; intro a; simpl; [reflexivity|].
    rewrite IH. reflexivity.
Qed.

Section CorrelationErrors.

Context {lib : Library}.

Lemma to_float_raises (c : cell) (e : exn) : to_float c = Raise e -> e = ValueError.
Proof.
  destruct c as [x | t | j | ts]; simpl; try congruence.
  destruct (py_float t); congruence.
Qed.

Lemma rmap_to_float_raises (s : Series) (e : exn) :
  rmap to_float s = Raise e -> e = ValueError.
Proof.
  induction s as [|c tl IH]; simpl; [discriminate|].
  destruct (to_float c) eqn:Ec; simpl.
  - destruct (rmap to_float tl); simpl; [discriminate|]. intro H. apply IH. congruence.
  - intro H. apply (to_float_raises c). congruence.
Qed.

Lemma rmap_to_float_Ok (s : Series) :
  Forall convertible s -> exists xs, rmap to_float s = Ok xs.
Proof.
  induction 1 as [|c tl Hc _ [xs IH]]; simpl; [eexists; reflexivity|].
  assert (Hx : exists x, to_float c = Ok x).
  { destruct c as [x | t | j | ts]; simpl in *; try contradiction; [eexists; reflexivity|].
    destruct (py_float t); [eexists; reflexivity | contradiction]. }
  destruct Hx as [x ->]. rewrite IH. simpl. eexists. reflexivity.
Qed.

Lemma rmap_rmap_to_float_Ok (selected : list Series) :
  Forall (Forall convertible) selected ->
  exists cols, rmap (rmap to_float) selected = Ok cols.
Proof.
  induction 1 as [|s tl Hs _ [cols IH]]; simpl; [eexists; reflexivity|].
  destruct (rmap_to_float_Ok s Hs) as [xs ->]. rewrite IH. simpl. eexists. reflexivity.
Qed.

(** What the correlation reporter needs of the table. With one of the six
    columns missing it raises the one [KeyError] of [df[keys]], which names
    the missing columns, before it prints. With all six present, as read
    from a file, it converts every cell with [float]: text that [float]
    rejects gives [ValueError], the table and the console being as before,
    and when every cell is a number or text that [float] accepts the
    reporter returns its matrix. *)
Theorem analyze_correlations_fails (st : analyzer) :
  (missing_keys numeric_cols (self_df st) <> [] ->
   analyze_correlations st =
     (st, Raise (KeyError (not_in_index numeric_cols
                             (missing_keys numeric_cols (self_df st)))))) /\
  ((forall k, In k numeric_cols ->
      exists s, get_col k (self_df st) = Some s /\ Forall csv_cell s) ->
   (exists k s text, In k numeric_cols /\ get_col k (self_df st) = Some s /\
                     In (CStr text) s /\ py_float text = None) ->
   analyze_correlations st = (st, Raise ValueError)) /\
  ((forall k, In k numeric_cols ->
      exists s, get_col k (self_df st) = Some s /\ Forall convertible s) ->
   exists st' m, analyze_correlations st = (st', Ok m)).
Proof.
  split; [|split].
  - intro Hmiss. unfold analyze_correlations.
    erewrite bind_Ok by reflexivity.
    erewrite bind_Raise; [reflexivity|].
    unfold lift, frame_getitem. simpl self_df. fold numeric_cols.
    destruct (missing_keys numeric_cols (self_df st)); [contradiction | reflexivity].
  - intros Hcsv (k & s & text & Hk & Hs & Hc & Hnone).
    assert (Hall : forall k, In k numeric_cols ->
              exists s, get_col k (self_df st) = Some s).
    { intros k' Hk'. destruct (Hcsv k' Hk') as (s' & Hs' & _). exists s'. exact Hs'. }
    assert (Hbad : to_float (CStr text) = Raise ValueError).
    { simpl. rewrite Hnone. reflexivity. }
    destruct (rmap_getitem_Ok _ _ Hall) as (selected & Hsel & Hin).
    unfold analyze_correlations.
    erewrite bind_Ok by reflexivity.
    erewrite bind_Ok.
    2:{ unfold lift, frame_getitem. simpl self_df. fold numeric_cols.
        rewrite (missing_keys_nil _ _ Hall), Hsel. reflexivity. }
    erewrite bind_Raise; [reflexivity|].
    unfold lift.
    rewrite (rmap_raises (rmap to_float) selected s ValueError).
    + reflexivity.
    + eapply Hin; eauto.
    + apply (rmap_raises to_float s (CStr text) ValueError Hc Hbad).
      intros y e' _. apply to_float_raises.
    + intros y e' _. apply rmap_to_float_raises.
  - intro Hconv.
    assert (Hall : forall k, In k numeric_cols ->
              exists s, get_col k (self_df st) = Some s).
    { intros k' Hk'. destruct (Hconv k' Hk') as (s' & Hs' & _). exists s'. exact Hs'. }
    destruct (rmap_getitem_Ok _ _ Hall) as (selected & Hsel & Hin).
    destruct (rmap_rmap_to_float_Ok selected) as [cols Hcols].
    { apply Forall_forall. intros s Hs.
      destruct (rmap_getitem_selected _ _ _ Hsel s Hs) as (k & Hk & Hg).
      destruct (Hconv k Hk) as (s' & Hs' & Hc). congruence. }
    unfold analyze_correlations.
    erewrite bind_Ok by reflexivity.
    erewrite bind_Ok.
    2:{ unfold lift, frame_getitem. simpl self_df. fold numeric_cols.
        rewrite (missing_keys_nil _ _ Hall), Hsel. reflexivity. }
    erewrite bind_Ok by (unfold lift; rewrite Hcols; reflexivity).
    cbv zeta.
    match goal with
    | |- context [bind (for_each ?l ?body) ?k] =>
        assert (Hloop : exists lines, forall s,
                  for_each l body s = (mkAnalyzer (self_df s) (console s ++ lines), Ok tt))
    end.
    { eexists. intro s. apply for_each_prints. intros i s'.
      apply for_each_prints. intros j s''. apply print_if. }
    destruct Hloop as [lines Hloop].
    erewrite bind_Ok by apply Hloop.
    eexists. eexists. reflexivity.
Qed.

(** When the correlation reporter returns, the matrix has the six columns
    in their fixed order and six rows of six entries, the table is
    untouched, and at most 15 lines, one per pair, were printed. *)
Theorem analyze_correlations_shape (st st' : analyzer) (m : CorrMatrix) :
  analyze_correlations st = (st', Ok m) ->
  corr_columns m = numeric_cols /\
  List.length (corr_values m) = 6%nat /\
  Forall (fun row => List.length row = 6%nat) (corr_values m) /\
  self_df st' = self_df st /\
  exists lines,
    console st' = console st ++ lines /\ (List.length lines <= 15)%nat.
Proof.
  intro H.
  destruct (analyze_correlations_inv _ _ _ H) as (selected & cols & Hsel & Hcols & Hm & Hst').
  assert (Hlen : List.length cols = 6%nat).
  { pose proof (rmap_Ok_length _ _ _ Hcols) as H1.
    pose proof (rmap_Ok_length _ _ _ Hsel) as H2.
    exact (eq_trans H1 H2). }
  subst m st'. simpl.
  split; [reflexivity|]. split; [rewrite length_map; exact Hlen|].
  split.
  { apply Forall_forall. intros row Hrow. apply in_map_iff in Hrow.
    destruct Hrow as (a & <- & _). rewrite length_map. exact Hlen. }
  split; [reflexivity|].
  eexists. split; [reflexivity|].
  apply length_correlation_lines. reflexivity.
Qed.

End CorrelationErrors.

Lemma analyze_correlations_fails_witness :
  let st := Cases.loaded "text.csv" in
  let st' := mkAnalyzer (Cases.without "sleep" (self_df Sample.loaded)) [] in
  let st'' := Cases.loaded "underscore.csv" in
  analyze_correlations (lib := Cases.lib) st = (st, Raise ValueError) /\
  analyze_correlations (lib := Cases.lib) st' =
    (st', Raise (KeyError (not_in_index (Library := Cases.lib) numeric_cols ["sleep"]))) /\
  exists st3 m, analyze_correlations (lib := Cases.lib) st'' = (st3, Ok m).
Proof.
  intros st st' st''.
  split; [|split].
  - apply (proj1 (proj2 (analyze_correlations_fails (lib := Cases.lib) st))).
    + intros k Hk. simpl in Hk.
      repeat (destruct Hk as [<- | Hk];
              [eexists; split;
                 [reflexivity | apply Forall_cons; [exact I | apply Forall_nil]]|]).
      destruct Hk.
    + exists "stress", [CStr "high"], "high". simpl. tauto.
  - apply (proj1 (analyze_correlations_fails (lib := Cases.lib) st')). discriminate.
  - apply (proj2 (proj2 (analyze_correlations_fails (lib := Cases.lib) st''))).
    intros k Hk. simpl in Hk.
    repeat (destruct Hk as [<- | Hk];
            [eexists; split;
               [reflexivity
               | repeat (apply Forall_cons; [first [exact I | discriminate]|]);
                 apply Forall_nil]|]).
    destruct Hk.
Defined.

Lemma analyze_correlations_shape_witness :
  let run := analyze_correlations (lib := Sample.lib) Sample.loaded in
  (exists m, snd run = Ok m /\ corr_columns m = numeric_cols) /\
  self_df (fst run) = self_df Sample.loaded /\
  exists lines,
    console (fst run) = console Sample.loaded ++ lines /\ (List.length lines <= 15)%nat.
Proof.
  intro run.
  destruct run as [st' [m | e]] eqn:E; [|vm_compute in E; discriminate E].
  destruct (analyze_correlations_shape (lib := Sample.lib) Sample.loaded st' m E)
    as (Hnames & _ & _ & Hdf & Hlines).
  split; [exists m; split; [reflexivity | exact Hnames]|].
  split; [exact Hdf | exact Hlines].
Defined.

(* ================================================================== *)
(** * Further properties of the temporal report *)
(* ================================================================== *)

Lemma dt_CTime (stamps : list (option Timestamp)) : dt (map CTime stamps) = Ok stamps.
Proof.
  unfold dt. induction stamps as [|t tl IH]; simpl; [reflexivity|].
  rewrite IH. reflexivity.
Qed.

Lemma for_each_skip {A} (l : list A) (body : A -> M unit) (st : analyzer) :
  (forall x, In x l -> body x st = (st, Ok tt)) ->
  for_each l body st = (st, Ok tt).
Proof.
  induction l as [|x tl IH]; intro H; simpl; [reflexivity|].
  erewrite bind_Ok by (apply H; left; reflexivity).
  apply IH. intros y Hy. apply H. right. exact Hy.
Qed.

(** The three columns that the temporal reporter writes. *)
Lemma temporal_writes (st : analyzer) (stamps : list (option Timestamp)) :
  get_col "timestamp_parsed" (self_df st) = Some (map CTime stamps) ->
  self_df (fst (analyze_temporal_patterns st)) =
    set_col "month" (map (dt_field (fun t => CNum (of_Z (ts_month t)))) stamps)
      (set_col "day_of_week" (map (dt_field (fun t => CStr (day_name t))) stamps)
         (set_col "hour" (map (dt_field (fun t => CNum (of_Z (ts_hour t)))) stamps)
            (self_df st))).
Proof.
  intro Htp. unfold analyze_temporal_patterns.
  erewrite bind_Ok by (apply self_getitem_Ok; exact Htp).
  erewrite bind_Ok by (unfold lift; rewrite dt_CTime; reflexivity).
  erewrite bind_Ok by reflexivity.
  erewrite bind_Ok.
  2:{ apply self_getitem_Ok. cbn [self_df].
      rewrite get_col_set_col_other by discriminate. exact Htp. }
  erewrite bind_Ok by (unfold lift; rewrite dt_CTime; reflexivity).
  erewrite bind_Ok by reflexivity.
  erewrite bind_Ok.
  2:{ apply self_getitem_Ok. cbn [self_df].
      rewrite !get_col_set_col_other by discriminate. exact Htp. }
  erewrite bind_Ok by (unfold lift; rewrite dt_CTime; reflexivity).
  erewrite bind_Ok by reflexivity.
  match goal with
  | |- context [fst (?m ?s)] =>
      assert (Hsame : preserves same_df m) by (preserve same_df_leaf);
      rewrite (Hsame s)
  end.
  reflexivity.
Qed.

(** Whether it returns or raises afterwards, the temporal reporter leaves
    in [hour], [day_of_week] and [month], record by record, the hour, the
    name of the day and the month of the parsed timestamp, and NaN where
    the timestamp is NaT. *)
Theorem temporal_columns (st : analyzer) (stamps : list (option Timestamp)) :
  get_col "timestamp_parsed" (self_df st) = Some (map CTime stamps) ->
  let df' := self_df (fst (analyze_temporal_patterns st)) in
  exists hour day_of_week month,
    get_col "hour" df' = Some hour /\
    get_col "day_of_week" df' = Some day_of_week /\
    get_col "month" df' = Some month /\
    forall i : nat,
      match nth_error stamps i with
      | Some (Some t) =>
          nth_error hour i = Some (CNum (of_Z (ts_hour t))) /\
          nth_error day_of_week i = Some (CStr (day_name t)) /\
          nth_error month i = Some (CNum (of_Z (ts_month t)))
      | Some None =>
          nth_error hour i = Some (CNum NaN) /\
          nth_error day_of_week i = Some (CNum NaN) /\
          nth_error month i = Some (CNum NaN)
      | None =>
          nth_error hour i = None /\ nth_error day_of_week i = None /\
          nth_error month i = None
      end.
Proof.
  intros Htp df'. subst df'. rewrite (temporal_writes st stamps Htp).
  do 3 eexists.
  split; [rewrite !get_col_set_col_other by discriminate; apply get_col_set_col_same|].
  split; [rewrite get_col_set_col_other by discriminate; apply get_col_set_col_same|].
  split; [apply get_col_set_col_same|].
  intro i. rewrite !nth_error_map.
  destruct (nth_error stamps i) as [[t|]|]; simpl; auto.
Qed.

(** On a table without records the temporal reporter writes its three
    empty columns, prints nothing and raises [ValueError]: the mean
    severity by hour is empty and has no maximum. *)
Theorem temporal_zero_records (st : analyzer) :
  get_col "timestamp_parsed" (self_df st) = Some [] ->
  get_col "severity" (self_df st) = Some [] ->
  analyze_temporal_patterns st =
    (mkAnalyzer
       (set_col "month" [] (set_col "day_of_week" [] (set_col "hour" [] (self_df st))))
       (console st),
     Raise ValueError).
Proof.
  intros Htp Hsev. unfold analyze_temporal_patterns.
  erewrite bind_Ok by (apply self_getitem_Ok; exact Htp).
  erewrite bind_Ok by reflexivity.
  erewrite bind_Ok by reflexivity.
  erewrite bind_Ok.
  2:{ apply self_getitem_Ok. cbn [self_df].
      rewrite get_col_set_col_other by discriminate. exact Htp. }
  erewrite bind_Ok by reflexivity.
  erewrite bind_Ok by reflexivity.
  erewrite bind_Ok.
  2:{ apply self_getitem_Ok. cbn [self_df].
      rewrite !get_col_set_col_other by discriminate. exact Htp. }
  erewrite bind_Ok by reflexivity.
  erewrite bind_Ok by reflexivity.
  cbn [map self_df console].
  erewrite bind_Ok.
  2:{ apply self_getitem_Ok. cbn [self_df].
      rewrite !get_col_set_col_other by discriminate. apply get_col_set_col_same. }
  cbv zeta.
  erewrite bind_Ok by reflexivity.
  erewrite bind_Ok.
  2:{ apply for_each_skip. intros day _.
      erewrite bind_Ok.
      2:{ apply self_getitem_Ok. cbn [self_df].
          rewrite get_col_set_col_other by discriminate. apply get_col_set_col_same. }
      reflexivity. }
  erewrite bind_Ok.
  2:{ apply self_getitem_Ok. cbn [self_df].
      rewrite !get_col_set_col_other by discriminate. apply get_col_set_col_same. }
  erewrite bind_Ok.
  2:{ apply self_getitem_Ok. cbn [self_df].
      rewrite !get_col_set_col_other by discriminate. exact Hsev. }
  erewrite bind_Ok by reflexivity.
  reflexivity.
Qed.

(** The label of an hour of the day: 5 to 7 is early morning, 8 to 11
    morning, 12 and 13 noon, 14 to 16 afternoon, 17 to 19 evening, and
    every other hour, before 5 or from 20 on, is night. *)
Theorem time_period_of_hour (h : Z) :
  (_get_time_period (inject_Z h) = "early morning" <-> 5 <= h <= 7) /\
  (_get_time_period (inject_Z h) = "morning" <-> 8 <= h <= 11) /\
  (_get_time_period (inject_Z h) = "noon" <-> 12 <= h <= 13) /\
  (_get_time_period (inject_Z h) = "afternoon" <-> 14 <= h <= 16) /\
  (_get_time_period (inject_Z h) = "evening" <-> 17 <= h <= 19) /\
  (_get_time_period (inject_Z h) = "night" <-> h <= 4 \/ 20 <= h).
Proof.
  assert (Hle : forall a : Z, Qle_bool (inject_Z a) (inject_Z h) = (a <=? h)).
  { intro a. destruct (a <=? h) eqn:E.
    - apply Qle_bool_iff. rewrite <- Zle_Qle. apply Z.leb_le. exact E.
    - destruct (Qle_bool (inject_Z a) (inject_Z h)) eqn:E'; [|reflexivity].
      apply Qle_bool_iff in E'. rewrite <- Zle_Qle in E'. apply Z.leb_le in E'. congruence. }
  assert (Hlt : forall a : Z, Qlt_bool (inject_Z h) (inject_Z a) = (h <? a)).
  { intro a. destruct (h <? a) eqn:E.
    - apply Qlt_bool_iff. rewrite <- Zlt_Qlt. apply Z.ltb_lt. exact E.
    - apply Qlt_bool_false_iff. rewrite <- Zle_Qle. apply Z.ltb_ge. exact E. }
  unfold _get_time_period.
  change 5%Q with (inject_Z 5). change 8%Q with (inject_Z 8).
  change 12%Q with (inject_Z 12). change 14%Q with (inject_Z 14).
  change 17%Q with (inject_Z 17). change 20%Q with (inject_Z 20).
  rewrite !Hle, !Hlt.
  assert (Hregion : h <= 4 \/ 5 <= h <= 7 \/ 8 <= h <= 11 \/ 12 <= h <= 13 \/
                    14 <= h <= 16 \/ 17 <= h <= 19 \/ 20 <= h) by lia.
  destruct Hregion as [R | [R | [R | [R | [R | [R | R]]]]]];
    repeat match goal with
           | |- context [(?a <=? ?b)] =>
               first [ replace (a <=? b) with true by (symmetry; apply Z.leb_le; lia)
                     | replace (a <=? b) with false by (symmetry; apply Z.leb_gt; lia) ]
           | |- context [(?a <? ?b)] =>
               first [ replace (a <? b) with true by (symmetry; apply Z.ltb_lt; lia)
                     | replace (a <? b) with false by (symmetry; apply Z.ltb_ge; lia) ]
           end;
    cbn [andb];
    repeat split; intros; try lia; try discriminate; try reflexivity.
Qed.

Lemma temporal_columns_witness :
  get_col "timestamp_parsed" (self_df Sample.loaded) =
    Some (map CTime [Some (mkTimestamp 2024 1 1 8 30 0);
                     Some (mkTimestamp 2024 1 2 14 0 0);
                     Some (mkTimestamp 2024 1 3 21 15 0)]) /\
  get_col "hour" (self_df (fst (analyze_temporal_patterns Sample.loaded))) =
    Some [CNum (Fin 8); CNum (Fin 14); CNum (Fin 21)].
Proof.
  split; [reflexivity|].
  destruct (temporal_columns Sample.loaded
              [Some (mkTimestamp 2024 1 1 8 30 0);
               Some (mkTimestamp 2024 1 2 14 0 0);
               Some (mkTimestamp 2024 1 3 21 15 0)] eq_refl)
    as (hour & dow & month & Hh & _).
  rewrite Hh. vm_compute in Hh. injection Hh as <-. reflexivity.
Defined.

Lemma temporal_zero_records_witness :
  get_col "timestamp_parsed" (self_df Sample.loaded_empty) = Some [] /\
  get_col "severity" (self_df Sample.loaded_empty) = Some [] /\
  analyze_temporal_patterns Sample.loaded_empty =
    (mkAnalyzer
       (set_col "month" []
          (set_col "day_of_week" [] (set_col "hour" [] (self_df Sample.loaded_empty))))
       (console Sample.loaded_empty),
     Raise ValueError).
Proof.
  split; [reflexivity|]. split; [reflexivity|].
  apply (temporal_zero_records Sample.loaded_empty); reflexivity.
Defined.

(* ================================================================== *)
(** * Further properties of the clustering features *)
(* ================================================================== *)

Lemma for_each_Ok_inv {A} (l : list A) (body : A -> M unit) st st' :
  for_each l body st = (st', Ok tt) ->
  forall x, In x l -> exists s s', body x s = (s', Ok tt).
Proof.
  revert st. induction l as [|a tl IH]; intros st H x Hx; [destruct Hx|].
  simpl in H. apply bind_Ok_inv in H. destruct H as (st1 & [] & Ha & Htl).
  destruct Hx as [<- | Hx]; [eauto|]. eapply IH; eauto.
Qed.

Lemma fadd_NaN_r (x : fnum) : fadd x NaN = NaN.
Proof. destruct x; reflexivity. Qed.

Lemma fdiv_NaN_r (x : fnum) : fdiv x NaN = NaN.
Proof. destruct x; reflexivity. Qed.

Lemma get_col_Some_in_columns name df s :
  get_col name df = Some s -> In name (columns df).
Proof.
  unfold columns. induction df as [|[c old] tl IH]; simpl; [discriminate|].
  destruct (String.eqb c name) eqn:E.
  - apply String.eqb_eq in E. auto.
  - auto.
Qed.

Section FeatureTable.

Context {lib : Library}.

(** When the feature analyzer returns, its table has the nine columns in
    their fixed order, the first six being the columns of [self.df] as
    they are, every column holds numbers only, and [self.df] itself has
    gained no column: the three derived features live in the returned
    table alone. *)
Theorem clustering_features_table (st st' : analyzer) (features_df : DataFrame) :
  analyze_clustering_features st = (st', Ok features_df) ->
  self_df st' = self_df st /\
  columns features_df = feature_columns /\
  (forall c, In c feature_inputs -> get_col c features_df = get_col c (self_df st)) /\
  (forall c s, get_col c features_df = Some s -> exists xs, s = of_nums xs).
Proof.
  intro H.
  pose proof (clustering_features_same_df st) as Hsame. rewrite H in Hsame.
  split; [exact Hsame|].
  unfold analyze_clustering_features in H.
  do 6 invert_step H.
  cbv zeta in H.
  repeat (invert_step H;
          try match goal with
              | Hs : getitem _ _ = Ok _ |- _ =>
                  cbn in Hs; inversion Hs; subst; clear Hs
              end).
  apply bind_Ok_inv in H. destruct H as (st1 & u1 & Hloop & H).
  apply bind_Ok_inv in H. destruct H as (st2 & u2 & _ & H).
  inversion H; subst; clear H. destruct u1.
  split; [reflexivity|]. split.
  - intros c Hc. simpl in Hc.
    repeat (destruct Hc as [<- | Hc]; [cbn; congruence|]). destruct Hc.
  - intros c s Hs.
    destruct (for_each_Ok_inv _ _ _ _ Hloop c) as (s1 & s2 & Hbody).
    { apply get_col_Some_in_columns with (s := s). exact Hs. }
    invert_step Hbody. invert_step Hbody.
    match goal with
    | Hg : getitem c ?T' = Ok ?s', Hn : numeric ?s' = Ok ?xs |- _ =>
        match type of Hs with
        | get_col c ?T = _ => change T' with T in Hg
        end;
        unfold getitem in Hg; rewrite Hs in Hg; injection Hg as Hg;
        exists xs; rewrite Hg; apply numeric_Ok_of_nums; exact Hn
    end.
Qed.

(** The feature analyzer fails without a trace when an input is missing
    or is text: the first of its six columns that [self.df] lacks gives
    [KeyError] of that column, and text in [sleep] or [stress] gives
    [TypeError]; the table and the console are as before. *)
Theorem clustering_features_fails (st : analyzer) :
  ((exists k, In k feature_inputs /\ get_col k (self_df st) = None) ->
   exists k, In k feature_inputs /\ get_col k (self_df st) = None /\
             analyze_clustering_features st = (st, Raise (KeyError k))) /\
  (forall sleep stress e,
     (forall k, In k feature_inputs -> exists s, get_col k (self_df st) = Some s) ->
     get_col "sleep" (self_df st) = Some sleep ->
     get_col "stress" (self_df st) = Some stress ->
     sleep_stress_ratio sleep stress = Raise e ->
     e = TypeError /\
     analyze_clustering_features st = (st, Raise TypeError)).
Proof.
  split.
  - intros (k0 & Hk0 & Hmiss). unfold analyze_clustering_features.
    assert (Hget : forall name, get_col name (self_df st) = None ->
              self_getitem name st = (st, Raise (KeyError name))).
    { intros name Hn. unfold self_getitem, bind, get_df, lift, getitem.
      rewrite Hn. reflexivity. }
    destruct (get_col "severity" (self_df st)) as [c1|] eqn:E1.
    2:{ exists "severity". split; [simpl; tauto|]. split; [exact E1|].
        erewrite bind_Raise; [reflexivity | apply Hget; exact E1]. }
    erewrite bind_Ok by (apply self_getitem_Ok; exact E1).
    destruct (get_col "sleep" (self_df st)) as [c2|] eqn:E2.
    2:{ exists "sleep". split; [simpl; tauto|]. split; [exact E2|].
        erewrite bind_Raise; [reflexivity | apply Hget; exact E2]. }
    erewrite bind_Ok by (apply self_getitem_Ok; exact E2).
    destruct (get_col "stress" (self_df st)) as [c3|] eqn:E3.
    2:{ exists "stress". split; [simpl; tauto|]. split; [exact E3|].
        erewrite bind_Raise; [reflexivity | apply Hget; exact E3]. }
    erewrite bind_Ok by (apply self_getitem_Ok; exact E3).
    destruct (get_col "exercise" (self_df st)) as [c4|] eqn:E4.
    2:{ exists "exercise". split; [simpl; tauto|]. split; [exact E4|].
        erewrite bind_Raise; [reflexivity | apply Hget; exact E4]. }
    erewrite bind_Ok by (apply self_getitem_Ok; exact E4).
    destruct (get_col "symptom_count" (self_df st)) as [c5|] eqn:E5.
    2:{ exists "symptom_count". split; [simpl; tauto|]. split; [exact E5|].
        erewrite bind_Raise; [reflexivity | apply Hget; exact E5]. }
    erewrite bind_Ok by (apply self_getitem_Ok; exact E5).
    destruct (get_col "age" (self_df st)) as [c6|] eqn:E6.
    2:{ exists "age". split; [simpl; tauto|]. split; [exact E6|].
        erewrite bind_Raise; [reflexivity | apply Hget; exact E6]. }
    exfalso. simpl in Hk0.
    repeat (destruct Hk0 as [<- | Hk0]; [congruence|]). destruct Hk0.
  - intros sleep stress e Hall Hsl Hst Hr.
    assert (He : e = TypeError).
    { unfold sleep_stress_ratio in Hr.
      destruct (numeric sleep) eqn:E1; simpl in Hr.
      - unfold series_add_const in Hr. destruct (numeric stress) eqn:E2; simpl in Hr.
        + discriminate.
        + apply (numeric_raises stress). congruence.
      - apply (numeric_raises sleep). congruence. }
    split; [exact He|]. subst e.
    destruct (Hall "severity") as [c1 E1]; [simpl; tauto|].
    destruct (Hall "exercise") as [c4 E4]; [simpl; tauto|].
    destruct (Hall "symptom_count") as [c5 E5]; [simpl; tauto|].
    destruct (Hall "age") as [c6 E6]; [simpl; tauto|].
    unfold analyze_clustering_features.
    erewrite bind_Ok by (apply self_getitem_Ok; exact E1).
    erewrite bind_Ok by (apply self_getitem_Ok; exact Hsl).
    erewrite bind_Ok by (apply self_getitem_Ok; exact Hst).
    erewrite bind_Ok by (apply self_getitem_Ok; exact E4).
    erewrite bind_Ok by (apply self_getitem_Ok; exact E5).
    erewrite bind_Ok by (apply self_getitem_Ok; exact E6).
    cbv zeta.
    erewrite bind_Ok by reflexivity.
    erewrite bind_Ok by reflexivity.
    erewrite bind_Raise; [reflexivity|].
    unfold lift. rewrite Hr. reflexivity.
Qed.

(** A missing value is carried into the derived features and raises
    nothing: in the table that the feature analyzer returns, a record
    without sleep or without stress has NaN as its [sleep_stress_ratio]
    and its [lifestyle_score], and a record without exercise or without
    severity has NaN as its [exercise_severity_ratio]. *)
Theorem clustering_features_missing_values
    (st st' : analyzer) (features_df : DataFrame) :
  analyze_clustering_features st = (st', Ok features_df) ->
  exists severity sleep stress exercise ratio ratio' score,
    get_col "severity" (self_df st) = Some severity /\
    get_col "sleep" (self_df st) = Some sleep /\
    get_col "stress" (self_df st) = Some stress /\
    get_col "exercise" (self_df st) = Some exercise /\
    get_col "sleep_stress_ratio" features_df = Some (of_nums ratio) /\
    get_col "exercise_severity_ratio" features_df = Some (of_nums ratio') /\
    get_col "lifestyle_score" features_df = Some (of_nums score) /\
    forall (i : nat) (sv sl st ex : fnum),
      nth_error severity i = Some (CNum sv) ->
      nth_error sleep i = Some (CNum sl) ->
      nth_error stress i = Some (CNum st) ->
      nth_error exercise i = Some (CNum ex) ->
      (sl = NaN \/ st = NaN -> nth_error ratio i = Some NaN) /\
      (ex = NaN \/ sv = NaN -> nth_error ratio' i = Some NaN) /\
      (sl = NaN \/ ex = NaN \/ st = NaN -> nth_error score i = Some NaN).
Proof.
  intro H.
  destruct (clustering_features_inv _ _ _ H)
    as (severity & sleep & stress & exercise & sc & age & r1 & r2 & r3 &
        Hsv & Hsl & Hst & Hex & Hr1 & Hr2 & Hr3 & ->).
  exists severity, sleep, stress, exercise, r1, r2, r3.
  repeat (split; [first [assumption | reflexivity]|]).
  intros i sv sl st0 ex Hi1 Hi2 Hi3 Hi4.
  rewrite (sleep_stress_ratio_row _ _ _ _ _ _ Hr1 Hi2 Hi3).
  rewrite (exercise_severity_ratio_row _ _ _ _ _ _ Hr2 Hi4 Hi1).
  rewrite (lifestyle_score_row _ _ _ _ _ _ _ _ Hr3 Hi2 Hi4 Hi3).
  split; [|split].
  - intros [-> | ->]; [reflexivity|]. simpl fadd. rewrite fdiv_NaN_r. reflexivity.
  - intros [-> | ->]; [reflexivity|]. simpl fadd. rewrite fdiv_NaN_r. reflexivity.
  - intros [-> | [-> | ->]].
    + reflexivity.
    + simpl fdiv. rewrite fadd_NaN_r. reflexivity.
    + unfold fsub. simpl fneg. rewrite fadd_NaN_r. reflexivity.
Qed.

End FeatureTable.

Lemma clustering_features_table_witness :
  exists st' features_df,
    analyze_clustering_features (lib := Sample.lib) Sample.loaded = (st', Ok features_df) /\
    self_df st' = self_df Sample.loaded /\
    columns features_df = feature_columns.
Proof.
  destruct (analyze_clustering_features (lib := Sample.lib) Sample.loaded)
    as [st' [f | e]] eqn:E; [|vm_compute in E; discriminate E].
  exists st', f. split; [reflexivity|].
  destruct (clustering_features_table (lib := Sample.lib) Sample.loaded st' f E)
    as (Hdf & Hcols & _).
  split; assumption.
Defined.

Lemma clustering_features_fails_witness :
  (exists k,
     analyze_clustering_features (lib := Cases.lib) (Cases.loaded "no_stress.csv") =
       (Cases.loaded "no_stress.csv", Raise (KeyError k))) /\
  analyze_clustering_features (lib := Cases.lib) (Cases.loaded "text.csv") =
    (Cases.loaded "text.csv", Raise TypeError).
Proof.
  split.
  - destruct (proj1 (clustering_features_fails (lib := Cases.lib)
                       (Cases.loaded "no_stress.csv")))
      as (k & _ & _ & Hk).
    + exists "stress". split; [simpl; tauto | reflexivity].
    + exists k. exact Hk.
  - refine (proj2 (proj2 (clustering_features_fails (lib := Cases.lib)
                            (Cases.loaded "text.csv"))
                     [Sample.num 6] [CStr "high"] TypeError _ _ _ _)).
    + intros k Hk. simpl in Hk.
      repeat (destruct Hk as [<- | Hk]; [eexists; vm_compute; reflexivity|]).
      destruct Hk.
    + vm_compute. reflexivity.
    + vm_compute. reflexivity.
    + vm_compute. reflexivity.
Defined.

Lemma clustering_features_missing_values_witness :
  exists st' features_df ratio,
    analyze_clustering_features (lib := Cases.lib) (Cases.loaded "missing.csv") =
      (st', Ok features_df) /\
    get_col "sleep_stress_ratio" features_df = Some (of_nums ratio) /\
    nth_error ratio 1 = Some NaN.
Proof.
  destruct (analyze_clustering_features (lib := Cases.lib) (Cases.loaded "missing.csv"))
    as [st' [f | e]] eqn:E; [|vm_compute in E; discriminate E].
  destruct (clustering_features_missing_values (lib := Cases.lib) _ st' f E)
    as (sv & sl & sr & ex & r & r' & sc & Hsv & Hsl & Hsr & Hex & Hr & _ & _ & Hrow).
  exists st', f, r. split; [reflexivity|]. split; [exact Hr|].
  vm_compute in Hsv, Hsl, Hsr, Hex.
  injection Hsv as <-. injection Hsl as <-. injection Hsr as <-. injection Hex as <-.
  apply (proj1 (Hrow 1%nat _ _ _ _ eq_refl eq_refl eq_refl eq_refl)).
  left. reflexivity.
Defined.

(* ================================================================== *)
(** * Further properties of the recommendations *)
(* ================================================================== *)

Lemma emits_ret {A} (a : A) : emits (ret a) [] a.
Proof. intro st. unfold ret. rewrite app_nil_r. destruct st. reflexivity. Qed.

Lemma emits_print what values : emits (print what values) [Line what values] tt.
Proof. intro st. reflexivity. Qed.

Lemma emits_lift {A} (r : result A) (a : A) : r = Ok a -> emits (lift r) [] a.
Proof. intros -> st. unfold lift. rewrite app_nil_r. destruct st. reflexivity. Qed.

Lemma emits_bind {A B} (m : M A) (k : A -> M B) l1 l2 a b :
  emits m l1 a -> emits (k a) l2 b -> emits (bind m k) (l1 ++ l2) b.
Proof.
  intros Hm Hk st. erewrite bind_Ok by apply Hm. rewrite Hk. simpl.
  rewrite <- app_assoc. reflexivity.
Qed.

Lemma emits_for_fold {A S} (l : list A) (body : S -> A -> M S)
    (step : S -> A -> S) (pr : A -> list line) (acc : S) :
  (forall acc x, In x l -> emits (body acc x) (pr x) (step acc x)) ->
  emits (for_fold l acc body) (flat_map pr l) (fold_left step l acc).
Proof.
  revert acc. induction l as [|x tl IH]; intros acc Hb; simpl.
  - apply emits_ret.
  - eapply emits_bind; [apply Hb; left; reflexivity|].
    apply IH. intros acc' y Hy. apply Hb. right. exact Hy.
Qed.

Lemma emits_for_each {A} (l : list A) (body : A -> M unit) (pr : A -> list line) :
  (forall x, In x l -> emits (body x) (pr x) tt) ->
  emits (for_each l body) (flat_map pr l) tt.
Proof.
  induction l as [|x tl IH]; intro Hb; simpl.
  - apply emits_ret.
  - eapply emits_bind; [apply Hb; left; reflexivity|].
    apply IH. intros y Hy. apply Hb. right. exact Hy.
Qed.

Lemma flat_map_nil {A B} (l : list A) : flat_map (fun _ : A => @nil B) l = [].
Proof. induction l; simpl; auto. Qed.

Lemma getitem_numeric_table (features_df : DataFrame) (col : string) :
  numeric_table features_df -> In col (columns features_df) ->
  exists s, getitem col features_df = Ok s /\ numeric s = Ok (col_nums features_df col).
Proof.
  intros Hnum Hin. unfold getitem, col_nums.
  destruct (get_col col features_df) as [s|] eqn:E.
  - exists s. split; [reflexivity|].
    assert (Hs : exists c, In (c, s) features_df).
    { clear Hnum Hin. induction features_df as [|[c old] tl IH]; simpl in E; [discriminate|].
      destruct (String.eqb c col).
      - inversion E; subst. exists c. left. reflexivity.
      - destruct (IH E) as [c' Hc']. exists c'. right. exact Hc'. }
    destruct Hs as [c Hc]. destruct (Hnum c s Hc) as [xs ->].
    rewrite numeric_of_nums. reflexivity.
  - exfalso. clear Hnum. unfold columns in Hin.
    induction features_df as [|[c old] tl IH]; simpl in *; [exact Hin|].
    destruct (String.eqb c col) eqn:Ec; [discriminate|].
    destruct Hin as [-> | Hin]; [rewrite String.eqb_refl in Ec; discriminate|].
    apply IH; assumption.
Qed.

Lemma outliers_nonneg (col : list fnum) : 0 <= outliers col.
Proof. unfold outliers, count_true. lia. Qed.

Lemma sum_counts_zero (f : string -> Z) (l : list string) (acc : Z) :
  (forall c, 0 <= f c) -> 0 <= acc ->
  (fold_left Z.add (map f l) acc =? 0) = (acc =? 0) && forallb (fun c => f c =? 0) l.
Proof.
  intro Hf. revert acc. induction l as [|c tl IH]; intros acc Hacc; simpl.
  - rewrite andb_true_r. reflexivity.
  - rewrite IH by (specialize (Hf c); lia).
    specialize (Hf c).
    destruct (acc =? 0) eqn:E1; destruct (f c =? 0) eqn:E2; simpl;
      destruct (acc + f c =? 0) eqn:E3; simpl; try reflexivity;
      apply Z.eqb_eq in E3 || apply Z.eqb_neq in E3;
      try (apply Z.eqb_eq in E1); try (apply Z.eqb_neq in E1);
      try (apply Z.eqb_eq in E2); try (apply Z.eqb_neq in E2); lia.
Qed.

Lemma map_snd_fold_append {A} (f : A -> Z) (l : list A) (acc : list (A * Z)) :
  map snd (fold_left (fun a c => a ++ [(c, f c)]) l acc) = map snd acc ++ map f l.
Proof.
  revert acc. induction l as [|c tl IH]; intro acc; simpl.
  - rewrite app_nil_r. reflexivity.
  - rewrite IH, map_app. simpl. rewrite <- app_assoc. reflexivity.
Qed.

Lemma clean_bill_iff (features_df : DataFrame) :
  clean_bill features_df = [Line "No significant outliers detected" []] <->
  outlier_lines features_df = [].
Proof.
  unfold clean_bill, outlier_lines.
  generalize (columns features_df) as cols.
  induction cols as [|c tl IH]; simpl; [tauto|].
  pose proof (outliers_nonneg (col_nums features_df c)) as Hc.
  destruct (outliers (col_nums features_df c) =? 0) eqn:E0; simpl.
  - apply Z.eqb_eq in E0. rewrite E0. simpl. exact IH.
  - apply Z.eqb_neq in E0.
    replace (0 <? outliers (col_nums features_df c)) with true
      by (symmetry; apply Z.ltb_lt; lia).
    simpl. split; discriminate.
Qed.

Section Recommendations.

Context {lib : Library}.

(** On a table of numbers with distinct column names the recommendations
    always return, also for a table without records, and leave [self.df]
    alone. After the range of cluster counts, the sample size and the
    features to normalise they print one line for every column that has
    outliers, in the order of the columns, and then the line that no
    outliers were detected exactly when no column got a line. *)
Theorem recommendations_outlier_report (features_df : DataFrame) (st : analyzer) :
  NoDup (columns features_df) ->
  numeric_table features_df ->
  exists before after,
    generate_clustering_recommendations features_df st =
      (mkAnalyzer (self_df st)
         (console st ++ before ++ outlier_lines features_df
                     ++ clean_bill features_df ++ after),
       Ok tt) /\
    List.length before = 3%nat /\
    (clean_bill features_df = [Line "No significant outliers detected" []] <->
     outlier_lines features_df = []).
Proof.
  intros _ Hnum.
  assert (Hcol : forall col, In col (columns features_df) ->
            forall B (k : list fnum -> M B) lines b,
              emits (k (col_nums features_df col)) lines b ->
              emits (s <- lift (getitem col features_df) ;;
                     xs <- lift (numeric s) ;; k xs) lines b).
  { intros col Hin B k lines b Hk.
    destruct (getitem_numeric_table _ _ Hnum Hin) as (ser & Hget & Hn).
    change lines with ([] ++ [] ++ lines).
    eapply emits_bind; [apply emits_lift; exact Hget|].
    eapply emits_bind; [apply emits_lift; exact Hn | exact Hk]. }
  eassert (Hrun : emits (generate_clustering_recommendations features_df) _ tt).
  { unfold generate_clustering_recommendations. cbv zeta.
    eapply emits_bind; [apply emits_print|].
    eapply emits_bind; [apply emits_print|].
    eapply emits_bind.
    { apply (emits_for_fold _ _
               (fun scale_needed col =>
                  if fgt (fsub (series_max (col_nums features_df col))
                               (series_min (col_nums features_df col))) (Fin 10)
                  then scale_needed ++ [col] else scale_needed)
               (fun _ => [])).
      intros acc col Hin. apply (Hcol col Hin). cbv zeta.
      destruct (fgt _ _); apply emits_ret. }
    eapply emits_bind.
    { match goal with
      | |- emits (match ?l with _ => _ end) ?L _ =>
          unify L [scale_message l]; destruct l; apply emits_print
      end. }
    eapply emits_bind.
    { apply (emits_for_fold _ _
               (fun outlier_counts col =>
                  outlier_counts ++ [(col, outliers (col_nums features_df col))])
               (fun col =>
                  let n := outliers (col_nums features_df col) in
                  if 0 <? n
                  then [Line "outliers"
                          [CStr col; CNum (of_Z n);
                           CNum (fmul (fdiv (of_Z n)
                                         (of_Z (Z.of_nat (df_len features_df)))) (Fin 100))]]
                  else [])).
      intros acc col Hin. apply (Hcol col Hin). cbv zeta.
      destruct (0 <? outliers (col_nums features_df col)).
      - change [Line "outliers"
                  [CStr col; CNum (of_Z (outliers (col_nums features_df col)));
                   CNum (fmul (fdiv (of_Z (outliers (col_nums features_df col)))
                                 (of_Z (Z.of_nat (df_len features_df)))) (Fin 100))]]
          with (([] ++ [Line "outliers"
                  [CStr col; CNum (of_Z (outliers (col_nums features_df col)));
                   CNum (fmul (fdiv (of_Z (outliers (col_nums features_df col)))
                                 (of_Z (Z.of_nat (df_len features_df)))) (Fin 100))]])
                ++ []).
        eapply emits_bind; [|apply emits_ret].
        eapply emits_bind; [apply emits_lift; reflexivity | apply emits_print].
      - change (@nil line) with (@nil line ++ []).
        eapply emits_bind; apply emits_ret. }
    eapply emits_bind.
    { rewrite (map_snd_fold_append (fun col => outliers (col_nums features_df col))).
      cbn [map app].
      rewrite (sum_counts_zero (fun col => outliers (col_nums features_df col)))
        by (intros; first [apply outliers_nonneg | lia]).
      cbn [Z.eqb andb].
      match goal with
      | |- emits _ ?L _ => unify L (clean_bill features_df)
      end.
      unfold clean_bill.
      destruct (forallb _ (columns features_df)); [apply emits_print | apply emits_ret]. }
    eapply emits_bind.
    { apply (emits_for_fold _ _
               (fun importance_scores col =>
                  importance_scores ++
                  [(col, fdiv (series_std (col_nums features_df col))
                           (fadd (series_mean (col_nums features_df col))
                                 (Fin (1 # 1000))))])
               (fun _ => [])).
      intros acc col Hin. apply (Hcol col Hin). cbv zeta. apply emits_ret. }
    cbv zeta.
    apply (emits_for_each _ _
             (fun fi => [Line "importance" [CStr (fst fi); CNum (snd fi)]])).
    intros fi _. apply emits_print. }
  rewrite !flat_map_nil in Hrun. cbn [app] in Hrun.
  fold (outlier_lines features_df) in Hrun.
  eexists [_; _; _]. eexists.
  split; [|split].
  - rewrite (Hrun st). cbn [app]. reflexivity.
  - reflexivity.
  - apply clean_bill_iff.
Qed.

End Recommendations.

Lemma recommendations_outlier_report_witness :
  let features_df := [("severity", of_nums example_column)] in
  exists before after,
    generate_clustering_recommendations (lib := Sample.lib) features_df Sample.loaded =
      (mkAnalyzer (self_df Sample.loaded)
         (console Sample.loaded ++ before ++ outlier_lines features_df
                                ++ clean_bill features_df ++ after),
       Ok tt) /\
    List.length (outlier_lines features_df) = 1%nat /\
    clean_bill features_df = [].
Proof.
  intro features_df.
  destruct (recommendations_outlier_report (lib := Sample.lib) features_df Sample.loaded)
    as (before & after & Hrun & _ & _).
  - apply NoDup_cons; [intros [] | apply NoDup_nil].
  - intros c s [Hin | []]. injection Hin as _ <-. exists example_column. reflexivity.
  - exists before, after. split; [exact Hrun|]. split; vm_compute; reflexivity.
Defined.

(* ================================================================== *)
(** * Further properties of the report *)
(* ================================================================== *)

Lemma dt_Ok_inv (tp : Series) (stamps : list (option Timestamp)) :
  dt tp = Ok stamps -> tp = map CTime stamps.
Proof.
  unfold dt. revert stamps. induction tp as [|c tl IH]; simpl; intros stamps H.
  - inversion H. reflexivity.
  - destruct c; simpl in H; try discriminate.
    destruct (rmap _ tl) as [ys|]; simpl in H; [|discriminate].
    inversion H. simpl. f_equal. apply IH. reflexivity.
Qed.

Lemma demographics_Ok_inv (st st' : analyzer) :
  analyze_demographics st = (st', Ok tt) ->
  exists ages,
    get_col "age" (self_df st) = Some (of_nums ages) /\
    self_df st' = set_col "age_group" (map (cut_value age_bins age_labels) ages) (self_df st).
Proof.
  intro H. pose proof H as H0.
  unfold analyze_demographics in H.
  apply bind_Ok_inv in H. destruct H as (st1 & [] & Hage & Hrest).
  unfold age_distribution in Hage.
  invert_step Hage. invert_step Hage.
  unfold pd_cut in Hstep0.
  destruct (numeric a) as [ages|] eqn:En; simpl in Hstep0; [|discriminate].
  inversion Hstep0; subst a0; clear Hstep0.
  apply numeric_Ok_of_nums in En. subst a.
  exists ages. split; [exact Hstep|].
  invert_any Hage.
  assert (Hst1 : self_df st1 =
                 set_col "age_group" (map (cut_value age_bins age_labels) ages) (self_df st)).
  { match type of Hage with
    | ?m ?s = _ =>
        assert (Hsame : preserves same_df m) by (preserve same_df_leaf);
        specialize (Hsame s); rewrite Hage in Hsame; exact Hsame
    end. }
  assert (Hrest' : preserves same_df (gender_distribution ;;; medical_history_distribution)).
  { apply preserves_bind;
      [exact _ | apply gender_distribution_same_df
      | intros _; apply medical_history_same_df]. }
  specialize (Hrest' st1). rewrite Hrest in Hrest'. unfold same_df in Hrest'. simpl in Hrest'.
  rewrite Hrest'. exact Hst1.
Qed.

Lemma temporal_Ok_inv (st st' : analyzer) :
  analyze_temporal_patterns st = (st', Ok tt) ->
  exists stamps,
    get_col "timestamp_parsed" (self_df st) = Some (map CTime stamps) /\
    self_df st' =
      set_col "month" (map (dt_field (fun t => CNum (of_Z (ts_month t)))) stamps)
        (set_col "day_of_week" (map (dt_field (fun t => CStr (day_name t))) stamps)
           (set_col "hour" (map (dt_field (fun t => CNum (of_Z (ts_hour t)))) stamps)
              (self_df st))).
Proof.
  intro H. pose proof H as H0.
  unfold analyze_temporal_patterns in H.
  invert_step H. invert_step H.
  apply dt_Ok_inv in Hstep0. subst a.
  exists a0. split; [exact Hstep|].
  rewrite <- (temporal_writes st a0 Hstep). rewrite H0. reflexivity.
Qed.

Section ReportReturns.

Context {lib : Library}.

(** The table after a report that returns: exactly the table before it
    with the four columns [age_group], [hour], [day_of_week] and [month]
    written from the ages and the parsed timestamps it held; the returned
    matrix is over the six numeric columns and the returned table of
    features has its nine columns. *)
Theorem generate_report_returns
    (st st' : analyzer) (m : CorrMatrix) (features_df : DataFrame) :
  generate_report st = (st', Ok (m, features_df)) ->
  exists ages stamps,
    get_col "age" (self_df st) = Some (of_nums ages) /\
    get_col "timestamp_parsed" (self_df st) = Some (map CTime stamps) /\
    self_df st' =
      set_col "month" (map (dt_field (fun t => CNum (of_Z (ts_month t)))) stamps)
        (set_col "day_of_week" (map (dt_field (fun t => CStr (day_name t))) stamps)
           (set_col "hour" (map (dt_field (fun t => CNum (of_Z (ts_hour t)))) stamps)
              (set_col "age_group" (map (cut_value age_bins age_labels) ages)
                 (self_df st)))) /\
    corr_columns m = numeric_cols /\
    columns features_df = feature_columns.
Proof.
  unfold generate_report. intro H.
  apply bind_Ok_inv in H. destruct H as (s0 & [] & H0 & H).
  unfold print in H0. inversion H0; subst s0; clear H0.
  apply bind_Ok_inv in H. destruct H as (s1 & [] & H1 & H).
  apply bind_Ok_inv in H. destruct H as (s2 & [] & H2 & H).
  apply bind_Ok_inv in H. destruct H as (s3 & m' & H3 & H).
  apply bind_Ok_inv in H. destruct H as (s4 & [] & H4 & H).
  apply bind_Ok_inv in H. destruct H as (s5 & f' & H5 & H).
  apply bind_Ok_inv in H. destruct H as (s6 & [] & H6 & H).
  apply bind_Ok_inv in H. destruct H as (s7 & [] & H7 & H).
  apply bind_Ok_inv in H. destruct H as (s8 & [] & H8 & H).
  unfold print in H7, H8. unfold ret in H.
  inversion H7; subst s7; clear H7. inversion H8; subst s8; clear H8.
  inversion H; subst st' m' f'; clear H.
  pose proof (basic_statistics_same_df
                (mkAnalyzer (self_df st)
                   (console st ++ [Line "HEALTH AI DATASET ANALYSIS REPORT" []]))) as E1.
  rewrite H1 in E1. unfold same_df in E1. simpl in E1.
  destruct (demographics_Ok_inv _ _ H2) as (ages & Hage & E2).
  pose proof (correlations_same_df s2) as E3. rewrite H3 in E3.
  unfold same_df in E3. simpl in E3.
  destruct (analyze_correlations_inv _ _ _ H3) as (selected & cols & _ & _ & Hm & _).
  destruct (temporal_Ok_inv _ _ H4) as (stamps & Htp & E4).
  pose proof (clustering_features_same_df s4) as E5. rewrite H5 in E5.
  unfold same_df in E5. simpl in E5.
  destruct (clustering_features_inv _ _ _ H5)
    as (c1 & c2 & c3 & c4 & c5 & c6 & r1 & r2 & r3 & _ & _ & _ & _ & _ & _ & _ & Hf).
  pose proof (recommendations_same_df features_df s5) as E6. rewrite H6 in E6.
  unfold same_df in E6. simpl in E6.
  exists ages, stamps.
  rewrite E1 in Hage, E2.
  rewrite E3, E2 in Htp. rewrite get_col_set_col_other in Htp by discriminate.
  split; [exact Hage|]. split; [exact Htp|].
  split; [|split; [rewrite Hm; reflexivity | rewrite Hf; reflexivity]].
  simpl. rewrite E6, E5, E4, E3, E2. reflexivity.
Qed.

End ReportReturns.

Lemma generate_report_returns_witness :
  exists st' m features_df,
    generate_report (lib := Sample.lib) Sample.loaded = (st', Ok (m, features_df)) /\
    corr_columns m = numeric_cols /\
    columns features_df = feature_columns.
Proof.
  destruct (generate_report (lib := Sample.lib) Sample.loaded)
    as [st' [[m f] | e]] eqn:E; [|vm_compute in E; discriminate E].
  exists st', m, f. split; [reflexivity|].
  destruct (generate_report_returns (lib := Sample.lib) Sample.loaded st' m f E)
    as (ages & stamps & _ & _ & _ & Hm & Hf).
  split; assumption.
Defined.

(* ================================================================== *)
(** * Further properties of the driver *)
(* ================================================================== *)

#[local] Instance no_verdict_pre : RelationClasses.PreOrder no_verdict.
Proof.
  split.
  - intro st. exists []. rewrite app_nil_r. split; [reflexivity | constructor].
  - intros a b c (m1 & H1 & F1) (m2 & H2 & F2). exists (m1 ++ m2). split.
    + rewrite H2, H1, app_assoc. reflexivity.
    + apply Forall_app. split; assumption.
Qed.

Lemma print_no_verdict what values :
  ~ In what verdicts -> preserves no_verdict (print what values).
Proof.
  intros Hw st. simpl. eexists. split; [reflexivity|].
  constructor; [exact Hw | constructor].
Qed.

Lemma setitem_no_verdict name s : preserves no_verdict (self_setitem name s).
Proof. intro st. simpl. exists []. rewrite app_nil_r. split; [reflexivity | constructor]. Qed.

Lemma set_df_no_verdict df : preserves no_verdict (set_df df).
Proof. intro st. simpl. exists []. rewrite app_nil_r. split; [reflexivity | constructor]. Qed.

Lemma preserves_for_each_In (R : analyzer -> analyzer -> Prop)
    {R_pre : RelationClasses.PreOrder R} {A} (l : list A) (body : A -> M unit) :
  (forall x, In x l -> preserves R (body x)) -> preserves R (for_each l body).
Proof.
  induction l as [|x tl IH]; simpl; intro Hb.
  - apply preserves_ret. exact R_pre.
  - apply preserves_bind; [exact R_pre | apply Hb; left; reflexivity |].
    intros _. apply IH. intros y Hy. apply Hb. right. exact Hy.
Qed.

(** A loop over a list that is written out: one case for each of its
    elements. *)
Ltac each_element :=
  match goal with
  | |- preserves _ (for_each _ _) =>
      let x := fresh "x" in
      let Hin := fresh "Hin" in
      apply preserves_for_each_In; [exact _ |];
      intros x Hin; cbn in Hin;
      repeat (destruct Hin as [<- | Hin]);
      try (exfalso; exact Hin)
  end.

Ltac verdict_leaf :=
  first [ apply print_no_verdict; unfold verdicts; simpl; intuition discriminate
        | apply setitem_no_verdict
        | apply set_df_no_verdict ].

Ltac no_verdicts := repeat first [each_element | preserve_step | verdict_leaf].

Section Driver.

Context {lib : Library}.

Lemma load_dataset_console_grows (dataset_path : string) :
  preserves console_grows (load_dataset dataset_path).
Proof.
  unfold load_dataset. apply preserves_try_reraise; preserve console_leaf'.
Qed.

Lemma generate_report_console_grows : preserves console_grows generate_report.
Proof.
  unfold generate_report, analyze_basic_statistics, analyze_demographics,
    age_distribution, gender_distribution, medical_history_distribution,
    analyze_correlations, analyze_temporal_patterns, analyze_clustering_features,
    generate_clustering_recommendations.
  preserve console_leaf.
Qed.

Lemma load_dataset_no_verdict (dataset_path : string) :
  preserves no_verdict (load_dataset dataset_path).
Proof.
  unfold load_dataset. apply preserves_try_reraise; no_verdicts.
Qed.

Lemma basic_statistics_no_verdict : preserves no_verdict analyze_basic_statistics.
Proof. unfold analyze_basic_statistics. no_verdicts. Qed.

Lemma demographics_no_verdict : preserves no_verdict analyze_demographics.
Proof.
  unfold analyze_demographics, age_distribution, gender_distribution,
    medical_history_distribution.
  no_verdicts.
Qed.

Lemma correlations_no_verdict : preserves no_verdict analyze_correlations.
Proof. unfold analyze_correlations. no_verdicts. Qed.

Lemma temporal_no_verdict : preserves no_verdict analyze_temporal_patterns.
Proof. unfold analyze_temporal_patterns. no_verdicts. Qed.

Lemma clustering_features_no_verdict : preserves no_verdict analyze_clustering_features.
Proof. unfold analyze_clustering_features. no_verdicts. Qed.

Lemma recommendations_no_verdict features_df :
  preserves no_verdict (generate_clustering_recommendations features_df).
Proof. unfold generate_clustering_recommendations. no_verdicts. Qed.

Lemma generate_report_no_verdict : preserves no_verdict generate_report.
Proof.
  unfold generate_report.
  repeat first
    [ apply basic_statistics_no_verdict | apply demographics_no_verdict
    | apply correlations_no_verdict | apply temporal_no_verdict
    | apply clustering_features_no_verdict | apply recommendations_no_verdict
    | preserve_step | verdict_leaf ].
Qed.

Lemma analyze_file_lines (out : list line) (dataset : string) :
  exists printed verdict,
    analyze_file out dataset =
      out ++ Line "ANALYZING" [CStr dataset] :: printed ++ [Line verdict [CStr dataset]] /\
    In verdict verdicts /\
    Forall (fun l => ~ is_verdict l) printed.
Proof.
  unfold analyze_file, HealthDatasetAnalyzer.
  pose proof (load_dataset_no_verdict dataset
                (new_analyzer (out ++ [Line "ANALYZING" [CStr dataset]]))) as Hload.
  destruct (load_dataset dataset _) as [st1 r1]. destruct Hload as (l1 & H1 & F1).
  simpl in H1.
  assert (Hshape : forall st verdict,
            no_verdict st1 st -> In verdict verdicts ->
            exists printed v,
              console st ++ [Line verdict [CStr dataset]] =
                out ++ Line "ANALYZING" [CStr dataset] :: printed ++ [Line v [CStr dataset]] /\
              In v verdicts /\
              Forall (fun l => ~ is_verdict l) printed).
  { intros st verdict (l2 & H2 & F2) Hv. exists (l1 ++ l2), verdict.
    split; [|split; [exact Hv | apply Forall_app; split; assumption]].
    rewrite H2, H1. rewrite <- !app_assoc. reflexivity. }
  destruct r1 as [[] | e1].
  - pose proof (generate_report_no_verdict st1) as Hrep.
    destruct (generate_report st1) as [st2 [res | e2]]; simpl in Hrep.
    + apply Hshape; [exact Hrep | simpl; tauto].
    + destruct e2; apply Hshape; try exact Hrep; simpl; tauto.
  - destruct e1; apply Hshape; try reflexivity; simpl; tauto.
Qed.

(** The driver analyses both files, in their order, whatever happens to
    the first: its output is the banner, then for each file the line
    that names it, what the loader and the reporters printed, none of
    which is a verdict, and exactly one verdict for that file (complete,
    file not found, or error), and at the end the line that the analysis
    is complete. *)
Theorem main_analyses_both_files :
  exists printed verdict printed' verdict',
    main =
      Line "Health AI Dataset Analyzer" [] ::
      Line "ANALYZING" [CStr "training_dataset.csv"] ::
      printed ++
      Line verdict [CStr "training_dataset.csv"] ::
      Line "ANALYZING" [CStr "enhanced_training_dataset.csv"] ::
      printed' ++
      [Line verdict' [CStr "enhanced_training_dataset.csv"];
       Line "Dataset analysis complete!" []] /\
    In verdict verdicts /\ In verdict' verdicts /\
    Forall (fun l => ~ is_verdict l) printed /\
    Forall (fun l => ~ is_verdict l) printed'.
Proof.
  unfold main. cbn [fold_left].
  destruct (analyze_file_lines [Line "Health AI Dataset Analyzer" []] "training_dataset.csv")
    as (p1 & v1 & E1 & Hv1 & F1).
  rewrite E1.
  destruct (analyze_file_lines
              ([Line "Health AI Dataset Analyzer" []] ++
               Line "ANALYZING" [CStr "training_dataset.csv"] ::
               p1 ++ [Line v1 [CStr "training_dataset.csv"]])
              "enhanced_training_dataset.csv")
    as (p2 & v2 & E2 & Hv2 & F2).
  rewrite E2.
  exists p1, v1, p2, v2. split; [|repeat split; assumption].
  cbn [app]. f_equal. f_equal. rewrite <- !app_assoc. cbn [app].
  f_equal. f_equal. f_equal. rewrite <- !app_assoc. reflexivity.
Qed.

(** A file that cannot be read is reported in three lines and no more:
    the line that names it, the loader's error line, and the verdict,
    which is file not found for [FileNotFoundError] and error for every
    other exception; no reporter runs. *)
Theorem analyze_file_unreadable (out : list line) (dataset : string) (e : exn) :
  read_csv dataset = Raise e ->
  analyze_file out dataset =
    out ++ [Line "ANALYZING" [CStr dataset];
            Line "Error loading dataset" [];
            Line (match e with
                  | FileNotFoundError => "Dataset file not found"
                  | _ => "Error analyzing"
                  end) [CStr dataset]].
Proof.
  intro Hread. unfold analyze_file, HealthDatasetAnalyzer, load_dataset.
  erewrite try_reraise_Raise.
  2:{ erewrite bind_Raise; [reflexivity|]. unfold lift. rewrite Hread. reflexivity. }
  destruct e; simpl; rewrite <- !app_assoc; reflexivity.
Qed.

End Driver.

Lemma analyze_file_unreadable_witness :
  analyze_file (lib := Sample.lib) [] "enhanced_training_dataset.csv" =
    [Line "ANALYZING" [CStr "enhanced_training_dataset.csv"];
     Line "Error loading dataset" [];
     Line "Dataset file not found" [CStr "enhanced_training_dataset.csv"]].
Proof.
  apply (analyze_file_unreadable (lib := Sample.lib) []
           "enhanced_training_dataset.csv" FileNotFoundError).
  reflexivity.
Defined.

(* ================================================================== *)
(** * Further properties of the range of cluster counts *)
(* ================================================================== *)

(** The recommended range over all sample counts: the lower end is at
    least 2 and is 2 exactly up to 17 samples, the upper end is between 0
    and 10 and is 10 exactly from 100 samples on, and neither end goes
    down when the samples get more. *)
Theorem k_range_bounds (n n' : nat) :
  2 <= k_min n /\
  0 <= k_max n <= 10 /\
  (k_min n = 2 <-> (n <= 17)%nat) /\
  (k_max n = 10 <-> (100 <= n)%nat) /\
  ((n <= n')%nat -> k_min n <= k_min n' /\ k_max n <= k_max n').
Proof.
  rewrite !k_min_eq, !k_max_eq.
  pose proof (Z.sqrt_nonneg (Z.of_nat n)) as Hs.
  pose proof (Z.sqrt_nonneg (Z.of_nat n / 2)) as Hh.
  assert (Hhalf : 0 <= Z.of_nat n / 2) by (apply Z.div_pos; lia).
  split; [lia|]. split; [lia|]. split; [|split].
  - pose proof (Z.sqrt_lt_square (Z.of_nat n / 2) 3 Hhalf ltac:(lia)) as Hsq.
    split.
    + intro H. assert (Hlt : Z.sqrt (Z.of_nat n / 2) < 3) by lia.
      apply Hsq in Hlt.
      pose proof (Z.div_mod (Z.of_nat n) 2 ltac:(lia)) as Hdm.
      pose proof (Z.mod_pos_bound (Z.of_nat n) 2 ltac:(lia)) as Hmb.
      lia.
    + intro H. assert (Hlt : Z.of_nat n / 2 < 3 * 3).
      { apply Z.div_lt_upper_bound; lia. }
      apply Hsq in Hlt. lia.
  - pose proof (Z.sqrt_le_square (Z.of_nat n) 10 ltac:(lia) ltac:(lia)) as Hsq.
    split.
    + intro H. assert (Hle : 10 <= Z.sqrt (Z.of_nat n)) by lia.
      apply Hsq in Hle. lia.
    + intro H. assert (Hle : 10 * 10 <= Z.of_nat n) by lia.
      apply Hsq in Hle. lia.
  - intro Hn.
    assert (H1 : Z.sqrt (Z.of_nat n / 2) <= Z.sqrt (Z.of_nat n' / 2)).
    { apply Z.sqrt_le_mono. apply Z.div_le_mono; lia. }
    assert (H2 : Z.sqrt (Z.of_nat n) <= Z.sqrt (Z.of_nat n')).
    { apply Z.sqrt_le_mono. lia. }
    lia.
Qed.

Lemma k_range_bounds_witness :
  k_min 3 <= k_min 400 /\ k_max 3 <= k_max 400.
Proof.
  apply (proj2 (proj2 (proj2 (proj2 (k_range_bounds 3 400))))). lia.
Defined.

(* ================================================================== *)
(** * Further properties of the symptom counts *)
(* ================================================================== *)

Lemma counter_add_total (j : json) (acc : list (json * Z)) :
  total (counter_add j acc) = total acc + 1.
Proof.
  unfold total. induction acc as [|[k n] tl IH]; simpl; [reflexivity|].
  destruct (key_eqb k j); simpl; lia.
Qed.

Lemma counter_add_positive (j : json) (acc : list (json * Z)) :
  Forall (fun kv => 1 <= snd kv) acc ->
  Forall (fun kv => 1 <= snd kv) (counter_add j acc).
Proof.
  induction acc as [|[k n] tl IH]; simpl; intro H.
  - constructor; [simpl; lia | constructor].
  - inversion H; subst. destruct (key_eqb k j); constructor; simpl in *; auto; lia.
Qed.

Lemma counter_fold (items : list json) (acc : list (json * Z)) :
  Forall (fun kv => 1 <= snd kv) acc ->
  let c := fold_left (fun acc j => counter_add j acc) items acc in
  total c = total acc + Z.of_nat (List.length items) /\
  Forall (fun kv => 1 <= snd kv) c.
Proof.
  revert acc. induction items as [|j tl IH]; simpl; intros acc Hacc.
  - split; [lia | exact Hacc].
  - destruct (IH (counter_add j acc) (counter_add_positive j acc Hacc)) as [Ht Hp].
    split; [|exact Hp]. rewrite Ht, counter_add_total. lia.
Qed.

Section ByCount.

Lemma insert_by_count_length x l :
  List.length (insert_sorted by_count x l) = S (List.length l).
Proof. induction l as [|y tl IH]; simpl; [reflexivity|]. destruct (by_count x y); simpl; auto. Qed.

Lemma insert_by_count_In x l y :
  In y (insert_sorted by_count x l) <-> y = x \/ In y l.
Proof.
  induction l as [|z tl IH]; simpl; [intuition|].
  destruct (by_count x z); simpl; [intuition|]. rewrite IH. intuition.
Qed.

Lemma insert_by_count_sorted x l :
  StronglySorted more_common l -> StronglySorted more_common (insert_sorted by_count x l).
Proof.
  induction l as [|y tl IH]; simpl; intro H.
  - repeat constructor.
  - inversion H as [|? ? Htl Hy]; subst.
    destruct (by_count x y) eqn:E; unfold by_count in E.
    + apply Z.leb_le in E. constructor; [exact H|].
      constructor; [exact E|].
      eapply Forall_impl; [|exact Hy]. unfold more_common. intros a Ha. lia.
    + apply Z.leb_gt in E. constructor; [apply IH; exact Htl|].
      apply Forall_forall. intros a Ha. apply insert_by_count_In in Ha.
      destruct Ha as [-> | Ha]; [unfold more_common; lia|].
      rewrite Forall_forall in Hy. apply Hy. exact Ha.
Qed.

Lemma insert_by_count_stable k x l :
  with_count k (insert_sorted by_count x l) = with_count k (x :: l).
Proof.
  unfold with_count. induction l as [|y tl IH]; simpl; [reflexivity|].
  destruct (by_count x y) eqn:E; unfold by_count in E; simpl; [reflexivity|].
  apply Z.leb_gt in E. rewrite IH. simpl.
  destruct (snd x =? k) eqn:Ex; [|reflexivity].
  apply Z.eqb_eq in Ex.
  destruct (snd y =? k) eqn:Ey; [|reflexivity].
  apply Z.eqb_eq in Ey. lia.
Qed.

Lemma sort_by_count_length l : List.length (sort_by by_count l) = List.length l.
Proof. induction l as [|x tl IH]; simpl; [reflexivity|]. rewrite insert_by_count_length. auto. Qed.

Lemma sort_by_count_In l y : In y (sort_by by_count l) <-> In y l.
Proof.
  induction l as [|x tl IH]; simpl; [reflexivity|].
  rewrite insert_by_count_In, IH. intuition.
Qed.

Lemma sort_by_count_sorted l : StronglySorted more_common (sort_by by_count l).
Proof.
  induction l as [|x tl IH]; simpl; [constructor|]. apply insert_by_count_sorted, IH.
Qed.

Lemma sort_by_count_stable k l : with_count k (sort_by by_count l) = with_count k l.
Proof.
  induction l as [|x tl IH]; simpl; [reflexivity|].
  rewrite insert_by_count_stable. unfold with_count in *. simpl. rewrite IH. reflexivity.
Qed.

End ByCount.

Lemma in_firstn {A} (n : nat) (l : list A) (a : A) : In a (firstn n l) -> In a l.
Proof.
  intro H. rewrite <- (firstn_skipn n l). apply in_or_app. left. exact H.
Qed.

Lemma sorted_firstn {A} (R : A -> A -> Prop) (n : nat) (l : list A) :
  StronglySorted R l ->
  StronglySorted R (firstn n l) /\
  Forall (fun a => Forall (R a) (skipn n l)) (firstn n l).
Proof.
  revert l. induction n as [|n IH]; intros l H; simpl.
  - split; constructor.
  - destruct l as [|x tl]; [split; constructor|].
    inversion H as [|? ? Htl Hx]; subst.
    destruct (IH tl Htl) as [Hs Hf]. split.
    + constructor; [exact Hs|].
      rewrite Forall_forall in *. intros a Ha. apply Hx. eapply in_firstn; eauto.
    + constructor; [|exact Hf].
      rewrite Forall_forall in *. intros a Ha. apply Hx.
      rewrite <- (firstn_skipn n tl). apply in_or_app. right. exact Ha.
Qed.

Lemma counter_fold_head (tl : list json) (k : json) (n : Z) (acc : list (json * Z)) :
  fold_left (fun acc j => counter_add j acc) tl ((k, n) :: acc) =
  (k, n + Z.of_nat (List.length (filter (key_eqb k) tl)))
    :: fold_left (fun acc j => counter_add j acc)
         (filter (fun y => negb (key_eqb k y)) tl) acc.
Proof.
  revert n acc. induction tl as [|y tl IH]; intros n acc; cbn [fold_left filter].
  - cbn. rewrite Z.add_0_r. reflexivity.
  - cbn [counter_add]. destruct (key_eqb k y) eqn:E; cbn [negb].
    + rewrite IH. cbn [List.length]. f_equal. f_equal. lia.
    + rewrite IH. reflexivity.
Qed.

Lemma length_filter_le {A} (f : A -> bool) (l : list A) :
  (List.length (filter f l) <= List.length l)%nat.
Proof.
  induction l as [|x tl IH]; simpl; [lia|]. destruct (f x); simpl; lia.
Qed.

Lemma counter_first_seen (fuel : nat) (items : list json) :
  (List.length items <= fuel)%nat ->
  fold_left (fun acc j => counter_add j acc) items [] = first_seen_counts_of fuel items.
Proof.
  revert items. induction fuel as [|fuel IH]; intros items Hlen.
  - destruct items; [reflexivity | simpl in Hlen; lia].
  - destruct items as [|x tl]; [reflexivity|].
    cbn [fold_left counter_add first_seen_counts_of].
    rewrite counter_fold_head. f_equal. apply IH.
    pose proof (length_filter_le (fun y => negb (key_eqb x y)) tl). simpl in Hlen. lia.
Qed.

Lemma first_seen_keys (fuel : nat) (items : list json) (kv : json * Z) :
  In kv (first_seen_counts_of fuel items) -> In (fst kv) items.
Proof.
  revert items. induction fuel as [|fuel IH]; intros items H; [destruct H|].
  destruct items as [|x tl]; [destruct H|].
  destruct H as [<- | H]; [left; reflexivity|].
  right. apply IH in H. apply filter_In in H. tauto.
Qed.

Lemma first_seen_distinct (fuel : nat) (items : list json) :
  distinct_keys (first_seen_counts_of fuel items).
Proof.
  unfold distinct_keys. revert items.
  induction fuel as [|fuel IH]; intro items; [constructor|].
  destruct items as [|x tl]; [constructor|].
  cbn [first_seen_counts_of]. constructor; [apply IH|].
  apply Forall_forall. intros kv Hkv. apply first_seen_keys in Hkv.
  apply filter_In in Hkv. destruct Hkv as [_ Hne]. cbn [fst].
  destruct (key_eqb x (fst kv)); [discriminate | reflexivity].
Qed.

Lemma flat_map_singleton {A B} (f : A -> B) (l : list A) :
  flat_map (fun x => [f x]) l = map f l.
Proof. induction l as [|x tl IH]; simpl; [reflexivity|]. rewrite IH. reflexivity. Qed.

Section SymptomCounts.

Context {lib : Library}.

(** The most common symptoms. When the statistics reporter returns, the
    lines it printed end with the symptoms of [most_common(10)] of the
    counter of all the symptoms of the table. The counter has one entry
    for every distinct symptom, in the order in which the symptoms are
    first seen, and an entry counts the occurrences of its symptom; the
    counts sum to the number of symptoms. The lines are for 10 entries, or
    all if there are fewer, in descending order of count; no entry left
    out has a higher count than one that is printed; and among equal
    counts the symptom seen first comes first. *)
Theorem most_common_symptoms (st st' : analyzer) :
  analyze_basic_statistics st = (st', Ok tt) ->
  exists parsed lists summary,
    get_col "symptoms_parsed" (self_df st) = Some parsed /\
    rmap py_iter parsed = Ok lists /\
    let all_symptoms := List.concat lists in
    let symptom_counts := first_seen_counts all_symptoms in
    let top := most_common 10 symptom_counts in
    Counter all_symptoms = Ok symptom_counts /\
    console st' = console st ++ summary ++ map symptom_line top /\
    distinct_keys symptom_counts /\
    total symptom_counts = Z.of_nat (List.length all_symptoms) /\
    List.length top = Nat.min 10 (List.length symptom_counts) /\
    StronglySorted more_common top /\
    (exists rest,
       most_common (List.length symptom_counts) symptom_counts = top ++ rest /\
       Forall (fun a => Forall (more_common a) rest) top) /\
    (forall k,
       with_count k (most_common (List.length symptom_counts) symptom_counts) =
       with_count k symptom_counts).
Proof.
  intro H. unfold analyze_basic_statistics in H. cbv zeta in H.
  apply bind_Ok_inv in H. destruct H as (st1 & [] & Hloop & H).
  assert (Hst1 : self_df st1 = self_df st /\ exists l1, console st1 = console st ++ l1).
  { match type of Hloop with
    | ?m ?s = _ =>
        assert (Hsame : preserves same_df m) by (preserve same_df_leaf);
        assert (Hgrow : preserves console_grows m) by (preserve console_leaf);
        specialize (Hsame s); specialize (Hgrow s);
        rewrite Hloop in Hsame, Hgrow; split; [exact Hsame | exact Hgrow]
    end. }
  destruct Hst1 as [Hdf [l1 Hl1]].
  invert_step H. invert_step H.
  do 3 invert_any H.
  invert_step H. invert_step H. cbv zeta in H.
  invert_step H.
  cbn [self_df console] in *.
  match goal with
  | Hp : get_col "symptoms_parsed" _ = Some ?parsed,
    Hl : rmap py_iter ?parsed = Ok ?lists,
    Hc : Counter (List.concat ?lists) = Ok ?c |- _ =>
      rename Hp into Hparsed; rename Hl into Hlists; rename Hc into Hcounter;
      rename parsed into parsed0; rename lists into lists0; rename c into counts0
  end.
  assert (Hcounts : counts0 = first_seen_counts (List.concat lists0)).
  { unfold Counter in Hcounter.
    destruct (forallb hashable (List.concat lists0)); [|discriminate Hcounter].
    injection Hcounter as <-.
    apply counter_first_seen. lia. }
  assert (Htotal : total counts0 = Z.of_nat (List.length (List.concat lists0))).
  { unfold Counter in Hcounter.
    destruct (forallb hashable (List.concat lists0)); [|discriminate Hcounter].
    injection Hcounter as <-.
    destruct (counter_fold (List.concat lists0) [] (Forall_nil _)) as [Ht _].
    exact Ht. }
  subst counts0.
  rewrite (for_each_prints _ (fun sc => [symptom_line sc])) in H
    by (intros x s0; reflexivity).
  inversion H; subst st'; clear H.
  exists parsed0, lists0.
  match goal with
  | Hn : numeric _ = Ok ?xs |- _ =>
      exists (l1 ++ [Line "Average symptoms per record" [CNum (series_mean xs)];
                     Line "Max symptoms in single record" [CNum (series_max xs)];
                     Line "Records with no symptoms"
                       [CNum (of_nat (List.length
                                        (filter (fun x => feqb x (Fin 0)) xs)))]])
  end.
  rewrite Hdf in *.
  split; [exact Hparsed|]. split; [exact Hlists|].
  cbv zeta.
  split; [exact Hcounter|].
  split.
  { cbn [console]. rewrite Hl1, flat_map_singleton, <- !app_assoc. reflexivity. }
  split; [apply first_seen_distinct|].
  split; [exact Htotal|].
  set (c := first_seen_counts (List.concat lists0)).
  unfold most_common.
  pose proof (sort_by_count_sorted c) as Hs.
  destruct (sorted_firstn more_common 10 _ Hs) as [Hfirst Hrest].
  assert (Hall : firstn (List.length c) (sort_by (fun a b => snd b <=? snd a) c) =
                 sort_by (fun a b => snd b <=? snd a) c).
  { rewrite <- (sort_by_count_length c). apply firstn_all. }
  split; [rewrite length_firstn, sort_by_count_length; reflexivity|].
  split; [exact Hfirst|]. split.
  - exists (skipn 10 (sort_by (fun a b => snd b <=? snd a) c)).
    split; [|exact Hrest].
    rewrite Hall. symmetry. apply firstn_skipn.
  - intro k. rewrite Hall. apply sort_by_count_stable.
Qed.

End SymptomCounts.

Lemma most_common_symptoms_witness :
  exists st' summary,
    analyze_basic_statistics (lib := Sample.lib) Sample.loaded = (st', Ok tt) /\
    console st' =
      console Sample.loaded ++ summary
        ++ [Line "symptom" [CObj (JStr "fever"); CNum (Fin 1)];
            Line "symptom" [CObj (JStr "cough"); CNum (Fin 1)]].
Proof.
  destruct (analyze_basic_statistics (lib := Sample.lib) Sample.loaded)
    as [st' [[] | e]] eqn:E; [|vm_compute in E; discriminate E].
  destruct (most_common_symptoms (lib := Sample.lib) Sample.loaded st' E)
    as (parsed & lists & summary & Hparsed & Hlists & _ & Hconsole & _).
  exists st', summary. split; [reflexivity|].
  vm_compute in Hparsed. injection Hparsed as <-.
  vm_compute in Hlists. injection Hlists as <-.
  exact Hconsole.
Defined.

(* ================================================================== *)
(** * Further properties of the outliers *)
(* ================================================================== *)

Lemma Forall_insert_sorted {A} (P : A -> Prop) (le : A -> A -> bool) x l :
  P x -> Forall P l -> Forall P (insert_sorted le x l).
Proof.
  intros Hx. induction l as [|y tl IH]; simpl; intro H.
  - constructor; [exact Hx | constructor].
  - inversion H; subst. destruct (le x y); constructor; auto.
Qed.

Lemma Forall_sort_by {A} (P : A -> Prop) (le : A -> A -> bool) l :
  Forall P l -> Forall P (sort_by le l).
Proof.
  induction l as [|x tl IH]; simpl; intro H; [constructor|].
  inversion H; subst. apply Forall_insert_sorted; auto.
Qed.

Lemma Forall_nth_lt {A} (P : A -> Prop) (l : list A) (i : nat) (d : A) :
  Forall P l -> (i < List.length l)%nat -> P (nth i l d).
Proof.
  intros H Hi. rewrite Forall_forall in H. apply H, nth_In, Hi.
Qed.

Lemma mask_all_false {A} (f : A -> bool) (P : A -> Prop) (l : list A) :
  (forall x, P x -> f x = false) -> Forall P l ->
  filter (fun b : bool => b) (map f l) = [].
Proof.
  intros Hf H. induction H as [|x tl Hx Htl IH]; simpl; [reflexivity|].
  rewrite (Hf x Hx). exact IH.
Qed.

Lemma flt_NaN_r (x : fnum) : flt x NaN = false.
Proof. destruct x; reflexivity. Qed.

(** The quantiles of a column that holds one value only, missing values
    apart: missing when there is no value, else that value. *)
Lemma quantile_constant (col : list fnum) (q : Q) :
  Forall (fun x => x = NaN \/ x = Fin q) col ->
  (forall p, quantile col p = NaN) \/
  (forall p, (0 <= p <= 1)%Q -> exists v, quantile col p = Fin v /\ (v == q)%Q).
Proof.
  intro Hcol. unfold quantile.
  assert (Hvals : Forall (fun x => x = Fin q) (sort_by fle (dropna col))).
  { apply Forall_sort_by. unfold dropna. apply Forall_forall. intros x Hx.
    apply filter_In in Hx. destruct Hx as [Hin Hnn].
    rewrite Forall_forall in Hcol. destruct (Hcol x Hin) as [-> | ->];
      [discriminate Hnn | reflexivity]. }
  destruct (sort_by fle (dropna col)) as [|x tl] eqn:E; [left; reflexivity|].
  right. intros p [Hp0 Hp1]. cbv zeta.
  set (vals := x :: tl) in *.
  set (last := (List.length vals - 1)%nat).
  assert (Hlast : (last < List.length vals)%nat) by (subst last vals; simpl; lia).
  assert (Hpos0 : (0 <= p * inject_Z (Z.of_nat last))%Q).
  { apply Qmult_le_0_compat; [exact Hp0|].
    change 0%Q with (inject_Z 0). rewrite <- Zle_Qle. lia. }
  assert (Hpos1 : (p * inject_Z (Z.of_nat last) <= inject_Z (Z.of_nat last))%Q).
  { setoid_replace (inject_Z (Z.of_nat last)) with (1 * inject_Z (Z.of_nat last))%Q at 2
      by ring.
    apply Qmult_le_compat_r; [exact Hp1|].
    change 0%Q with (inject_Z 0). rewrite <- Zle_Qle. lia. }
  assert (Hfloor0 : 0 <= Qfloor (p * inject_Z (Z.of_nat last))).
  { change 0 with (Qfloor 0). apply Qfloor_resp_le. exact Hpos0. }
  assert (Hfloor1 : Qfloor (p * inject_Z (Z.of_nat last)) <= Z.of_nat last).
  { rewrite <- (Qfloor_Z (Z.of_nat last)) at 2. apply Qfloor_resp_le. exact Hpos1. }
  set (lo := Z.to_nat (Qfloor (p * inject_Z (Z.of_nat last)))).
  assert (Hlo : (lo <= last)%nat) by (subst lo; lia).
  rewrite (Forall_nth_lt _ vals lo NaN Hvals) by lia.
  rewrite (Forall_nth_lt _ vals (Nat.min (lo + 1) last) NaN Hvals) by lia.
  simpl. eexists. split; [reflexivity|]. ring.
Qed.

(** A column without a spread has no outliers: when all its values are
    the same number, missing values apart, or when it has no value at
    all, nothing lies outside the fences. *)
Theorem outliers_constant_column (col : list fnum) (q : Q) :
  Forall (fun x => x = NaN \/ x = Fin q) col ->
  outliers col = 0 /\
  Forall (fun x => is_outlier col x = false) col.
Proof.
  intro Hcol.
  assert (Hmask : forall x, x = NaN \/ x = Fin q ->
            flt x (lower_fence col) || fgt x (upper_fence col) = false).
  { intros x Hx. unfold lower_fence, upper_fence, IQR, Q1, Q3, fgt.
    destruct (quantile_constant col q Hcol) as [Hnan | Hfin].
    - rewrite !Hnan. simpl. rewrite flt_NaN_r. destruct x; reflexivity.
    - destruct (Hfin (1 # 4)) as (v1 & -> & H1); [split; discriminate|].
      destruct (Hfin (3 # 4)) as (v3 & -> & H3); [split; discriminate|].
      destruct Hx as [-> | ->]; [reflexivity|].
      simpl. apply orb_false_iff. split; apply Qlt_bool_false_iff; lra. }
  split.
  - unfold outliers, count_true, outlier_mask.
    rewrite (mask_all_false _ _ _ Hmask Hcol). reflexivity.
  - eapply Forall_impl; [|exact Hcol]. intros x Hx. unfold is_outlier. apply Hmask, Hx.
Qed.

Lemma outliers_constant_column_witness :
  outliers [Fin 5; NaN; Fin 5; Fin 5] = 0 /\ outliers [] = 0 /\ outliers [NaN; NaN] = 0.
Proof.
  split; [|split].
  - refine (proj1 (outliers_constant_column [Fin 5; NaN; Fin 5; Fin 5] 5 _)).
    repeat (apply Forall_cons; [first [left; reflexivity | right; reflexivity]|]).
    apply Forall_nil.
  - refine (proj1 (outliers_constant_column [] 0 _)). apply Forall_nil.
  - refine (proj1 (outliers_constant_column [NaN; NaN] 0 _)).
    repeat (apply Forall_cons; [left; reflexivity|]). apply Forall_nil.
Defined.
